(** * Network-clock playback: the player and the clock provider

    A shallow embedding of [playback.c] (the network-clock player) and of
    [network-clocks/netclock-server.c] (the clock provider).

    Both programs are glue around GLib and GStreamer.  The libraries are not
    part of the repository, so every call into them is recorded in a log of
    effects, in program order, and every answer they give (a position query,
    the result of a state change, the bus messages, the characters read from
    standard input) is an input of the model.  The C code between the calls
    is translated statement by statement. *)

From Stdlib Require Import ZArith List String Ascii Bool Lia.
Import ListNotations.
Local Open Scope string_scope.
Local Open Scope list_scope.
Local Open Scope Z_scope.

(** ** Machine integers *)

(** [gint] is a 32-bit and [gint64] a 64-bit two's complement integer;
    [guint] and [guint64] are their unsigned counterparts. *)
Definition G_MAXINT : Z := 2 ^ 31 - 1.
Definition G_MININT : Z := - 2 ^ 31.
Definition G_MAXINT64 : Z := 2 ^ 63 - 1.
Definition G_MININT64 : Z := - 2 ^ 63.

Definition to_gint (z : Z) : Z := (z + 2 ^ 31) mod 2 ^ 32 - 2 ^ 31.
Definition to_guint (z : Z) : Z := z mod 2 ^ 32.
Definition to_gint64 (z : Z) : Z := (z + 2 ^ 63) mod 2 ^ 64 - 2 ^ 63.
Definition to_guint64 (z : Z) : Z := z mod 2 ^ 64.

Definition is_gint (z : Z) : Prop := G_MININT <= z <= G_MAXINT.
Definition is_gint64 (z : Z) : Prop := G_MININT64 <= z <= G_MAXINT64.

Definition is_gintb (z : Z) : bool := (G_MININT <=? z) && (z <=? G_MAXINT).
Definition is_gint64b (z : Z) : bool := (G_MININT64 <=? z) && (z <=? G_MAXINT64).

(** ** Constants of the GStreamer headers *)

(** [GstClockTime] counts nanoseconds in a [guint64]; the all-ones value
    means that no time is known. *)
Definition GST_SECOND : Z := 1000000000.
Definition GST_MSECOND : Z := 1000000.
Definition GST_CLOCK_TIME_NONE : Z := 2 ^ 64 - 1.
Definition GST_SEEK_FLAG_FLUSH : Z := 1.

(** The [printf] length modifier of a [guint64] (LP64). *)
Definition G_GUINT64_FORMAT : string := "lu".

Inductive GstState :=
| GST_STATE_VOID_PENDING
| GST_STATE_NULL
| GST_STATE_READY
| GST_STATE_PAUSED
| GST_STATE_PLAYING.

Inductive GstStateChangeReturn :=
| GST_STATE_CHANGE_FAILURE
| GST_STATE_CHANGE_SUCCESS
| GST_STATE_CHANGE_ASYNC
| GST_STATE_CHANGE_NO_PREROLL.

Definition gst_element_state_get_name (s : GstState) : string :=
  match s with
  | GST_STATE_VOID_PENDING => "VOID_PENDING"
  | GST_STATE_NULL => "NULL"
  | GST_STATE_READY => "READY"
  | GST_STATE_PAUSED => "PAUSED"
  | GST_STATE_PLAYING => "PLAYING"
  end.

Definition GstState_eqb (a b : GstState) : bool :=
  match a, b with
  | GST_STATE_VOID_PENDING, GST_STATE_VOID_PENDING
  | GST_STATE_NULL, GST_STATE_NULL
  | GST_STATE_READY, GST_STATE_READY
  | GST_STATE_PAUSED, GST_STATE_PAUSED
  | GST_STATE_PLAYING, GST_STATE_PLAYING => true
  | _, _ => false
  end.

(** ** Effects *)

(** An argument of a [printf]-style call.  The format string is kept as it
    is written in the source (escapes included) next to its arguments. *)
Inductive Arg :=
| ArgS (s : string)
| ArgNull
| ArgZ (z : Z).

Inductive Obj := ObjNetClock | ObjBus | ObjPlaybin | ObjSystemClock.

Inductive PropVal :=
| VInt (z : Z)
| VStr (s : option string).

(** The calls that leave the program, in the order it makes them.  Reads
    ([g_object_get], the position query, [gst_element_get_bus]) are not
    logged; their answers are taken from the world. *)
Inductive Effect :=
| GPrint (fmt : string) (args : list Arg)
| GPrintErr (fmt : string) (args : list Arg)
| GError (fmt : string) (args : list Arg)
| NetClientClockNew (host : string) (port : Z)
| ClockWaitForSync (timeout : Z)
| ElementFactoryMake (type name : string)
| PipelineUseClock
| ObjectUnref (o : Obj)
| ElementSetStartTime (t : Z)
| ElementSetBaseTime (t : Z)
| PipelineSetLatency (l : Z)
| ObjectSet (prop : string) (v : PropVal)
| BusAddWatch (id : Z)
| MainLoopNew
| ElementSetState (s : GstState)
| IOAddWatch (id : Z)
| IOChannelUnref
| MainLoopRun
| MainLoopQuit
| SourceRemove (id : Z)
| MainLoopUnref
| ElementSeekSimple (seek_flags : Z) (pos : Z)
| BinRecalculateLatency
| NetTimeProviderNew (port : Z)
| GTimeoutAddSeconds (interval : Z)
| GOptionHelp.

(** How a run of a program ends, as far as the inputs given to the model
    tell: the process returns or calls [exit], it aborts in [g_error], it
    never leaves a blocking call, or its main loop is still running when the
    supplied events are used up. *)
Inductive Outcome :=
| Exited (code : Z)
| Aborted
| Blocked
| LoopRunning.

(** ** The player: [playback.c] *)

Module Playback.

Definition PLAY_FLAGS_VIDEO : Z := 0x1.
Definition PLAY_FLAGS_AUDIO : Z := 0x2.
Definition PLAY_FLAGS_SUBTITLES : Z := 0x4.
Definition PLAY_FLAGS_VISUALISATIONS : Z := 0x8.
Definition PLAY_FLAGS_DOWNLOAD : Z := 0x80.

(** The fields of [GlobalData] that hold plain data.  The two pointers of
    the C struct ([loop], [playbin]) refer to the objects kept in [World]. *)
Record GlobalData := mkGlobalData {
  bus_watch : Z;
  io_watch_id : Z;
  buffering : bool;
  is_live : bool
}.

(** What the playbin element answers when asked: its properties, and the
    result of a position query ([None] when the query fails). *)
Record Playbin := mkPlaybin {
  uri : option string;
  flags : Z;
  current_audio : Z;
  n_audio : Z;
  current_text : Z;
  n_text : Z;
  position : option Z
}.

(** An event source attached to the main context dispatches to one of the
    two callbacks of the program. *)
Inductive SourceKind := BusWatch | IOWatch.

Record World := mkWorld {
  data : GlobalData;
  playbin : Playbin;
  loop_is_running : bool;   (* the flag of the [GMainLoop] *)
  sources : list (Z * SourceKind);  (* the attached event sources *)
  next_source : Z;          (* the id the next attached source gets *)
  log : list Effect
}.

Definition with_data (d : GlobalData) (w : World) : World :=
  let (_, p, r, s, n, l) := w in mkWorld d p r s n l.
Definition with_playbin (p : Playbin) (w : World) : World :=
  let (d, _, r, s, n, l) := w in mkWorld d p r s n l.
Definition with_running (r : bool) (w : World) : World :=
  let (d, p, _, s, n, l) := w in mkWorld d p r s n l.
Definition with_sources (s : list (Z * SourceKind)) (n : Z) (w : World) : World :=
  let (d, p, r, _, _, l) := w in mkWorld d p r s n l.
Definition with_log (l : list Effect) (w : World) : World :=
  let (d, p, r, s, n, _) := w in mkWorld d p r s n l.

(** *** A state monad over the world *)

Definition Cb (A : Type) : Type := World -> A * World.

Definition ret {A} (a : A) : Cb A := fun w => (a, w).
Definition bind {A B} (c : Cb A) (k : A -> Cb B) : Cb B :=
  fun w => let (a, w') := c w in k a w'.

Declare Scope cb_scope.
Delimit Scope cb_scope with cb.
Notation "x <- c ;; k" := (bind c (fun x => k))
  (at level 61, c at next level, right associativity) : cb_scope.
Notation "c ;; k" := (bind c (fun _ => k))
  (at level 61, right associativity) : cb_scope.
Local Open Scope cb_scope.

Definition when (b : bool) (c : Cb unit) : Cb unit := if b then c else ret tt.

Definition emit (e : Effect) : Cb unit :=
  fun w => (tt, with_log (log w ++ [e]) w).

Definition get_data : Cb GlobalData := fun w => (data w, w).
Definition put_data (d : GlobalData) : Cb unit := fun w => (tt, with_data d w).

Definition set_buffering (b : bool) : Cb unit :=
  d <- get_data ;;
  put_data (mkGlobalData (bus_watch d) (io_watch_id d) b (is_live d)).
Definition set_is_live (b : bool) : Cb unit :=
  d <- get_data ;;
  put_data (mkGlobalData (bus_watch d) (io_watch_id d) (buffering d) b).
Definition set_bus_watch (id : Z) : Cb unit :=
  d <- get_data ;;
  put_data (mkGlobalData id (io_watch_id d) (buffering d) (is_live d)).
Definition set_io_watch_id (id : Z) : Cb unit :=
  d <- get_data ;;
  put_data (mkGlobalData (bus_watch d) id (buffering d) (is_live d)).

(** *** The library calls the callbacks make *)

Definition g_print (fmt : string) (args : list Arg) : Cb unit := emit (GPrint fmt args).
Definition g_printerr (fmt : string) (args : list Arg) : Cb unit :=
  emit (GPrintErr fmt args).

Definition g_main_loop_quit : Cb unit :=
  emit MainLoopQuit ;;
  fun w => (tt, with_running false w).

(** The callbacks ignore what [gst_element_set_state] returns. *)
Definition gst_element_set_state (s : GstState) : Cb unit := emit (ElementSetState s).

Definition gst_bin_recalculate_latency : Cb unit := emit BinRecalculateLatency.

Definition gst_element_query_position : Cb (option Z) :=
  fun w => (position (playbin w), w).

Definition gst_element_seek_simple (seek_flags : Z) (pos : Z) : Cb unit :=
  emit (ElementSeekSimple seek_flags pos).

Definition get_playbin : Cb Playbin := fun w => (playbin w, w).
Definition put_playbin (p : Playbin) : Cb unit := fun w => (tt, with_playbin p w).

Definition g_object_set_uri (u : option string) : Cb unit :=
  p <- get_playbin ;;
  emit (ObjectSet "uri" (VStr u)) ;;
  put_playbin (mkPlaybin u (flags p) (current_audio p) (n_audio p)
                 (current_text p) (n_text p) (position p)).
Definition g_object_set_flags (v : Z) : Cb unit :=
  p <- get_playbin ;;
  emit (ObjectSet "flags" (VInt v)) ;;
  put_playbin (mkPlaybin (uri p) v (current_audio p) (n_audio p)
                 (current_text p) (n_text p) (position p)).
Definition g_object_set_current_audio (v : Z) : Cb unit :=
  p <- get_playbin ;;
  emit (ObjectSet "current-audio" (VInt v)) ;;
  put_playbin (mkPlaybin (uri p) (flags p) v (n_audio p)
                 (current_text p) (n_text p) (position p)).
Definition g_object_set_current_text (v : Z) : Cb unit :=
  p <- get_playbin ;;
  emit (ObjectSet "current-text" (VInt v)) ;;
  put_playbin (mkPlaybin (uri p) (flags p) (current_audio p) (n_audio p)
                 v (n_text p) (position p)).

(** *** Bus messages *)

(** The caps of the video pad, as far as [handle_bus_msg] reads them. *)
Record VideoCaps := mkVideoCaps {
  width : Z;
  height : Z;
  pixel_aspect_ratio : option (Z * Z)
}.

(** A bus message with the fields the handler parses out of it. *)
Inductive GstMessage :=
| GST_MESSAGE_EOS
| GST_MESSAGE_ERROR (src : string) (message : string) (dbg_info : option string)
| GST_MESSAGE_TAG (artist title album : option string)
| GST_MESSAGE_ASYNC_DONE (video_pad : option VideoCaps)
| GST_MESSAGE_BUFFERING (percent : Z)
| GST_MESSAGE_CLOCK_LOST
| GST_MESSAGE_LATENCY
| GST_MESSAGE_REQUEST_STATE (src_path : string) (state : GstState)
| GST_MESSAGE_WARNING (message : string) (dbg : option string)
| GST_MESSAGE_STATE_CHANGED (src_is_playbin : bool) (old new pending : GstState)
    (base_time : Z)
| GST_MESSAGE_OTHER (missing_plugin : option string).

Definition print_tag (label : string) (value : option string) : Cb unit :=
  match value with
  | Some v => g_print label [ArgS v]
  | None => ret tt
  end.

Definition handle_bus_msg (msg : GstMessage) : Cb bool :=
  match msg with
  | GST_MESSAGE_EOS =>
      g_print "Finished playback. Exiting.\n" [] ;;
      g_main_loop_quit
  | GST_MESSAGE_ERROR src message dbg_info =>
      g_printerr "ERROR from element %s: %s\n" [ArgS src; ArgS message] ;;
      g_printerr "Debugging info: %s\n"
        [ArgS match dbg_info with Some d => d | None => "none" end] ;;
      g_print "Exiting.\n" [] ;;
      g_main_loop_quit
  | GST_MESSAGE_TAG artist title album =>
      g_print "Found tags\n" [] ;;
      print_tag "Artist: %s\n" artist ;;
      print_tag "Title: %s\n" title ;;
      print_tag "Album: %s\n" album
  | GST_MESSAGE_ASYNC_DONE video_pad =>
      g_print "Prerolled.\r" [] ;;
      match video_pad with
      | Some caps =>
          let (par_n, par_d) :=
            match pixel_aspect_ratio caps with
            | Some par => par
            | None => (1, 1)
            end in
          let width := to_gint (Z.quot (to_gint (width caps * par_n)) par_d) in
          g_print "Video size: %dx%d\n" [ArgZ width; ArgZ (height caps)]
      | None => ret tt
      end
  | GST_MESSAGE_BUFFERING percent =>
      d <- get_data ;;
      when (negb (buffering d)) (g_print "\n" []) ;;
      g_print "Buffering... %d%%  \r" [ArgZ percent] ;;
      (* no state management needed for live pipelines *)
      if is_live d then ret tt
      else if percent =? 100 then
        (* a 100% message means buffering is done *)
        d <- get_data ;;
        when (buffering d)
          (set_buffering false ;;
           gst_element_set_state GST_STATE_PLAYING)
      else
        (* buffering... *)
        d <- get_data ;;
        when (negb (buffering d))
          (gst_element_set_state GST_STATE_PAUSED ;;
           set_buffering true)
  | GST_MESSAGE_CLOCK_LOST =>
      g_print "Clock lost, selecting a new one\n" [] ;;
      gst_element_set_state GST_STATE_PAUSED ;;
      gst_element_set_state GST_STATE_PLAYING
  | GST_MESSAGE_LATENCY =>
      g_print "Redistribute latency...\n" [] ;;
      gst_bin_recalculate_latency
  | GST_MESSAGE_REQUEST_STATE name state =>
      g_print "Setting state to %s as requested by %s...\n"
        [ArgS (gst_element_state_get_name state); ArgS name] ;;
      gst_element_set_state state
  | GST_MESSAGE_WARNING message dbg =>
      g_printerr "WARNING %s\n" [ArgS message] ;;
      match dbg with
      | Some d => g_printerr "WARNING debug information: %s\n" [ArgS d]
      | None => ret tt
      end
  | GST_MESSAGE_STATE_CHANGED src_is_playbin old new pending base_time =>
      when (src_is_playbin
            && GstState_eqb old GST_STATE_PAUSED
            && GstState_eqb new GST_STATE_PLAYING)
        (g_print ("Reached playing. Base time is %" ++ G_GUINT64_FORMAT ++ "\n")%string
           [ArgZ base_time])
  | GST_MESSAGE_OTHER missing_plugin =>
      match missing_plugin with
      | Some desc => g_print "Missing plugin: %s\n" [ArgS desc]
      | None => ret tt
      end
  end ;;
  ret true.

(** *** Commands read from standard input *)

Definition seek (forward : bool) : Cb unit :=
  q <- gst_element_query_position ;;
  match q with
  | None => ret tt
  | Some position =>
      let position :=
        if forward then to_gint64 (position + 10 * GST_SECOND)
        else if position >? 10 * GST_SECOND then to_gint64 (position - 10 * GST_SECOND)
        else 0 in
      gst_element_seek_simple GST_SEEK_FLAG_FLUSH position
  end.

Definition next_audio : Cb unit :=
  p <- get_playbin ;;
  let count := n_audio p in
  let current := to_gint (current_audio p + 1) in
  let current := if current >=? count then 0 else current in
  g_object_set_current_audio current ;;
  g_print "Now playing audio track %d of %d\n" [ArgZ current; ArgZ count].

Definition toggle_subtitle : Cb unit :=
  p <- get_playbin ;;
  let flags := flags p in
  flags <- (if negb (Z.land flags PLAY_FLAGS_SUBTITLES =? 0) then
              g_print "Disabling subtitles\n" [] ;;
              ret (Z.land flags (Z.lnot PLAY_FLAGS_SUBTITLES))
            else
              g_print "Enabling subtitles\n" [] ;;
              ret (Z.lor flags PLAY_FLAGS_SUBTITLES)) ;;
  g_object_set_flags flags.

Definition next_subtitle : Cb unit :=
  p <- get_playbin ;;
  let count := n_text p in
  let current := to_gint (current_text p + 1) in
  let current := if current >=? count then 0 else current in
  g_object_set_current_text current ;;
  (* Make sure subtitles are enabled *)
  p <- get_playbin ;;
  let flags := Z.lor (flags p) PLAY_FLAGS_SUBTITLES in
  g_object_set_flags flags ;;
  g_print "Now showing subtitles track %d of %d\n" [ArgZ current; ArgZ count].

Definition toggle_vis : Cb unit :=
  p <- get_playbin ;;
  let flags := flags p in
  flags <- (if negb (Z.land flags PLAY_FLAGS_VISUALISATIONS =? 0) then
              g_print "Disabling visualisations\n" [] ;;
              ret (Z.land flags (Z.lnot PLAY_FLAGS_VISUALISATIONS))
            else
              g_print "Enabling visualisations\n" [] ;;
              ret (Z.lor flags PLAY_FLAGS_VISUALISATIONS)) ;;
  g_object_set_flags flags.

(** What [g_io_channel_read_chars] returns for a read of one character. *)
Inductive GIOStatus :=
| G_IO_STATUS_ERROR (message : string)
| G_IO_STATUS_NORMAL (c : ascii)
| G_IO_STATUS_EOF
| G_IO_STATUS_AGAIN.

Definition on_key (c : ascii) : Cb unit :=
  if Ascii.eqb c "q" then g_main_loop_quit
  else if Ascii.eqb c "f" then seek false
  else if Ascii.eqb c "g" then seek true
  else if Ascii.eqb c "a" then next_audio
  else if Ascii.eqb c "d" then toggle_subtitle
  else if Ascii.eqb c "s" then next_subtitle
  else if Ascii.eqb c "v" then toggle_vis
  else ret tt.

Definition io_callback (status : GIOStatus) : Cb bool :=
  match status with
  | G_IO_STATUS_NORMAL c => on_key c ;; ret true
  | G_IO_STATUS_AGAIN => ret true
  | G_IO_STATUS_ERROR message =>
      g_printerr "stdin IO error: %s\n" [ArgS message] ;;
      g_main_loop_quit ;;
      ret false
  | G_IO_STATUS_EOF => ret false
  end.

(** *** The main loop *)

(** What can happen in one iteration of the main context: the bus has a
    message, standard input is readable, or the pipeline has moved on by
    itself and answers queries differently from now on. *)
Inductive Event :=
| BusMessage (msg : GstMessage)
| StdinReady (status : GIOStatus)
| PipelineChanged (p : Playbin).

Definition SourceKind_eqb (a b : SourceKind) : bool :=
  match a, b with
  | BusWatch, BusWatch | IOWatch, IOWatch => true
  | _, _ => false
  end.

Definition has_source (k : SourceKind) (l : list (Z * SourceKind)) : bool :=
  existsb (fun s => SourceKind_eqb (snd s) k) l.

Definition attached (k : SourceKind) : Cb bool :=
  fun w => (has_source k (sources w), w).

(** A callback that returns [FALSE] has its source destroyed. *)
Definition destroy_source (k : SourceKind) : Cb unit :=
  fun w => (tt, with_sources
                  (filter (fun s => negb (SourceKind_eqb (snd s) k)) (sources w))
                  (next_source w) w).

Definition attach (k : SourceKind) : Cb Z :=
  fun w => (next_source w,
            with_sources ((next_source w, k) :: sources w) (next_source w + 1) w).

Definition g_source_remove (id : Z) : Cb unit :=
  emit (SourceRemove id) ;;
  fun w => (tt, with_sources (filter (fun s => negb (fst s =? id)) (sources w))
                  (next_source w) w).

Definition dispatch (ev : Event) : Cb unit :=
  match ev with
  | BusMessage msg =>
      a <- attached BusWatch ;;
      when a (keep <- handle_bus_msg msg ;;
              when (negb keep) (destroy_source BusWatch))
  | StdinReady status =>
      a <- attached IOWatch ;;
      when a (keep <- io_callback status ;;
              when (negb keep) (destroy_source IOWatch))
  | PipelineChanged p => put_playbin p
  end.

Fixpoint dispatch_all (ready : list Event) : Cb unit :=
  match ready with
  | [] => ret tt
  | ev :: rest => dispatch ev ;; dispatch_all rest
  end.

(** [g_main_loop_run], after it has set the running flag: every iteration
    dispatches the sources that are ready, and the flag is looked at between
    iterations.  The result tells whether the loop has returned. *)
Fixpoint iterate (iterations : list (list Event)) : Cb bool :=
  match iterations with
  | [] => ret false
  | ready :: rest =>
      dispatch_all ready ;;
      running <- (fun w => (loop_is_running w, w)) ;;
      if running then iterate rest else ret true
  end.

Definition g_main_loop_run (iterations : list (list Event)) : Cb bool :=
  emit MainLoopRun ;;
  (fun w => (tt, with_running true w)) ;;
  iterate iterations.

(** *** Start-up *)

(** A command-line argument as [g_option_context_parse] sees it. *)
Inductive CliArg :=
| OptClockHost (host : string)         (* -c / --clock-host *)
| OptClockPort (port : Z)              (* -p / --clock-port *)
| OptBaseTime (t : Z)                  (* -b / --base-time *)
| Positional (s : string)
| Unparsable (why : string)
| OptHelp.                     (* --help, -h, -?, --help-all, --gst-version *)

(** The three static variables the option entries point at. *)
Record Statics := mkStatics {
  clock_host : option string;
  clock_port : Z;
  base_time : Z
}.

Definition statics_init : Statics := mkStatics None 0 GST_CLOCK_TIME_NONE.

(** The two ways in which the parser does not hand the command line back:
    it fails, with a message, or it meets a help option, prints the help
    itself and calls [exit (0)]. *)
Inductive ParseStop :=
| ParseError (message : string)
| ParseHelp.

(** The message of the parser for an integer outside the range of its
    type.  GLib's own wording names the value and the option and depends on
    the locale; this text stands for it. *)
Definition bad_value_message : string := "Integer value out of range".

(** Options are taken in the order given and removed from [argv]; the
    first argument the parser stops at decides.  An integer outside the
    range of its type is a parse error.  The 64-bit signed value of
    [--base-time] is stored in a [GstClockTime].  The result is the reason
    the parser stopped, or the statics and what is left of [argv] after the
    program name. *)
Fixpoint g_option_context_parse (args : list CliArg) (st : Statics)
  : ParseStop + Statics * list string :=
  match args with
  | [] => inr (st, [])
  | OptClockHost h :: rest =>
      g_option_context_parse rest (mkStatics (Some h) (clock_port st) (base_time st))
  | OptClockPort p :: rest =>
      if is_gintb p then
        g_option_context_parse rest (mkStatics (clock_host st) p (base_time st))
      else inl (ParseError bad_value_message)
  | OptBaseTime t :: rest =>
      if is_gint64b t then
        g_option_context_parse rest
          (mkStatics (clock_host st) (clock_port st) (to_guint64 t))
      else inl (ParseError bad_value_message)
  | Positional s :: rest =>
      match g_option_context_parse rest st with
      | inr (st', argv) => inr (st', s :: argv)
      | inl e => inl e
      end
  | Unparsable why :: _ => inl (ParseError why)
  | OptHelp :: _ => inl ParseHelp
  end.

(** What the surroundings of a run decide. *)
Record Env := mkEnv {
  stack_data : GlobalData;      (* [data] is not initialised by [main] *)
  clock_syncs : bool;           (* the provider answers: a clock synchronises *)
  playbin_available : bool;     (* the element factory knows playbin *)
  new_playbin : Playbin;        (* the element it makes *)
  gst_uri_is_valid : string -> bool;
  gst_filename_to_uri : string -> option string;
  play_result : GstStateChangeReturn;
  iterations : list (list Event)
}.

(** Code that can leave the process before [main] returns. *)
Inductive Step (A : Type) :=
| Go (a : A)
| Stop (o : Outcome).
Arguments Go {A} a.
Arguments Stop {A} o.

Definition Run (A : Type) : Type := World -> Step A * World.

Definition pure {A} (a : A) : Run A := fun w => (Go a, w).
Definition halt {A} (o : Outcome) : Run A := fun w => (Stop o, w).
Definition lift {A} (c : Cb A) : Run A := fun w => let (a, w') := c w in (Go a, w').
Definition bindR {A B} (c : Run A) (k : A -> Run B) : Run B :=
  fun w => match c w with
           | (Go a, w') => k a w'
           | (Stop o, w') => (Stop o, w')
           end.

Declare Scope run_scope.
Delimit Scope run_scope with run.
Notation "x <- c ;; k" := (bindR c (fun x => k))
  (at level 61, c at next level, right associativity) : run_scope.
Notation "c ;; k" := (bindR c (fun _ => k))
  (at level 61, right associativity) : run_scope.

Definition create_element (env : Env) (type name : string) : Run unit :=
  (lift (emit (ElementFactoryMake type name)) ;;
   if playbin_available env then lift (put_playbin (new_playbin env))
   else
     lift (g_print "Failed to create element %s\n" [ArgS type]) ;;
     halt (Exited 1))%run.

Definition canonicalise_uri (env : Env) (s : string) : option string :=
  if gst_uri_is_valid env s then Some s else gst_filename_to_uri env s.

Definition G_MAXUINT16 : Z := 65535.

(** The ports [gst_net_client_clock_new] makes a clock for. *)
Definition valid_port (port : Z) : bool := (0 <? port) && (port <=? G_MAXUINT16).

(** [gst_net_client_clock_new] returns [NULL] for a port outside
    1..65535.  The result tells whether there is a clock. *)
Definition gst_net_client_clock_new (host : string) (port : Z) : Run bool :=
  (lift (emit (NetClientClockNew host port)) ;;
   pure (valid_port port))%run.

(** [gst_clock_wait_for_sync] returns [FALSE] at once when it is not given
    a clock.  Given one, it returns [TRUE] when the clock is synchronised
    and [FALSE] when the timeout has passed; without a timeout it comes
    back only when the clock is synchronised. *)
Definition gst_clock_wait_for_sync (env : Env) (clock : bool) (timeout : Z) : Run bool :=
  (lift (emit (ClockWaitForSync timeout)) ;;
   if negb clock then pure false
   else if clock_syncs env then pure true
   else if timeout =? GST_CLOCK_TIME_NONE then halt Blocked
   else pure false)%run.

Definition usage_keys : string :=
  "When running, pressing 'q' quits the application\n'f' seeks backwards 10 seconds\n'g' seeks forwards 10 seconds\n'a' switches to the next audio track\n'd' enables/disables subtitles\n's' switches to the next subtitle track\n'v' enables/disables visualisations\nFor this trivial example, you need to press enter after each command\n".

Definition arg_of (s : option string) : Arg :=
  match s with
  | Some s => ArgS s
  | None => ArgNull
  end.

Definition is_null {A} (p : option A) : bool :=
  match p with
  | Some _ => false
  | None => true
  end.

Definition main_body (env : Env) (argv0 : string) (args : list CliArg) : Run Z :=
  match g_option_context_parse args statics_init with
  | inl ParseHelp =>
      lift (emit GOptionHelp) ;;
      halt (Exited 0)
  | inl (ParseError message) =>
      lift (emit (GError "Error parsing options: %s" [ArgS message])) ;;
      halt Aborted
  | inr (st, argv) =>
      let argc := 1 + Z.of_nat (List.length argv) in
      if (argc <? 2) || is_null (clock_host st) || (clock_port st =? 0) then
        lift (g_print
          "Usage: %s -c netclock-host-IP -p netclock-host-port -b base-time <file>\n"
          [ArgS argv0]) ;;
        lift (g_print usage_keys []) ;;
        pure 1
      else
        net_clock <- gst_net_client_clock_new
                       match clock_host st with Some h => h | None => "" end
                       (clock_port st) ;;
        (* Wait until the local clock synchronises to the master *)
        gst_clock_wait_for_sync env net_clock GST_CLOCK_TIME_NONE ;;
        lift (g_print "Network clock is synched to master\n" []) ;;
        (* Build the pipeline *)
        create_element env "playbin" "playbin" ;;
        lift (emit PipelineUseClock) ;;
        lift (emit (ObjectUnref ObjNetClock)) ;;
        (* If a base-time was supplied, pass that to the pipeline *)
        lift (when (negb (base_time st =? GST_CLOCK_TIME_NONE))
                (emit (ElementSetStartTime GST_CLOCK_TIME_NONE) ;;
                 emit (ElementSetBaseTime (base_time st)))%cb) ;;
        (* Make everyone try and play with 100ms latency *)
        lift (emit (PipelineSetLatency (100 * GST_MSECOND))) ;;
        let uri := canonicalise_uri env (hd "" argv) in
        lift (g_object_set_uri uri) ;;
        (* Set the playbin download flag *)
        p <- lift get_playbin ;;
        lift (g_object_set_flags (Z.lor (flags p) PLAY_FLAGS_DOWNLOAD)) ;;
        (* Connect to the bus to receive callbacks *)
        id <- lift (attach BusWatch) ;;
        lift (emit (BusAddWatch id)) ;;
        lift (set_bus_watch id) ;;
        lift (emit (ObjectUnref ObjBus)) ;;
        (* Set up the main loop *)
        lift (emit MainLoopNew) ;;
        lift (fun w => (tt, with_running false w)) ;;
        (* Start playing *)
        lift (gst_element_set_state GST_STATE_PLAYING) ;;
        let sret := play_result env in
        lift (g_print "Now playing %s\n" [arg_of uri]) ;;
        lift match sret with
             | GST_STATE_CHANGE_FAILURE => ret tt
             | GST_STATE_CHANGE_NO_PREROLL =>
                 (g_print "Pipeline is live.\n" [] ;;
                  set_is_live true)%cb
             | GST_STATE_CHANGE_ASYNC => g_print "Prerolling...\r" []
             | GST_STATE_CHANGE_SUCCESS => ret tt
             end ;;
        (* Listen to stdin input *)
        id <- lift (attach IOWatch) ;;
        lift (emit (IOAddWatch id)) ;;
        lift (set_io_watch_id id) ;;
        lift (emit IOChannelUnref) ;;
        (* Run the mainloop until it is exited by the message handler *)
        returned <- lift (g_main_loop_run (iterations env)) ;;
        if returned then
          (* Clean everything up before exiting *)
          d <- lift get_data ;;
          lift (g_source_remove (bus_watch d)) ;;
          lift (g_source_remove (io_watch_id d)) ;;
          lift (gst_element_set_state GST_STATE_NULL) ;;
          lift (emit (ObjectUnref ObjPlaybin)) ;;
          lift (emit MainLoopUnref) ;;
          pure 0
        else halt LoopRunning
  end%run.

Definition initial_world (env : Env) : World :=
  mkWorld (stack_data env) (new_playbin env) false [] 1 [].

Definition main (env : Env) (argv0 : string) (args : list CliArg) : Outcome * World :=
  match main_body env argv0 args (initial_world env) with
  | (Go code, w) => (Exited code, w)
  | (Stop o, w) => (o, w)
  end.

End Playback.

(** ** The clock provider: [network-clocks/netclock-server.c] *)

Module NetclockServer.

(** [atoi]: leading white space, an optional sign, then decimal digits up
    to the first character that is not one; the value is an [int]. *)
Definition is_space (c : ascii) : bool :=
  let n := Z.of_nat (nat_of_ascii c) in
  (n =? 32) || ((9 <=? n) && (n <=? 13)).

Definition digit_of (c : ascii) : option Z :=
  let n := Z.of_nat (nat_of_ascii c) in
  if (48 <=? n) && (n <=? 57) then Some (n - 48) else None.

Fixpoint skip_spaces (s : string) : string :=
  match s with
  | String c rest => if is_space c then skip_spaces rest else s
  | EmptyString => s
  end.

Fixpoint digits (s : string) (acc : Z) : Z :=
  match s with
  | String c rest =>
      match digit_of c with
      | Some d => digits rest (10 * acc + d)
      | None => acc
      end
  | EmptyString => acc
  end.

Definition atoi (s : string) : Z :=
  match skip_spaces s with
  | String "-" rest => to_gint (- digits rest 0)
  | String "+" rest => to_gint (digits rest 0)
  | rest => to_gint (digits rest 0)
  end.

(** What the surroundings decide: the value of the [port] property of the
    provider made for a requested port ([None] when no provider could be
    made), and the reading of the system clock at every expiry of the
    one-second timer. *)
Record Env := mkEnv {
  provider_port : Z -> option Z;
  clock_readings : list Z
}.

Record World := mkWorld {
  loop_is_running : bool;
  timer_attached : bool;
  log : list Effect
}.

Definition emit (e : Effect) (w : World) : World :=
  mkWorld (loop_is_running w) (timer_attached w) (log w ++ [e]).

Definition G_SOURCE_CONTINUE : bool := true.

(** [print_time], given what [gst_clock_get_time] returns. *)
Definition print_time (now : Z) (w : World) : bool * World :=
  (G_SOURCE_CONTINUE,
   emit (GPrint ("Base time %" ++ G_GUINT64_FORMAT ++ "\r")%string [ArgZ now]) w).

(** One expiry of the timer: the callback runs if the timer is still
    attached, and the timer is destroyed when the callback returns
    [FALSE]. *)
Definition expire (now : Z) (w : World) : World :=
  if timer_attached w then
    let (keep, w') := print_time now w in
    mkWorld (loop_is_running w') keep (log w')
  else w.

(** [g_main_loop_run] after it has set the running flag; the result tells
    whether the loop has returned. *)
Fixpoint iterate (readings : list Z) (w : World) : bool * World :=
  match readings with
  | [] => (false, w)
  | now :: rest =>
      let w' := expire now w in
      if loop_is_running w' then iterate rest w' else (true, w')
  end.

Definition g_main_loop_run (readings : list Z) (w : World) : bool * World :=
  let w := emit MainLoopRun w in
  iterate readings (mkWorld true (timer_attached w) (log w)).

(** [args] is [argv] after the program name, as [gst_init] leaves it. *)
Definition main (env : Env) (args : list string) : Outcome * World :=
  let w := mkWorld false false [] in
  let clock_port := 0 in
  let argc := 1 + Z.of_nat (List.length args) in
  let clock_port := if argc >? 1 then atoi (hd "" args) else clock_port in
  let w := emit MainLoopNew w in
  let w := emit (NetTimeProviderNew clock_port) w in
  let clock_port :=
    match provider_port env clock_port with
    | Some port => port
    | None => clock_port
    end in
  let w := emit (GPrint "Published network clock on port %u\n"
                   [ArgZ (to_guint clock_port)]) w in
  let w := emit (GTimeoutAddSeconds 1) w in
  let w := mkWorld (loop_is_running w) true (log w) in
  let (returned, w) := g_main_loop_run (clock_readings env) w in
  if returned then
    (* cleanup *)
    let w := emit (ObjectUnref ObjSystemClock) w in
    let w := emit MainLoopUnref w in
    (Exited 0, w)
  else (LoopRunning, w).

End NetclockServer.

(** ** The basic player: [playback.c] without the network clock *)

(** The callbacks of the plain player the network-clock player grew out of.
    They run over the same world; the two flags of [Playback.GlobalData]
    have no counterpart in this program and are neither read nor written
    here. *)
Module BasicPlayback.
Import Playback.
Local Open Scope cb_scope.

Definition handle_bus_msg (msg : GstMessage) : Cb bool :=
  match msg with
  | GST_MESSAGE_EOS =>
      g_print "Finished playback. Exiting.\n" [] ;;
      g_main_loop_quit
  | GST_MESSAGE_ERROR src message dbg_info =>
      g_printerr "ERROR from element %s: %s\n" [ArgS src; ArgS message] ;;
      g_printerr "Debugging info: %s\n"
        [ArgS match dbg_info with Some d => d | None => "none" end] ;;
      g_print "Exiting.\n" [] ;;
      g_main_loop_quit
  | GST_MESSAGE_TAG artist title album =>
      g_print "Found tags\n" [] ;;
      print_tag "Artist: %s\n" artist ;;
      print_tag "Title: %s\n" title ;;
      print_tag "Album: %s\n" album
  | GST_MESSAGE_ASYNC_DONE video_pad =>
      match video_pad with
      | Some caps =>
          let (par_n, par_d) :=
            match pixel_aspect_ratio caps with
            | Some par => par
            | None => (1, 1)
            end in
          let width := to_gint (Z.quot (to_gint (width caps * par_n)) par_d) in
          g_print "Video size: %dx%d\n" [ArgZ width; ArgZ (height caps)]
      | None => ret tt
      end
  | _ =>
      (* Ignore messages we don't know about *)
      ret tt
  end ;;
  ret true.

Definition seek (forward : bool) : Cb unit :=
  q <- gst_element_query_position ;;
  match q with
  | None => ret tt
  | Some position =>
      let position :=
        if forward then to_gint64 (position + 10 * GST_SECOND)
        else if position >? 10 * GST_SECOND then to_gint64 (position - 10 * GST_SECOND)
        else 0 in
      gst_element_seek_simple GST_SEEK_FLAG_FLUSH position
  end.

Definition on_key (c : ascii) : Cb unit :=
  if Ascii.eqb c "q" then g_main_loop_quit
  else if Ascii.eqb c "f" then seek false
  else if Ascii.eqb c "g" then seek true
  else ret tt.

Definition io_callback (status : GIOStatus) : Cb bool :=
  match status with
  | G_IO_STATUS_NORMAL c => on_key c ;; ret true
  | G_IO_STATUS_AGAIN => ret true
  | G_IO_STATUS_ERROR message =>
      g_printerr "stdin IO error: %s\n" [ArgS message] ;;
      g_main_loop_quit ;;
      ret false
  | G_IO_STATUS_EOF => ret false
  end.

End BasicPlayback.


(** * Properties of the player *)

Module PlaybackSpec.
Import Playback.
Local Open Scope cb_scope.

(** The world a callback leaves behind. *)
Definition exec {A} (c : Cb A) (w : World) : World := snd (c w).

(** The pipeline state commands of a log, in order. *)
Fixpoint state_commands (l : list Effect) : list GstState :=
  match l with
  | [] => []
  | ElementSetState s :: rest => s :: state_commands rest
  | _ :: rest => state_commands rest
  end.

Lemma state_commands_app l1 l2 :
  state_commands (l1 ++ l2) = state_commands l1 ++ state_commands l2.
Proof.
  induction l1 as [|e l1 IH]; [reflexivity|].
  destruct e; simpl; rewrite IH; reflexivity.
Qed.

(** Feeding a sequence of buffer levels to the bus handler. *)
Definition buffer_levels (levels : list Z) (w : World) : World :=
  fold_left (fun w percent => exec (handle_bus_msg (GST_MESSAGE_BUFFERING percent)) w)
    levels w.

Ltac run_cb :=
  unfold exec, handle_bus_msg, io_callback, on_key, seek, next_subtitle, toggle_subtitle,
    next_audio, toggle_vis, print_tag,
    g_object_set_flags, g_object_set_current_text, g_object_set_current_audio,
    g_main_loop_quit, gst_element_set_state, gst_element_seek_simple,
    gst_bin_recalculate_latency, gst_element_query_position,
    set_buffering, g_print, g_printerr, when, bind, ret, emit,
    get_data, put_data, get_playbin, put_playbin;
  cbn [fst snd data playbin loop_is_running sources next_source log
       with_data with_playbin with_log with_running with_sources
       buffering is_live bus_watch io_watch_id negb
       uri flags current_audio n_audio current_text n_text position].

Lemma buffering_step_live w percent :
  is_live (data w) = true ->
  let w' := exec (handle_bus_msg (GST_MESSAGE_BUFFERING percent)) w in
  data w' = data w /\ state_commands (log w') = state_commands (log w).
Proof.
  destruct w as [[bw iw b l] pb run src nxt lg]; cbn. intros ->.
  destruct b; run_cb; cbn; rewrite ?state_commands_app; cbn;
    rewrite ?app_nil_r; auto.
Qed.


Lemma buffering_step_pause w percent :
  is_live (data w) = false -> buffering (data w) = false -> percent <> 100 ->
  let w' := exec (handle_bus_msg (GST_MESSAGE_BUFFERING percent)) w in
  state_commands (log w') = state_commands (log w) ++ [GST_STATE_PAUSED]
  /\ buffering (data w') = true /\ is_live (data w') = false.
Proof.
  destruct w as [[bw iw b l] pb run src nxt lg]; cbn. intros -> -> P.
  apply Z.eqb_neq in P. run_cb. rewrite P. cbn.
  rewrite !state_commands_app. cbn. rewrite ?app_nil_r. auto.
Qed.

Lemma buffering_step_resume w :
  is_live (data w) = false -> buffering (data w) = true ->
  let w' := exec (handle_bus_msg (GST_MESSAGE_BUFFERING 100)) w in
  state_commands (log w') = state_commands (log w) ++ [GST_STATE_PLAYING]
  /\ buffering (data w') = false /\ is_live (data w') = false.
Proof.
  destruct w as [[bw iw b l] pb run src nxt lg]; cbn. intros -> ->.
  run_cb. cbn. rewrite !state_commands_app. cbn. rewrite ?app_nil_r. auto.
Qed.

Lemma buffering_step_hold w percent :
  is_live (data w) = false -> buffering (data w) = true -> percent <> 100 ->
  let w' := exec (handle_bus_msg (GST_MESSAGE_BUFFERING percent)) w in
  state_commands (log w') = state_commands (log w)
  /\ buffering (data w') = true /\ is_live (data w') = false.
Proof.
  destruct w as [[bw iw b l] pb run src nxt lg]; cbn. intros -> -> P.
  apply Z.eqb_neq in P. run_cb. rewrite P. cbn.
  rewrite !state_commands_app. cbn. rewrite ?app_nil_r. auto.
Qed.

(** C1. Buffering hysteresis of [handle_bus_msg].  On a session that is not
    live, a buffering message below 100 percent that arrives while the
    buffering flag is clear issues exactly one state command, Paused, and
    sets the flag; while the flag is set, a message of 100 percent issues
    exactly one state command, Playing, and clears the flag, and any other
    percentage issues no state command and leaves the flag set.  On a live
    session no buffering message issues a state command or changes the
    controller data.  The levels 90, 95, 99, 100 therefore give one pause
    (at 90) and one resume (at 100) when the session is not live, and no
    state command when it is. *)
Theorem buffering_hysteresis :
  (forall w percent,
      is_live (data w) = false -> buffering (data w) = false -> percent < 100 ->
      let w' := exec (handle_bus_msg (GST_MESSAGE_BUFFERING percent)) w in
      state_commands (log w') = state_commands (log w) ++ [GST_STATE_PAUSED]
      /\ buffering (data w') = true)
  /\ (forall w percent,
      is_live (data w) = false -> buffering (data w) = true ->
      let w' := exec (handle_bus_msg (GST_MESSAGE_BUFFERING percent)) w in
      (percent = 100 ->
       state_commands (log w') = state_commands (log w) ++ [GST_STATE_PLAYING]
       /\ buffering (data w') = false)
      /\ (percent <> 100 ->
          state_commands (log w') = state_commands (log w)
          /\ buffering (data w') = true))
  /\ (forall w percent,
      is_live (data w) = true ->
      let w' := exec (handle_bus_msg (GST_MESSAGE_BUFFERING percent)) w in
      state_commands (log w') = state_commands (log w) /\ data w' = data w)
  /\ (forall w,
      is_live (data w) = false -> buffering (data w) = false ->
      state_commands (log (buffer_levels [90] w))
      = state_commands (log w) ++ [GST_STATE_PAUSED]
      /\ state_commands (log (buffer_levels [90; 95; 99] w))
         = state_commands (log w) ++ [GST_STATE_PAUSED]
      /\ state_commands (log (buffer_levels [90; 95; 99; 100] w))
         = state_commands (log w) ++ [GST_STATE_PAUSED; GST_STATE_PLAYING])
  /\ (forall w,
      is_live (data w) = true ->
      state_commands (log (buffer_levels [90; 95; 99; 100] w)) = state_commands (log w)).
Proof.
  split; [|split; [|split; [|split]]].
  - intros w percent L B P.
    destruct (buffering_step_pause w percent) as (E & B' & _); auto; lia.
  - intros w percent L B; split.
    + intros ->. destruct (buffering_step_resume w) as (E & B' & _); auto.
    + intros P. destruct (buffering_step_hold w percent) as (E & B' & _); auto.
  - intros w percent L. destruct (buffering_step_live w percent L); auto.
  - intros w L B. unfold buffer_levels; cbn [fold_left].
    destruct (buffering_step_pause w 90) as (E1 & B1 & L1); auto; [lia|].
    set (w1 := exec _ w) in *.
    destruct (buffering_step_hold w1 95) as (E2 & B2 & L2); auto; [lia|].
    set (w2 := exec _ w1) in *.
    destruct (buffering_step_hold w2 99) as (E3 & B3 & L3); auto; [lia|].
    set (w3 := exec _ w2) in *.
    destruct (buffering_step_resume w3) as (E4 & B4 & L4); auto.
    repeat split; [congruence|congruence|].
    rewrite E4, E3, E2, E1, <- app_assoc. reflexivity.
  - intros w L. unfold buffer_levels; cbn [fold_left].
    destruct (buffering_step_live w 90 L) as (D1 & E1).
    set (w1 := exec _ w) in *.
    assert (L1 : is_live (data w1) = true) by congruence.
    destruct (buffering_step_live w1 95 L1) as (D2 & E2).
    set (w2 := exec _ w1) in *.
    assert (L2 : is_live (data w2) = true) by congruence.
    destruct (buffering_step_live w2 99 L2) as (D3 & E3).
    set (w3 := exec _ w2) in *.
    assert (L3 : is_live (data w3) = true) by congruence.
    destruct (buffering_step_live w3 100 L3) as (D4 & E4).
    congruence.
Qed.


(** A world in the middle of playback, used to run the theorems on. *)
Definition sample_playbin : Playbin :=
  mkPlaybin (Some "file:///tmp/sintel.ogv") 0x697 0 2 0 3 (Some (30 * GST_SECOND)).

Definition sample_world : World :=
  mkWorld (mkGlobalData 1 2 false false) sample_playbin true
    [(2, IOWatch); (1, BusWatch)] 3 [].

Definition at_position (p : option Z) (w : World) : World :=
  with_playbin (mkPlaybin (uri (playbin w)) (flags (playbin w))
                  (current_audio (playbin w)) (n_audio (playbin w))
                  (current_text (playbin w)) (n_text (playbin w)) p) w.

Lemma buffering_hysteresis_witness :
  state_commands (log (buffer_levels [90] sample_world)) = [GST_STATE_PAUSED]
  /\ state_commands (log (buffer_levels [90; 95; 99] sample_world)) = [GST_STATE_PAUSED]
  /\ state_commands (log (buffer_levels [90; 95; 99; 100] sample_world))
     = [GST_STATE_PAUSED; GST_STATE_PLAYING].
Proof.
  exact (proj1 (proj2 (proj2 (proj2 buffering_hysteresis)))
           sample_world eq_refl eq_refl).
Defined.

Lemma to_gint64_id z : is_gint64 z -> to_gint64 z = z.
Proof.
  unfold is_gint64, to_gint64, G_MININT64, G_MAXINT64. intros H.
  rewrite Z.mod_small; lia.
Qed.

Lemma to_gint_id z : is_gint z -> to_gint z = z.
Proof.
  unfold is_gint, to_gint, G_MININT, G_MAXINT. intros H.
  rewrite Z.mod_small; lia.
Qed.

(** C2. Seek clamping.  When the position query answers [P], a forward
    seek issues one flushing seek to [P] plus ten seconds (as long as that
    sum is a [gint64]); a backward seek issues one flushing seek to [P]
    minus ten seconds when [P] is more than ten seconds, and to 0
    otherwise.  Nothing but the log of the world changes. *)
Theorem seek_clamping w P :
  position (playbin w) = Some P -> is_gint64 P ->
  (P + 10 * GST_SECOND <= G_MAXINT64 ->
   seek true w
   = (tt, with_log (log w ++ [ElementSeekSimple GST_SEEK_FLAG_FLUSH
                                (P + 10 * GST_SECOND)]) w))
  /\ (P > 10 * GST_SECOND ->
      seek false w
      = (tt, with_log (log w ++ [ElementSeekSimple GST_SEEK_FLAG_FLUSH
                                   (P - 10 * GST_SECOND)]) w))
  /\ (P <= 10 * GST_SECOND ->
      seek false w
      = (tt, with_log (log w ++ [ElementSeekSimple GST_SEEK_FLAG_FLUSH 0]) w))
  /\ (forall forward,
      data (exec (seek forward) w) = data w
      /\ playbin (exec (seek forward) w) = playbin w
      /\ loop_is_running (exec (seek forward) w) = loop_is_running w
      /\ sources (exec (seek forward) w) = sources w).
Proof.
  destruct w as [d pb run src nxt lg]. cbn [playbin log].
  intros Q R. unfold is_gint64, G_MININT64, G_MAXINT64, GST_SECOND in *.
  repeat split.
  - intros H. run_cb. rewrite Q. cbn [fst snd]. unfold GST_SECOND.
    rewrite to_gint64_id; [reflexivity|unfold is_gint64, G_MININT64, G_MAXINT64; lia].
  - intros H. run_cb. rewrite Q. cbn [fst snd]. unfold GST_SECOND.
    replace (P >? 10 * 1000000000) with true by (symmetry; apply Z.gtb_lt; lia).
    rewrite to_gint64_id; [reflexivity|unfold is_gint64, G_MININT64, G_MAXINT64; lia].
  - intros H. run_cb. rewrite Q. cbn [fst snd]. unfold GST_SECOND.
    replace (P >? 10 * 1000000000) with false; [reflexivity|].
    symmetry. rewrite Z.gtb_ltb. apply Z.ltb_ge. lia.
  - run_cb. rewrite Q. reflexivity.
  - run_cb. rewrite Q. reflexivity.
  - run_cb. rewrite Q. reflexivity.
  - run_cb. rewrite Q. reflexivity.
Qed.

Lemma seek_clamping_witness :
  seek false (at_position (Some (5 * GST_SECOND)) sample_world)
  = (tt, with_log [ElementSeekSimple GST_SEEK_FLAG_FLUSH 0]
           (at_position (Some (5 * GST_SECOND)) sample_world))
  /\ seek false sample_world
     = (tt, with_log [ElementSeekSimple GST_SEEK_FLAG_FLUSH (20 * GST_SECOND)]
              sample_world)
  /\ seek true sample_world
     = (tt, with_log [ElementSeekSimple GST_SEEK_FLAG_FLUSH (40 * GST_SECOND)]
              sample_world).
Proof.
  split; [|split].
  - refine (proj1 (proj2 (proj2
      (seek_clamping (at_position (Some (5 * GST_SECOND)) sample_world)
         (5 * GST_SECOND) eq_refl _))) _); vm_compute; intuition discriminate.
  - refine (proj1 (proj2
      (seek_clamping sample_world (30 * GST_SECOND) eq_refl _)) _);
      vm_compute; intuition discriminate.
  - refine (proj1
      (seek_clamping sample_world (30 * GST_SECOND) eq_refl _) _);
      vm_compute; intuition discriminate.
Defined.

(** C3. Clock-loss recovery.  A clock-lost message makes the handler issue
    exactly two state commands, Paused and then Playing, with nothing but
    the notice printed before them; the controller data (buffering and
    liveness flags included), the playbin and the loop flag are untouched. *)
Theorem clock_lost_recovery w :
  let w' := exec (handle_bus_msg GST_MESSAGE_CLOCK_LOST) w in
  log w' = log w ++ [GPrint "Clock lost, selecting a new one\n" [];
                     ElementSetState GST_STATE_PAUSED;
                     ElementSetState GST_STATE_PLAYING]
  /\ state_commands (log w')
     = state_commands (log w) ++ [GST_STATE_PAUSED; GST_STATE_PLAYING]
  /\ data w' = data w
  /\ playbin w' = playbin w
  /\ loop_is_running w' = loop_is_running w.
Proof.
  destruct w as [d pb run src nxt lg].
  run_cb. cbn. rewrite !state_commands_app, <- !app_assoc. cbn. auto.
Qed.

(** C9. A failed position query makes a seek a silent no-op: [seek] returns
    with the world exactly as it found it, in either direction, and so do
    the [f] and [g] commands. *)
Theorem seek_query_failure w forward :
  position (playbin w) = None ->
  seek forward w = (tt, w)
  /\ io_callback (G_IO_STATUS_NORMAL "f") w = (true, w)
  /\ io_callback (G_IO_STATUS_NORMAL "g") w = (true, w).
Proof.
  destruct w as [d pb run src nxt lg]. cbn [playbin].
  intros Q. repeat split; run_cb; cbn; run_cb; rewrite Q; reflexivity.
Qed.

Lemma seek_query_failure_witness :
  seek true (at_position None sample_world) = (tt, at_position None sample_world)
  /\ io_callback (G_IO_STATUS_NORMAL "f") (at_position None sample_world)
     = (true, at_position None sample_world)
  /\ io_callback (G_IO_STATUS_NORMAL "g") (at_position None sample_world)
     = (true, at_position None sample_world).
Proof.
  exact (seek_query_failure (at_position None sample_world) true eq_refl).
Defined.


Lemma subtitles_bit i : Z.testbit PLAY_FLAGS_SUBTITLES i = (i =? 2).
Proof.
  change PLAY_FLAGS_SUBTITLES with (2 ^ 2).
  rewrite Z.pow2_bits_eqb by lia. apply Z.eqb_sym.
Qed.

Lemma next_subtitle_flags w :
  flags (playbin (exec next_subtitle w)) = Z.lor (flags (playbin w)) PLAY_FLAGS_SUBTITLES.
Proof. destruct w. run_cb. reflexivity. Qed.

Lemma next_subtitle_current w :
  current_text (playbin (exec next_subtitle w))
  = if to_gint (current_text (playbin w) + 1) >=? n_text (playbin w) then 0
    else to_gint (current_text (playbin w) + 1).
Proof. destruct w. run_cb. reflexivity. Qed.

(** C10. The next-subtitle command.  After [next_subtitle] the subtitles
    bit of the playbin flags is set, whatever it was before (in particular
    right after the [d] command has cleared it), and every other bit of the
    flags is as before.  The current subtitle track becomes current + 1
    when that is below the number of tracks and 0 otherwise (current being
    a [gint] below [G_MAXINT]).  The [s] command is [next_subtitle]. *)
Theorem next_subtitle_enables_subtitles w :
  let w' := exec next_subtitle w in
  Z.testbit (flags (playbin w')) 2 = true
  /\ Z.land (flags (playbin w')) PLAY_FLAGS_SUBTITLES = PLAY_FLAGS_SUBTITLES
  /\ (forall i, i <> 2 ->
      Z.testbit (flags (playbin w')) i = Z.testbit (flags (playbin w)) i)
  /\ (is_gint (current_text (playbin w)) -> current_text (playbin w) < G_MAXINT ->
      (current_text (playbin w) + 1 < n_text (playbin w) ->
       current_text (playbin w') = current_text (playbin w) + 1)
      /\ (n_text (playbin w) <= current_text (playbin w) + 1 ->
          current_text (playbin w') = 0))
  /\ exec (io_callback (G_IO_STATUS_NORMAL "s")) w = w'
  /\ Z.testbit
       (flags (playbin (exec (io_callback (G_IO_STATUS_NORMAL "s"))
                          (exec (io_callback (G_IO_STATUS_NORMAL "d")) w)))) 2 = true.
Proof.
  cbv zeta.
  assert (S : forall v, exec (io_callback (G_IO_STATUS_NORMAL "s")) v = exec next_subtitle v).
  { intros v. unfold exec, io_callback, on_key, bind, ret. cbn.
    destruct (next_subtitle v). reflexivity. }
  assert (B : forall v, Z.testbit (flags (playbin (exec next_subtitle v))) 2 = true).
  { intros v. rewrite next_subtitle_flags, Z.lor_spec, subtitles_bit.
    apply orb_true_r. }
  split; [apply B|]. split; [|split; [|split; [|split]]].
  - rewrite next_subtitle_flags. apply Z.bits_inj'. intros i Hi.
    rewrite Z.land_spec, Z.lor_spec, subtitles_bit.
    destruct (i =? 2); [rewrite orb_true_r; reflexivity|apply andb_false_r].
  - intros i Hi. rewrite next_subtitle_flags, Z.lor_spec, subtitles_bit.
    apply Z.eqb_neq in Hi. rewrite Hi. apply orb_false_r.
  - intros G M. rewrite next_subtitle_current.
    unfold is_gint, G_MININT, G_MAXINT in *.
    rewrite to_gint_id by (unfold is_gint, G_MININT, G_MAXINT; lia).
    split; intros H.
    + replace (_ >=? _) with false; [reflexivity|].
      symmetry. rewrite Z.geb_leb. apply Z.leb_gt. lia.
    + replace (_ >=? _) with true; [reflexivity|].
      symmetry. rewrite Z.geb_leb. apply Z.leb_le. lia.
  - apply S.
  - rewrite S. apply B.
Qed.

Lemma next_subtitle_enables_subtitles_witness :
  current_text (playbin (exec next_subtitle sample_world)) = 1
  /\ current_text (playbin (exec next_subtitle
                              (exec next_subtitle (exec next_subtitle sample_world)))) = 0.
Proof.
  split.
  - refine (proj1 (proj1 (proj2 (proj2 (proj2
      (next_subtitle_enables_subtitles sample_world)))) _ _) _);
      vm_compute; intuition discriminate.
  - refine (proj2 (proj1 (proj2 (proj2 (proj2
      (next_subtitle_enables_subtitles
         (exec next_subtitle (exec next_subtitle sample_world)))))) _ _) _);
      vm_compute; intuition discriminate.
Defined.


(** *** What the callbacks can and cannot do *)

(** The effects a callback of the main loop can have. *)
Definition callback_effect (e : Effect) : bool :=
  match e with
  | GPrint _ _ | GPrintErr _ _ | MainLoopQuit | ElementSetState _
  | ElementSeekSimple _ _ | BinRecalculateLatency | ObjectSet _ _ => true
  | _ => false
  end.

(** [steps w w']: the main loop can take the world from [w] to [w'].  The
    log only grows, by callback effects; the bus watch stays attached; a
    loop that has been told to quit stays so; the source ids kept in
    [GlobalData] do not change. *)
Record steps (w w' : World) : Prop := mkSteps {
  steps_log : exists d, log w' = log w ++ d /\ forallb callback_effect d = true;
  steps_bus : has_source BusWatch (sources w) = true ->
              has_source BusWatch (sources w') = true;
  steps_quit : loop_is_running w = false -> loop_is_running w' = false;
  steps_bus_id : bus_watch (data w') = bus_watch (data w);
  steps_io_id : io_watch_id (data w') = io_watch_id (data w)
}.

Lemma steps_refl w : steps w w.
Proof.
  constructor; auto. exists []. rewrite app_nil_r. auto.
Qed.

Lemma steps_trans w1 w2 w3 : steps w1 w2 -> steps w2 w3 -> steps w1 w3.
Proof.
  intros [(d1 & L1 & F1) B1 Q1 I1 J1] [(d2 & L2 & F2) B2 Q2 I2 J2].
  constructor; auto; try congruence.
  exists (d1 ++ d2). rewrite L2, L1, app_assoc, forallb_app, F1, F2. auto.
Qed.

Lemma has_bus_without_io l :
  has_source BusWatch (filter (fun s => negb (SourceKind_eqb (snd s) IOWatch)) l)
  = has_source BusWatch l.
Proof.
  induction l as [|[id []] l IH]; cbn; auto.
Qed.

(** A callback, moreover, leaves the attached sources alone. *)
Definition quiet (w w' : World) : Prop :=
  steps w w' /\ sources w' = sources w.

Lemma quiet_refl w : quiet w w.
Proof. split; [apply steps_refl|reflexivity]. Qed.

Ltac close_steps :=
  cbn; split; [|reflexivity];
  constructor; cbn; auto; try discriminate;
  first [ exists []; rewrite app_nil_r; split; reflexivity
        | rewrite <- ?app_assoc; eexists; split; reflexivity ].

Lemma handle_bus_msg_steps msg w : quiet w (exec (handle_bus_msg msg) w).
Proof.
  destruct w as [[bw iw b l] pb run src nxt lg].
  destruct msg; run_cb; try solve [close_steps].
  - destruct artist, title, album; close_steps.
  - destruct video_pad as [[wd ht [[n d]|]]|]; close_steps.
  - destruct b, l; cbn; try solve [close_steps];
      destruct (percent =? 100); close_steps.
  - destruct dbg; close_steps.
  - destruct (src_is_playbin && _ && _); close_steps.
  - destruct missing_plugin; close_steps.
Qed.


Lemma seek_steps forward w : quiet w (exec (seek forward) w).
Proof.
  destruct w as [[bw iw b l] [u f ca na ct nt [p|]] run src nxt lg];
    run_cb; [|close_steps].
  destruct forward; [close_steps|].
  destruct (p >? 10 * GST_SECOND); close_steps.
Qed.

Lemma next_audio_steps w : quiet w (exec next_audio w).
Proof.
  destruct w as [[bw iw b l] [u f ca na ct nt p] run src nxt lg]; run_cb.
  close_steps.
Qed.

Lemma next_subtitle_steps w : quiet w (exec next_subtitle w).
Proof.
  destruct w as [[bw iw b l] [u f ca na ct nt p] run src nxt lg]; run_cb.
  close_steps.
Qed.

Lemma toggle_subtitle_steps w : quiet w (exec toggle_subtitle w).
Proof.
  destruct w as [[bw iw b l] [u f ca na ct nt p] run src nxt lg]; run_cb.
  destruct (Z.land f PLAY_FLAGS_SUBTITLES =? 0); close_steps.
Qed.

Lemma toggle_vis_steps w : quiet w (exec toggle_vis w).
Proof.
  destruct w as [[bw iw b l] [u f ca na ct nt p] run src nxt lg]; run_cb.
  destruct (Z.land f PLAY_FLAGS_VISUALISATIONS =? 0); close_steps.
Qed.

Lemma g_main_loop_quit_steps w : quiet w (exec g_main_loop_quit w).
Proof. destruct w; run_cb; close_steps. Qed.

Lemma on_key_steps c w : quiet w (exec (on_key c) w).
Proof.
  unfold on_key.
  repeat match goal with
         | |- context [if ?b then _ else _] => destruct b
         end;
    auto using seek_steps, next_audio_steps, next_subtitle_steps,
      toggle_subtitle_steps, toggle_vis_steps, g_main_loop_quit_steps, quiet_refl.
Qed.

Lemma io_callback_steps status w : quiet w (exec (io_callback status) w).
Proof.
  destruct status as [m|c| |].
  - destruct w; run_cb; close_steps.
  - pose proof (on_key_steps c w) as H. unfold exec, io_callback, bind, ret in *.
    destruct (on_key c w). exact H.
  - apply quiet_refl.
  - apply quiet_refl.
Qed.

Lemma handle_bus_msg_true msg w : fst (handle_bus_msg msg w) = true.
Proof.
  unfold handle_bus_msg.
  match goal with |- fst (bind ?c _ _) = _ => generalize c; intros c' end.
  unfold bind, ret. destruct (c' w). reflexivity.
Qed.

Lemma dispatch_steps ev w : steps w (exec (dispatch ev) w).
Proof.
  destruct ev as [msg|status|p]; unfold exec, dispatch, attached, bind, when.
  - destruct (has_source BusWatch (sources w)); [|apply steps_refl].
    pose proof (handle_bus_msg_steps msg w) as [H _].
    pose proof (handle_bus_msg_true msg w) as T. unfold exec in H.
    destruct (handle_bus_msg msg w) as [keep w']; cbn [fst snd] in *.
    subst keep. exact H.
  - destruct (has_source IOWatch (sources w)); [|apply steps_refl].
    pose proof (io_callback_steps status w) as [H _]. unfold exec in H.
    destruct (io_callback status w) as [[|] w']; cbn [fst snd negb] in *; auto.
    eapply steps_trans; [exact H|].
    destruct w'; constructor; cbn -[has_source]; rewrite ?has_bus_without_io; auto.
    exists []. rewrite app_nil_r. auto.
  - destruct w; constructor; cbn; auto. exists []. rewrite app_nil_r. auto.
Qed.

Lemma dispatch_all_steps ready w : steps w (exec (dispatch_all ready) w).
Proof.
  revert w. induction ready as [|ev ready IH]; intros w; [apply steps_refl|].
  unfold exec in *. cbn [dispatch_all]. unfold bind.
  pose proof (dispatch_steps ev w) as H. unfold exec in H.
  destruct (dispatch ev w) as [[] w1]. cbn in H.
  eapply steps_trans; [exact H|apply IH].
Qed.

Lemma iterate_steps its w : steps w (exec (iterate its) w).
Proof.
  revert w. induction its as [|ready its IH]; intros w; [apply steps_refl|].
  unfold exec in *. cbn [iterate]. unfold bind.
  pose proof (dispatch_all_steps ready w) as H. unfold exec in H.
  destruct (dispatch_all ready w) as [[] w1]. cbn in H.
  destruct (loop_is_running w1); [|exact H].
  eapply steps_trans; [exact H|apply IH].
Qed.


(** *** From [main] to the main loop *)

Definition with_iterations (its : list (list Event)) (env : Env) : Env :=
  mkEnv (stack_data env) (clock_syncs env) (playbin_available env) (new_playbin env)
    (gst_uri_is_valid env) (gst_filename_to_uri env) (play_result env) its.

(** What [main] has logged when it enters the main loop. *)
Definition startup_log (env : Env) (st : Statics) (host file : string) : list Effect :=
  [NetClientClockNew host (clock_port st);
   ClockWaitForSync GST_CLOCK_TIME_NONE;
   GPrint "Network clock is synched to master\n" [];
   ElementFactoryMake "playbin" "playbin";
   PipelineUseClock;
   ObjectUnref ObjNetClock]
  ++ (if base_time st =? GST_CLOCK_TIME_NONE then []
      else [ElementSetStartTime GST_CLOCK_TIME_NONE; ElementSetBaseTime (base_time st)])
  ++ [PipelineSetLatency (100 * GST_MSECOND);
      ObjectSet "uri" (VStr (canonicalise_uri env file));
      ObjectSet "flags" (VInt (Z.lor (flags (new_playbin env)) PLAY_FLAGS_DOWNLOAD));
      BusAddWatch 1;
      ObjectUnref ObjBus;
      MainLoopNew;
      ElementSetState GST_STATE_PLAYING;
      GPrint "Now playing %s\n" [arg_of (canonicalise_uri env file)]]
  ++ match play_result env with
     | GST_STATE_CHANGE_NO_PREROLL => [GPrint "Pipeline is live.\n" []]
     | GST_STATE_CHANGE_ASYNC => [GPrint "Prerolling...\r" []]
     | _ => []
     end
  ++ [IOAddWatch 2; IOChannelUnref; MainLoopRun].

(** The world in which the main loop starts.  The buffering flag is what
    happened to be on the stack, and so is the liveness flag unless the
    state change reported a live pipeline. *)
Definition loop_entry (env : Env) (st : Statics) (host file : string) : World :=
  mkWorld
    (mkGlobalData 1 2 (buffering (stack_data env))
       match play_result env with
       | GST_STATE_CHANGE_NO_PREROLL => true
       | _ => is_live (stack_data env)
       end)
    (mkPlaybin (canonicalise_uri env file)
       (Z.lor (flags (new_playbin env)) PLAY_FLAGS_DOWNLOAD)
       (current_audio (new_playbin env)) (n_audio (new_playbin env))
       (current_text (new_playbin env)) (n_text (new_playbin env))
       (position (new_playbin env)))
    true [(2, IOWatch); (1, BusWatch)] 3
    (startup_log env st host file).

(** What [main] does once the loop has returned. *)
Definition cleanup_log : list Effect :=
  [SourceRemove 1; SourceRemove 2; ElementSetState GST_STATE_NULL;
   ObjectUnref ObjPlaybin; MainLoopUnref].

(** The invocations that get past the usage check. *)
Definition accepted (args : list CliArg) (st : Statics) (host file : string) : Prop :=
  exists rest,
    g_option_context_parse args statics_init = inr (st, file :: rest)
    /\ clock_host st = Some host
    /\ clock_port st <> 0.

(** The last statements of [main]. *)
Definition cleanup : Cb unit :=
  d <- get_data ;;
  g_source_remove (bus_watch d) ;;
  g_source_remove (io_watch_id d) ;;
  gst_element_set_state GST_STATE_NULL ;;
  emit (ObjectUnref ObjPlaybin) ;;
  emit MainLoopUnref.

Definition finish (r : bool * World) : Outcome * World :=
  let (returned, w) := r in
  if returned then (Exited 0, exec cleanup w) else (LoopRunning, w).

Lemma argc_of_positional (file : string) (rest : list string) :
  (1 + Z.of_nat (List.length (file :: rest)) <? 2) = false.
Proof. apply Z.ltb_ge. cbn [List.length]. lia. Qed.

Ltac run_main :=
  lazy beta iota zeta delta
    [gst_clock_wait_for_sync create_element g_main_loop_run g_object_set_uri
     g_object_set_flags g_source_remove attach set_bus_watch set_io_watch_id
     set_is_live gst_element_set_state g_print when emit lift pure halt bindR
     bind ret get_data put_data get_playbin put_playbin initial_world
     fst snd data playbin loop_is_running sources next_source log
     with_data with_playbin with_log with_running with_sources
     buffering is_live bus_watch io_watch_id negb hd app
     uri flags current_audio n_audio current_text n_text position
     Z.add Pos.add Pos.succ].

(** The wait of [main] comes back: there is no clock to wait for, or the
    clock synchronises. *)
Definition wait_returns (env : Env) (st : Statics) : bool :=
  negb (valid_port (clock_port st)) || clock_syncs env.

Lemma syncs_returns env st : clock_syncs env = true -> wait_returns env st = true.
Proof. intros S. unfold wait_returns. rewrite S. apply orb_true_r. Qed.

Lemma main_enters_loop_gen env argv0 args st host file :
  accepted args st host file ->
  wait_returns env st = true -> playbin_available env = true ->
  main env argv0 args
  = finish (iterate (iterations env) (loop_entry env st host file)).
Proof.
  intros (rest & P & H & Q) S A.
  unfold main, main_body. rewrite P, H, argc_of_positional.
  apply Z.eqb_neq in Q. rewrite Q.
  cbn [is_null orb]. unfold finish, cleanup, exec, loop_entry, startup_log.
  unfold gst_net_client_clock_new, gst_clock_wait_for_sync, create_element.
  rewrite A. unfold wait_returns in S.
  destruct (valid_port (clock_port st)); cbn [negb orb] in S; rewrite ?S;
    destruct (base_time st =? GST_CLOCK_TIME_NONE) eqn:B, (play_result env) eqn:R;
    run_main;
    match goal with
    | |- context [iterate ?i ?W] => destruct (iterate i W) as [[|] ?]
    end; reflexivity.
Qed.

Lemma main_enters_loop env argv0 args st host file :
  accepted args st host file ->
  clock_syncs env = true -> playbin_available env = true ->
  main env argv0 args
  = finish (iterate (iterations env) (loop_entry env st host file)).
Proof.
  intros Acc S A. apply main_enters_loop_gen; auto using syncs_returns.
Qed.








Definition usage_log (argv0 : string) : list Effect :=
  [GPrint "Usage: %s -c netclock-host-IP -p netclock-host-port -b base-time <file>\n"
     [ArgS argv0];
   GPrint usage_keys []].

Lemma main_parse_error env argv0 args message :
  g_option_context_parse args statics_init = inl (ParseError message) ->
  main env argv0 args
  = (Aborted, with_log [GError "Error parsing options: %s" [ArgS message]]
                (initial_world env)).
Proof.
  intros P. unfold main, main_body. rewrite P. reflexivity.
Qed.

Lemma main_help env argv0 args :
  g_option_context_parse args statics_init = inl ParseHelp ->
  main env argv0 args = (Exited 0, with_log [GOptionHelp] (initial_world env)).
Proof.
  intros P. unfold main, main_body. rewrite P. reflexivity.
Qed.

Lemma main_usage env argv0 args st argv :
  g_option_context_parse args statics_init = inr (st, argv) ->
  argv = [] \/ clock_host st = None \/ clock_port st = 0 ->
  main env argv0 args = (Exited 1, with_log (usage_log argv0) (initial_world env)).
Proof.
  intros P C. unfold main, main_body. rewrite P.
  replace ((1 + Z.of_nat (List.length argv) <? 2) || is_null (clock_host st)
           || (clock_port st =? 0)) with true; [reflexivity|].
  symmetry. destruct C as [->|[->| ->]]; cbn;
    rewrite ?orb_true_r; reflexivity.
Qed.

Lemma main_blocked env argv0 args st host file :
  accepted args st host file ->
  wait_returns env st = false ->
  main env argv0 args
  = (Blocked, with_log [NetClientClockNew host (clock_port st);
                        ClockWaitForSync GST_CLOCK_TIME_NONE] (initial_world env)).
Proof.
  intros (rest & P & H & Q) S.
  unfold main, main_body. rewrite P, H, argc_of_positional.
  apply Z.eqb_neq in Q. rewrite Q. cbn [is_null orb].
  unfold gst_net_client_clock_new, gst_clock_wait_for_sync.
  unfold wait_returns in S. apply orb_false_elim in S as [V S].
  apply negb_false_iff in V. rewrite V, S, Z.eqb_refl. reflexivity.
Qed.

Lemma main_no_playbin env argv0 args st host file :
  accepted args st host file ->
  wait_returns env st = true -> playbin_available env = false ->
  main env argv0 args
  = (Exited 1,
     with_log [NetClientClockNew host (clock_port st);
               ClockWaitForSync GST_CLOCK_TIME_NONE;
               GPrint "Network clock is synched to master\n" [];
               ElementFactoryMake "playbin" "playbin";
               GPrint "Failed to create element %s\n" [ArgS "playbin"]]
       (initial_world env)).
Proof.
  intros (rest & P & H & Q) S A.
  unfold main, main_body. rewrite P, H, argc_of_positional.
  apply Z.eqb_neq in Q. rewrite Q. cbn [is_null orb].
  unfold gst_net_client_clock_new, gst_clock_wait_for_sync, create_element.
  rewrite A. unfold wait_returns in S.
  destruct (valid_port (clock_port st)); cbn [negb orb] in S; rewrite ?S;
    reflexivity.
Qed.

(** An invocation is either refused by the parser, answered with the help
    or with the usage text, or accepted. *)
Lemma invocation_cases args :
  (exists message,
     g_option_context_parse args statics_init = inl (ParseError message))
  \/ g_option_context_parse args statics_init = inl ParseHelp
  \/ (exists st argv,
        g_option_context_parse args statics_init = inr (st, argv)
        /\ (argv = [] \/ clock_host st = None \/ clock_port st = 0))
  \/ (exists st host file, accepted args st host file).
Proof.
  destruct (g_option_context_parse args statics_init) as [[m|]|[st argv]] eqn:P.
  - left. eauto.
  - right. left. reflexivity.
  - right. right. destruct argv as [|file rest]; [left; eauto|].
    destruct (clock_host st) as [host|] eqn:H; [|left; eauto 6].
    destruct (Z.eq_dec (clock_port st) 0) as [Q|Q]; [left; eauto 6|].
    right. exists st, host, file, rest. auto.
Qed.

Lemma cleanup_log_spec w :
  log (exec cleanup w)
  = log w ++ [SourceRemove (bus_watch (data w)); SourceRemove (io_watch_id (data w));
              ElementSetState GST_STATE_NULL; ObjectUnref ObjPlaybin; MainLoopUnref].
Proof.
  destruct w as [[bw iw b l] pb run src nxt lg].
  unfold exec, cleanup, g_source_remove, gst_element_set_state, emit, bind, get_data.
  cbn. rewrite <- !app_assoc. reflexivity.
Qed.

Lemma loop_entry_log env st host file :
  log (loop_entry env st host file) = startup_log env st host file.
Proof. reflexivity. Qed.


Lemma loop_entry_ids env st host file w :
  steps (loop_entry env st host file) w ->
  bus_watch (data w) = 1 /\ io_watch_id (data w) = 2.
Proof. intros [_ _ _ I J]. rewrite I, J. auto. Qed.

(** The log of a run that reaches the main loop: the start-up, then what
    the callbacks did, then the clean-up if the loop has returned. *)
Lemma main_run_shape_gen env argv0 args st host file :
  accepted args st host file ->
  wait_returns env st = true -> playbin_available env = true ->
  exists d,
    forallb callback_effect d = true
    /\ ((fst (main env argv0 args) = Exited 0
         /\ fst (iterate (iterations env) (loop_entry env st host file)) = true
         /\ log (snd (main env argv0 args))
            = startup_log env st host file ++ d ++ cleanup_log)
        \/ (fst (main env argv0 args) = LoopRunning
            /\ fst (iterate (iterations env) (loop_entry env st host file)) = false
            /\ log (snd (main env argv0 args)) = startup_log env st host file ++ d)).
Proof.
  intros Acc S A. rewrite (main_enters_loop_gen _ _ _ _ _ _ Acc S A).
  pose proof (iterate_steps (iterations env) (loop_entry env st host file)) as St.
  unfold exec in St.
  destruct (iterate (iterations env) (loop_entry env st host file)) as [[|] w];
    cbn [fst snd finish] in *;
    destruct (steps_log _ _ St) as (d & L & F); exists d; (split; [exact F|]).
  - left. repeat split. rewrite cleanup_log_spec, L, loop_entry_log.
    destruct (loop_entry_ids _ _ _ _ _ St) as [-> ->].
    rewrite <- app_assoc. reflexivity.
  - right. repeat split. rewrite L, loop_entry_log. reflexivity.
Qed.

Lemma main_run_shape env argv0 args st host file :
  accepted args st host file ->
  clock_syncs env = true -> playbin_available env = true ->
  exists d,
    forallb callback_effect d = true
    /\ ((fst (main env argv0 args) = Exited 0
         /\ fst (iterate (iterations env) (loop_entry env st host file)) = true
         /\ log (snd (main env argv0 args))
            = startup_log env st host file ++ d ++ cleanup_log)
        \/ (fst (main env argv0 args) = LoopRunning
            /\ fst (iterate (iterations env) (loop_entry env st host file)) = false
            /\ log (snd (main env argv0 args)) = startup_log env st host file ++ d)).
Proof.
  intros Acc S A. apply main_run_shape_gen; auto using syncs_returns.
Qed.

(** *** The synchronisation gate *)

(** The effects that construct or command the pipeline. *)
Definition pipeline_action (e : Effect) : bool :=
  match e with
  | ElementFactoryMake _ _ | PipelineUseClock | ElementSetStartTime _
  | ElementSetBaseTime _ | PipelineSetLatency _ | ObjectSet _ _
  | ElementSetState _ | ElementSeekSimple _ _ | BinRecalculateLatency => true
  | _ => false
  end.

Lemma no_action_in l before e after :
  forallb (fun e => negb (pipeline_action e)) l = true ->
  l = before ++ e :: after -> pipeline_action e = false.
Proof.
  intros F ->. rewrite forallb_app in F. cbn in F.
  destruct (pipeline_action e); [|reflexivity].
  rewrite andb_false_r in F. discriminate.
Qed.

Lemma after_the_wait a b rest before e after :
  pipeline_action a = false -> pipeline_action b = false ->
  a :: b :: rest = before ++ e :: after -> pipeline_action e = true ->
  In b before.
Proof.
  intros Ha Hb E He.
  destruct before as [|x [|y before]]; cbn in E; inversion E; subst.
  - congruence.
  - congruence.
  - right. left. reflexivity.
Qed.

Lemma startup_log_head env st host file :
  exists rest,
    startup_log env st host file
    = NetClientClockNew host (clock_port st)
        :: ClockWaitForSync GST_CLOCK_TIME_NONE :: rest.
Proof. unfold startup_log. cbn [app]. eauto. Qed.


Lemma startup_log_plays env st host file :
  exists rest,
    startup_log env st host file
    = NetClientClockNew host (clock_port st)
        :: ClockWaitForSync GST_CLOCK_TIME_NONE
        :: GPrint "Network clock is synched to master\n" []
        :: ElementFactoryMake "playbin" "playbin" :: rest
    /\ In (ElementSetState GST_STATE_PLAYING) rest.
Proof.
  unfold startup_log. cbn [app]. eexists. split; [reflexivity|].
  destruct (base_time st =? GST_CLOCK_TIME_NONE); cbn [app In]; tauto.
Qed.

(** C4. The synchronisation gate, and where the code leaves it.  [main]
    refuses port 0 only (l.92).  With any other port outside 1..65535
    [gst_net_client_clock_new] makes no clock, the wait of l.107 returns
    FALSE at once, and [main] discards what the wait returns.  So for every
    accepted invocation with such a port, whether or not a provider would
    ever answer, the run is not held in the wait: it prints that the clock
    is synchronised, constructs the pipeline and commands the playing
    state, with no clock synchronised at any moment. *)
Theorem start_without_synchronisation env argv0 args st host file :
  accepted args st host file ->
  valid_port (clock_port st) = false ->
  playbin_available env = true ->
  (forall w, fst (gst_net_client_clock_new host (clock_port st) w) = Go false)
  /\ (forall w, fst (gst_clock_wait_for_sync env false GST_CLOCK_TIME_NONE w)
                = Go false)
  /\ fst (main env argv0 args) <> Blocked
  /\ exists rest,
       log (snd (main env argv0 args))
       = NetClientClockNew host (clock_port st)
           :: ClockWaitForSync GST_CLOCK_TIME_NONE
           :: GPrint "Network clock is synched to master\n" []
           :: ElementFactoryMake "playbin" "playbin" :: rest
       /\ In (ElementSetState GST_STATE_PLAYING) rest.
Proof.
  intros Acc V A.
  assert (S : wait_returns env st = true)
    by (unfold wait_returns; rewrite V; reflexivity).
  split; [|split].
  - intros w. unfold gst_net_client_clock_new. rewrite V. reflexivity.
  - intros w. reflexivity.
  - destruct (startup_log_plays env st host file) as (rest & R & I).
    destruct (main_run_shape_gen _ argv0 _ _ _ _ Acc S A)
      as (d & _ & [(E & _ & L)|(E & _ & L)]);
      (split; [rewrite E; discriminate|]);
      rewrite L, R; cbn [app]; eexists; (split; [reflexivity|]);
      apply in_or_app; left; exact I.
Qed.

(** A run to try things on: a provider that answers, a playbin that
    prerolls, and a stream that ends after a little buffering. *)
Definition sample_env (its : list (list Event)) : Env :=
  mkEnv (mkGlobalData 0 0 false false) true true sample_playbin
    (fun s => String.prefix "file://" s) (fun s => Some ("file://" ++ s)%string)
    GST_STATE_CHANGE_ASYNC its.

Definition sample_args : list CliArg :=
  [OptClockHost "192.168.1.10"; OptClockPort 8554; OptBaseTime 1234567890;
   Positional "file:///tmp/sintel.ogv"].

Definition sample_iterations : list (list Event) :=
  [[BusMessage (GST_MESSAGE_ASYNC_DONE None)];
   [BusMessage (GST_MESSAGE_BUFFERING 90)];
   [BusMessage (GST_MESSAGE_BUFFERING 100)];
   [StdinReady (G_IO_STATUS_NORMAL "g")];
   [BusMessage GST_MESSAGE_EOS]].

(** A provider that never answers, and a port no provider can have. *)
Definition silent_env (its : list (list Event)) : Env :=
  mkEnv (mkGlobalData 0 0 false false) false true sample_playbin
    (fun s => String.prefix "file://" s) (fun s => Some ("file://" ++ s)%string)
    GST_STATE_CHANGE_ASYNC its.

Definition wide_port_args : list CliArg :=
  [OptClockHost "192.168.1.10"; OptClockPort 70000;
   Positional "file:///tmp/sintel.ogv"].

Lemma start_without_synchronisation_witness :
  clock_syncs (silent_env sample_iterations) = false
  /\ fst (main (silent_env sample_iterations) "playback" wide_port_args)
     <> Blocked
  /\ exists rest,
       log (snd (main (silent_env sample_iterations) "playback" wide_port_args))
       = NetClientClockNew "192.168.1.10" 70000
           :: ClockWaitForSync GST_CLOCK_TIME_NONE
           :: GPrint "Network clock is synched to master\n" []
           :: ElementFactoryMake "playbin" "playbin" :: rest
       /\ In (ElementSetState GST_STATE_PLAYING) rest.
Proof.
  split; [reflexivity|].
  refine (proj2 (proj2 (start_without_synchronisation
                          (silent_env sample_iterations) "playback"
                          wide_port_args
                          (mkStatics (Some "192.168.1.10") 70000
                             GST_CLOCK_TIME_NONE)
                          "192.168.1.10" "file:///tmp/sintel.ogv"
                          _ eq_refl eq_refl))).
  exists []. repeat split; discriminate.
Defined.

(** *** The base-time override *)

(** The effects that set the start time or the base time of the pipeline. *)
Fixpoint time_commands (l : list Effect) : list Effect :=
  match l with
  | [] => []
  | ElementSetStartTime t :: rest => ElementSetStartTime t :: time_commands rest
  | ElementSetBaseTime t :: rest => ElementSetBaseTime t :: time_commands rest
  | _ :: rest => time_commands rest
  end.

Lemma time_commands_app l1 l2 :
  time_commands (l1 ++ l2) = time_commands l1 ++ time_commands l2.
Proof.
  induction l1 as [|e l1 IH]; [reflexivity|].
  destruct e; cbn; rewrite IH; reflexivity.
Qed.

Lemma callbacks_set_no_time d :
  forallb callback_effect d = true -> time_commands d = [].
Proof.
  induction d as [|e d IH]; [reflexivity|].
  cbn. intros F. apply andb_prop in F as [E F].
  destruct e; try discriminate; auto.
Qed.

Lemma state_commands_nil_in l s :
  state_commands l = [] -> ~ In (ElementSetState s) l.
Proof.
  induction l as [|e l IH]; [intros _ []|].
  intros E [->|H]; [discriminate|].
  destruct e; cbn in E; try discriminate; exact (IH E H).
Qed.


Lemma startup_log_times env st host file :
  exists before after after',
    startup_log env st host file
    = before
        ++ (if base_time st =? GST_CLOCK_TIME_NONE then []
            else [ElementSetStartTime GST_CLOCK_TIME_NONE;
                  ElementSetBaseTime (base_time st)])
        ++ after
    /\ state_commands before = [] /\ time_commands before = []
    /\ time_commands after = []
    /\ state_commands after = GST_STATE_PLAYING :: after'.
Proof.
  unfold startup_log. do 3 eexists. split; [reflexivity|].
  repeat split. destruct (play_result env); cbn; reflexivity.
Qed.

(** C5. The base-time override.  Let [base_time] be the static variable
    after the command line has been parsed.  If it is the sentinel, no run
    ever sets a start time or a base time.  If it is not, a run sets them at
    most once, as the pair "start time to none, then base time to the
    override"; and in every run that issues a state command the pair is
    there, before every state command, the first of which is the start
    command (Playing). *)
Theorem base_time_override env argv0 args st argv :
  g_option_context_parse args statics_init = inr (st, argv) ->
  let l := log (snd (main env argv0 args)) in
  (base_time st = GST_CLOCK_TIME_NONE -> time_commands l = [])
  /\ (base_time st <> GST_CLOCK_TIME_NONE ->
      (time_commands l = []
       \/ time_commands l = [ElementSetStartTime GST_CLOCK_TIME_NONE;
                             ElementSetBaseTime (base_time st)])
      /\ (state_commands l <> [] ->
          exists before after after',
            l = before ++ ElementSetStartTime GST_CLOCK_TIME_NONE
                  :: ElementSetBaseTime (base_time st) :: after
            /\ state_commands before = []
            /\ time_commands before = []
            /\ time_commands after = []
            /\ state_commands after = GST_STATE_PLAYING :: after')).
Proof.
  intros P l.
  assert (Quiet : time_commands l = [] /\ state_commands l = []
          \/ exists host file tail,
               l = startup_log env st host file ++ tail /\ time_commands tail = []).
  { subst l.
    destruct (invocation_cases args)
      as [(m & P')|[P'|[(st' & argv' & P' & C)|(st' & host & file & Acc)]]].
    - congruence.
    - congruence.
    - rewrite (main_usage _ _ _ _ _ P' C). left. split; reflexivity.
    - assert (st' = st) as ->.
      { destruct Acc as (rest & P' & _). congruence. }
      destruct (wait_returns env st) eqn:S.
      + destruct (playbin_available env) eqn:A.
        * right. exists host, file.
          destruct (main_run_shape_gen _ argv0 _ _ _ _ Acc S A)
            as (d & F & [(_ & _ & L)|(_ & _ & L)]); rewrite L.
          -- exists (d ++ cleanup_log). split; [reflexivity|].
             rewrite time_commands_app, (callbacks_set_no_time _ F). reflexivity.
          -- exists d. split; [reflexivity|]. apply callbacks_set_no_time, F.
        * rewrite (main_no_playbin _ _ _ _ _ _ Acc S A). left. split; reflexivity.
      + rewrite (main_blocked _ _ _ _ _ _ Acc S). left. split; reflexivity. }
  destruct Quiet as [[T C]|(host & file & tail & L & T)].
  - split; [auto|]. intros _. split; [auto|]. intros N. congruence.
  - destruct (startup_log_times env st host file)
      as (before & after & after' & E & Sb & Tb & Ta & Sa).
    rewrite E in L. split.
    + intros B. apply Z.eqb_eq in B. rewrite B in L. rewrite L.
      rewrite !time_commands_app, Tb, Ta, T. reflexivity.
    + intros B. apply Z.eqb_neq in B. rewrite B in L. split.
      * right. rewrite L. rewrite !time_commands_app, Tb, Ta, T. reflexivity.
      * intros _. exists before, (after ++ tail), (after' ++ state_commands tail).
        split; [|split; [|split; [|split]]]; auto.
        -- rewrite L, <- !app_assoc. reflexivity.
        -- rewrite time_commands_app, Ta, T. reflexivity.
        -- rewrite state_commands_app, Sa. reflexivity.
Qed.

Lemma base_time_override_witness :
  time_commands (log (snd (main (sample_env sample_iterations) "playback" sample_args)))
  = [ElementSetStartTime GST_CLOCK_TIME_NONE; ElementSetBaseTime 1234567890]
  /\ time_commands
       (log (snd (main (sample_env sample_iterations) "playback"
                    [OptClockHost "192.168.1.10"; OptClockPort 8554;
                     Positional "file:///tmp/sintel.ogv"]))) = [].
Proof.
  split.
  - pose proof (base_time_override (sample_env sample_iterations) "playback"
                  sample_args (mkStatics (Some "192.168.1.10") 8554 1234567890)
                  ["file:///tmp/sintel.ogv"] eq_refl) as H.
    cbv zeta in H. destruct H as [_ H].
    destruct H as [[E|E] _]; [vm_compute; discriminate| |exact E].
    vm_compute in E. discriminate E.
  - pose proof (base_time_override (sample_env sample_iterations) "playback"
                  [OptClockHost "192.168.1.10"; OptClockPort 8554;
                   Positional "file:///tmp/sintel.ogv"]
                  (mkStatics (Some "192.168.1.10") 8554 GST_CLOCK_TIME_NONE)
                  ["file:///tmp/sintel.ogv"] eq_refl) as H.
    cbv zeta in H. destruct H as [H _]. exact (H eq_refl).
Defined.


(** *** When the main loop returns *)

Lemma exec_dispatch_all_cons ev rest w :
  exec (dispatch_all (ev :: rest)) w = exec (dispatch_all rest) (exec (dispatch ev) w).
Proof.
  unfold exec. cbn [dispatch_all]. unfold bind.
  destruct (dispatch ev w) as [[] w1]. reflexivity.
Qed.

Lemma iterate_cons ready rest w :
  iterate (ready :: rest) w
  = if loop_is_running (exec (dispatch_all ready) w)
    then iterate rest (exec (dispatch_all ready) w)
    else (true, exec (dispatch_all ready) w).
Proof.
  unfold exec. cbn [iterate]. unfold bind, ret.
  destruct (dispatch_all ready w) as [[] w1]. cbn [snd].
  destruct (loop_is_running w1); reflexivity.
Qed.

(** The bus messages that end the session. *)
Definition bus_quits (m : GstMessage) : bool :=
  match m with
  | GST_MESSAGE_EOS | GST_MESSAGE_ERROR _ _ _ => true
  | _ => false
  end.

Lemma dispatch_bus_quits m w :
  has_source BusWatch (sources w) = true -> bus_quits m = true ->
  loop_is_running (exec (dispatch (BusMessage m)) w) = false.
Proof.
  intros B Q. unfold exec, dispatch, attached, bind, when. rewrite B.
  destruct w as [d pb run src nxt lg].
  destruct m; try discriminate; reflexivity.
Qed.

Lemma dispatch_all_bus_quits ready m w :
  has_source BusWatch (sources w) = true ->
  In (BusMessage m) ready -> bus_quits m = true ->
  loop_is_running (exec (dispatch_all ready) w) = false.
Proof.
  revert w. induction ready as [|ev ready IH]; intros w B I Q; [destruct I|].
  destruct I as [->|I]; rewrite exec_dispatch_all_cons.
  - apply (steps_quit _ _ (dispatch_all_steps ready _)).
    apply dispatch_bus_quits; assumption.
  - apply IH; auto. apply (steps_bus _ _ (dispatch_steps ev w)), B.
Qed.

Lemma iterate_returns_bus its ready m w :
  has_source BusWatch (sources w) = true ->
  In ready its -> In (BusMessage m) ready -> bus_quits m = true ->
  fst (iterate its w) = true.
Proof.
  revert w. induction its as [|r its IH]; intros w B I M Q; [destruct I|].
  destruct I as [->|I]; rewrite iterate_cons.
  - rewrite (dispatch_all_bus_quits _ _ _ B M Q). reflexivity.
  - destruct (loop_is_running _); [|reflexivity].
    eapply IH; eauto. apply (steps_bus _ _ (dispatch_all_steps r w)), B.
Qed.

(** Nothing after the iteration that brings such a message is looked at. *)
Lemma iterate_stops_at its ready rest m w :
  has_source BusWatch (sources w) = true ->
  In (BusMessage m) ready -> bus_quits m = true ->
  iterate (its ++ ready :: rest) w = iterate (its ++ [ready]) w.
Proof.
  revert w. induction its as [|r its IH]; intros w B M Q;
    cbn [app]; rewrite !iterate_cons.
  - rewrite (dispatch_all_bus_quits _ _ _ B M Q). reflexivity.
  - destruct (loop_is_running _); [|reflexivity].
    apply IH; auto. apply (steps_bus _ _ (dispatch_all_steps r w)), B.
Qed.

(** A loop that is still running after some iterations goes on with the
    next ones. *)
Lemma iterate_app its rest w :
  fst (iterate its w) = false ->
  iterate (its ++ rest) w = iterate rest (exec (iterate its) w).
Proof.
  revert w. induction its as [|r its IH]; intros w R; [reflexivity|].
  cbn [app]. unfold exec in *. rewrite !iterate_cons in *. unfold exec in *.
  destruct (loop_is_running _); [|discriminate]. apply IH, R.
Qed.

Lemma log_kept w w' e : steps w w' -> In e (log w) -> In e (log w').
Proof.
  intros [(d & L & _) _ _ _ _] I. rewrite L. apply in_or_app. auto.
Qed.

Definition error_report (src message : string) (dbg_info : option string) : list Effect :=
  [GPrintErr "ERROR from element %s: %s\n" [ArgS src; ArgS message];
   GPrintErr "Debugging info: %s\n"
     [ArgS match dbg_info with Some d => d | None => "none" end];
   GPrint "Exiting.\n" [];
   MainLoopQuit].

Lemma handle_error_spec src message dbg_info w :
  handle_bus_msg (GST_MESSAGE_ERROR src message dbg_info) w
  = (true, with_running false
             (with_log (log w ++ error_report src message dbg_info) w)).
Proof.
  destruct w as [d pb run src' nxt lg]. run_cb. cbn.
  rewrite <- !app_assoc. reflexivity.
Qed.

Lemma dispatch_all_error_logged ready src message dbg_info w e :
  has_source BusWatch (sources w) = true ->
  In (BusMessage (GST_MESSAGE_ERROR src message dbg_info)) ready ->
  In e (error_report src message dbg_info) ->
  In e (log (exec (dispatch_all ready) w)).
Proof.
  revert w. induction ready as [|ev ready IH]; intros w B I E; [destruct I|].
  destruct I as [->|I]; rewrite exec_dispatch_all_cons.
  - apply (log_kept _ _ _ (dispatch_all_steps ready _)).
    unfold exec, dispatch, attached, bind, when. rewrite B, handle_error_spec.
    destruct w. cbn. apply in_or_app. auto.
  - apply IH; auto. apply (steps_bus _ _ (dispatch_steps ev w)), B.
Qed.


(** Standard input is still watched, unless the loop has been told to
    quit. *)
Definition stdin_watched (w : World) : Prop :=
  has_source IOWatch (sources w) = true \/ loop_is_running w = false.

(** Every event but the end of standard input keeps it that way. *)
Definition stdin_open (ev : Event) : bool :=
  match ev with
  | StdinReady G_IO_STATUS_EOF => false
  | _ => true
  end.

Lemma dispatch_keeps_stdin ev w :
  stdin_open ev = true -> stdin_watched w -> stdin_watched (exec (dispatch ev) w).
Proof.
  intros O [I|Q]; [|right; apply (steps_quit _ _ (dispatch_steps ev w)), Q].
  destruct ev as [msg|status|p]; unfold exec, dispatch, attached, bind, when.
  - destruct (has_source BusWatch (sources w)); [|left; exact I].
    pose proof (handle_bus_msg_steps msg w) as [_ H].
    pose proof (handle_bus_msg_true msg w) as T. unfold exec in H.
    destruct (handle_bus_msg msg w) as [keep w']; cbn [fst snd] in *.
    subst keep. left. cbn. rewrite H. exact I.
  - rewrite I. destruct status as [m|c| |]; try discriminate.
    + right. destruct w. reflexivity.
    + pose proof (on_key_steps c w) as [_ H]. unfold exec in H.
      unfold io_callback, bind, ret. destruct (on_key c w) as [[] w'].
      left. cbn in *. rewrite H. exact I.
    + left. exact I.
  - left. destruct w. exact I.
Qed.

Lemma dispatch_all_keeps_stdin ready w :
  forallb stdin_open ready = true -> stdin_watched w ->
  stdin_watched (exec (dispatch_all ready) w).
Proof.
  revert w. induction ready as [|ev ready IH]; intros w O J; [exact J|].
  cbn in O. apply andb_prop in O as [O1 O2].
  rewrite exec_dispatch_all_cons. apply IH; auto using dispatch_keeps_stdin.
Qed.

Definition quit_key : Event := StdinReady (G_IO_STATUS_NORMAL "q").

Lemma dispatch_quit_key w :
  stdin_watched w -> loop_is_running (exec (dispatch quit_key) w) = false.
Proof.
  intros [I|Q]; [|apply (steps_quit _ _ (dispatch_steps _ w)), Q].
  unfold exec, dispatch, quit_key, attached, bind, when. rewrite I.
  destruct w. reflexivity.
Qed.

Lemma dispatch_all_quit_key b1 b2 w :
  forallb stdin_open b1 = true -> stdin_watched w ->
  loop_is_running (exec (dispatch_all (b1 ++ quit_key :: b2)) w) = false.
Proof.
  revert w. induction b1 as [|ev b1 IH]; intros w O J; cbn [app];
    rewrite exec_dispatch_all_cons.
  - apply (steps_quit _ _ (dispatch_all_steps b2 _)), dispatch_quit_key, J.
  - cbn in O. apply andb_prop in O as [O1 O2].
    apply IH; auto using dispatch_keeps_stdin.
Qed.

Lemma iterate_returns_key pre b1 b2 post w :
  forallb (forallb stdin_open) pre = true -> forallb stdin_open b1 = true ->
  stdin_watched w ->
  fst (iterate (pre ++ (b1 ++ quit_key :: b2) :: post) w) = true.
Proof.
  revert w. induction pre as [|r pre IH]; intros w Op O J; cbn [app];
    rewrite iterate_cons.
  - rewrite (dispatch_all_quit_key _ _ _ O J). reflexivity.
  - cbn in Op. apply andb_prop in Op as [O1 O2].
    destruct (loop_is_running _); [|reflexivity].
    apply IH; auto using dispatch_all_keeps_stdin.
Qed.

(** *** The command line *)

Definition is_positional (a : CliArg) : bool :=
  match a with Positional _ => true | _ => false end.
Definition is_clock_host (a : CliArg) : bool :=
  match a with OptClockHost _ => true | _ => false end.
Definition is_clock_port (a : CliArg) : bool :=
  match a with OptClockPort _ => true | _ => false end.

Lemma parse_without args : forall st0 st argv,
  g_option_context_parse args st0 = inr (st, argv) ->
  (existsb is_positional args = false -> argv = [])
  /\ (existsb is_clock_host args = false -> clock_host st = clock_host st0)
  /\ (existsb is_clock_port args = false -> clock_port st = clock_port st0).
Proof.
  induction args as [|a args IH]; intros st0 st argv P; cbn in P.
  - inversion P; subst. auto.
  - destruct a as [h|p|t|s|why|]; cbn [existsb is_positional is_clock_host
                                         is_clock_port orb].
    + destruct (IH _ _ _ P) as (A & B & C). repeat split; auto; discriminate.
    + destruct (is_gintb p); [|discriminate].
      destruct (IH _ _ _ P) as (A & B & C). repeat split; auto; discriminate.
    + destruct (is_gint64b t); [|discriminate].
      destruct (IH _ _ _ P) as (A & B & C). repeat split; auto.
    + destruct (g_option_context_parse args st0) as [e|[st' argv']] eqn:P';
        [discriminate|]. inversion P; subst.
      destruct (IH _ _ _ P') as (A & B & C). repeat split; auto; discriminate.
    + discriminate.
    + discriminate.
Qed.


(** C6. Validation of the player's command line.  The usage text and the
    return of 1 are for the command lines that the option parser hands
    back: when the command line parses and holds no media locator, or no
    clock-host option, or no clock-port option, the player prints the usage
    text and returns 1; it has done nothing else, so no main loop has been
    run.  A command line that the parser refuses aborts the process in
    [g_error] with the parser's message and no usage text, and a help
    option ends the process with 0 inside the parser, whatever else is
    absent.  An accepted invocation whose clock synchronises and whose
    playbin exists returns 0 when an end-of-stream message arrives, and when
    [q] is read from a standard input that has not ended before. *)
Theorem consumer_cli_validation env argv0 args :
  (forall message,
      g_option_context_parse args statics_init = inl (ParseError message) ->
      main env argv0 args
      = (Aborted, with_log [GError "Error parsing options: %s" [ArgS message]]
                    (initial_world env)))
  /\ (g_option_context_parse args statics_init = inl ParseHelp ->
      main env argv0 args = (Exited 0, with_log [GOptionHelp] (initial_world env)))
  /\ (forall st argv,
      g_option_context_parse args statics_init = inr (st, argv) ->
      existsb is_positional args = false
      \/ existsb is_clock_host args = false
      \/ existsb is_clock_port args = false ->
      main env argv0 args = (Exited 1, with_log (usage_log argv0) (initial_world env))
      /\ ~ In MainLoopRun (log (snd (main env argv0 args))))
  /\ (forall st host file pre b1 b2 post ev,
      accepted args st host file ->
      clock_syncs env = true -> playbin_available env = true ->
      iterations env = pre ++ (b1 ++ ev :: b2) :: post ->
      ev = BusMessage GST_MESSAGE_EOS
      \/ (ev = quit_key
          /\ forallb (forallb stdin_open) pre = true
          /\ forallb stdin_open b1 = true) ->
      fst (main env argv0 args) = Exited 0).
Proof.
  split; [|split; [|split]].
  - intros message P. apply main_parse_error, P.
  - intros P. apply main_help, P.
  - intros st argv P C.
    destruct (parse_without _ _ _ _ P) as (A & B & D).
    assert (U : main env argv0 args
                = (Exited 1, with_log (usage_log argv0) (initial_world env))).
    { apply (main_usage _ _ _ _ _ P). destruct C as [C|[C|C]]; auto. }
    split; [exact U|]. rewrite U. cbn. intuition discriminate.
  - intros st host file pre b1 b2 post ev Acc S A I Q.
    destruct (main_run_shape _ argv0 _ _ _ _ Acc S A)
      as (d & _ & [(O & _)|(_ & R & _)]); [exact O|].
    exfalso. rewrite I in R.
    destruct Q as [->|(-> & Op & O)].
    + rewrite (iterate_returns_bus _ (b1 ++ BusMessage GST_MESSAGE_EOS :: b2)
                 GST_MESSAGE_EOS) in R; try discriminate; try reflexivity.
      * apply in_or_app. right. left. reflexivity.
      * apply in_or_app. right. left. reflexivity.
    + rewrite iterate_returns_key in R; try discriminate; auto.
      left. reflexivity.
Qed.

Lemma consumer_cli_validation_witness :
  main (sample_env sample_iterations) "playback" [OptClockHost "192.168.1.10"]
  = (Exited 1, with_log (usage_log "playback")
                 (initial_world (sample_env sample_iterations)))
  /\ fst (main (sample_env sample_iterations) "playback" sample_args) = Exited 0
  /\ fst (main (sample_env [[BusMessage GST_MESSAGE_LATENCY]; [quit_key]]) "playback"
            sample_args) = Exited 0.
Proof.
  split; [|split].
  - refine (proj1 (proj1 (proj2 (proj2
                     (consumer_cli_validation (sample_env sample_iterations)
                        "playback" [OptClockHost "192.168.1.10"])))
                     _ _ eq_refl _)).
    left. reflexivity.
  - refine (proj2 (proj2 (proj2
              (consumer_cli_validation (sample_env sample_iterations)
                 "playback" sample_args)))
              _ _ _
              [[BusMessage (GST_MESSAGE_ASYNC_DONE None)];
               [BusMessage (GST_MESSAGE_BUFFERING 90)];
               [BusMessage (GST_MESSAGE_BUFFERING 100)];
               [StdinReady (G_IO_STATUS_NORMAL "g")]]
              [] [] [] (BusMessage GST_MESSAGE_EOS)
              (ex_intro _ [] (conj eq_refl (conj eq_refl _)))
              eq_refl eq_refl eq_refl (or_introl eq_refl)).
    vm_compute. discriminate.
  - refine (proj2 (proj2 (proj2
              (consumer_cli_validation
                 (sample_env [[BusMessage GST_MESSAGE_LATENCY]; [quit_key]])
                 "playback" sample_args)))
              _ _ _ [[BusMessage GST_MESSAGE_LATENCY]] [] [] [] quit_key
              (ex_intro _ [] (conj eq_refl (conj eq_refl _)))
              eq_refl eq_refl eq_refl
              (or_intror (conj eq_refl (conj eq_refl eq_refl)))).
    vm_compute. discriminate.
Defined.


(** The command line of the quickstart with an option the parser does not
    know, and a request for help: the locator, the host and the port are
    all absent, and neither run prints the usage text or returns 1. *)
Lemma consumer_cli_validation_counterexample :
  existsb is_positional [Unparsable "Unknown option --bogus"] = false
  /\ existsb is_clock_host [Unparsable "Unknown option --bogus"] = false
  /\ existsb is_clock_port [Unparsable "Unknown option --bogus"] = false
  /\ main (sample_env sample_iterations) "playback"
       [Unparsable "Unknown option --bogus"]
     = (Aborted,
        with_log [GError "Error parsing options: %s"
                    [ArgS "Unknown option --bogus"]]
          (initial_world (sample_env sample_iterations)))
  /\ existsb is_positional [OptHelp] = false
  /\ existsb is_clock_host [OptHelp] = false
  /\ existsb is_clock_port [OptHelp] = false
  /\ main (sample_env sample_iterations) "playback" [OptHelp]
     = (Exited 0, with_log [GOptionHelp]
                    (initial_world (sample_env sample_iterations))).
Proof. repeat split. Qed.

Lemma running_means_accepted env argv0 args :
  fst (main env argv0 args) = LoopRunning ->
  exists st host file,
    accepted args st host file
    /\ wait_returns env st = true /\ playbin_available env = true
    /\ fst (iterate (iterations env) (loop_entry env st host file)) = false.
Proof.
  intros R.
  destruct (invocation_cases args)
    as [(m & P)|[P|[(st & argv & P & C)|(st & host & file & Acc)]]].
  - rewrite (main_parse_error _ _ _ _ P) in R. discriminate.
  - rewrite (main_help _ _ _ P) in R. discriminate.
  - rewrite (main_usage _ _ _ _ _ P C) in R. discriminate.
  - exists st, host, file. destruct (wait_returns env st) eqn:S.
    + destruct (playbin_available env) eqn:A.
      * destruct (main_run_shape_gen _ argv0 _ _ _ _ Acc S A)
          as (d & _ & [(O & _)|(_ & I & _)]); [congruence|auto].
      * rewrite (main_no_playbin _ _ _ _ _ _ Acc S A) in R. discriminate.
    + rewrite (main_blocked _ _ _ _ _ _ Acc S) in R. discriminate.
Qed.

(** C7. Pipeline errors.  The handler of an error message prints the name
    of the source element with the error message and the debugging detail
    on standard error, prints that it is exiting, and tells the main loop to
    quit; it issues no command to the pipeline.  In a run of the player that
    is still in its main loop when an iteration brings an error message, the
    report is in the log, nothing after that iteration is dispatched, the
    watches are removed, the pipeline is set to Null and released with the
    loop, and the process returns 0. *)
Theorem pipeline_error_handling src message dbg_info :
  (forall w,
      handle_bus_msg (GST_MESSAGE_ERROR src message dbg_info) w
      = (true, with_running false
                 (with_log (log w ++ error_report src message dbg_info) w)))
  /\ (forall env argv0 args pre ready post,
      iterations env = pre ++ ready :: post ->
      In (BusMessage (GST_MESSAGE_ERROR src message dbg_info)) ready ->
      fst (main (with_iterations pre env) argv0 args) = LoopRunning ->
      fst (main env argv0 args) = Exited 0
      /\ (forall e, In e (error_report src message dbg_info) ->
                    In e (log (snd (main env argv0 args))))
      /\ (exists l, log (snd (main env argv0 args)) = l ++ cleanup_log)
      /\ main env argv0 args
         = main (with_iterations (pre ++ [ready]) env) argv0 args).
Proof.
  split; [apply handle_error_spec|].
  intros env argv0 args pre ready post I M R.
  apply running_means_accepted in R as (st & host & file & Acc & S & A & R).
  change (loop_entry (with_iterations pre env) st host file)
    with (loop_entry env st host file) in R.
  change (wait_returns (with_iterations pre env) st)
    with (wait_returns env st) in S.
  cbn [iterations playbin_available with_iterations] in R, A.
  set (w0 := loop_entry env st host file) in *.
  set (w1 := exec (iterate pre) w0).
  assert (S1 : steps w0 w1) by apply iterate_steps.
  assert (B1 : has_source BusWatch (sources w1) = true)
    by (apply (steps_bus _ _ S1); reflexivity).
  set (w2 := exec (dispatch_all ready) w1).
  assert (S2 : steps w0 w2)
    by (eapply steps_trans; [exact S1|apply dispatch_all_steps]).
  assert (E : iterate (iterations env) w0 = (true, w2)).
  { rewrite I, (iterate_app _ _ _ R), iterate_cons. fold w1. fold w2.
    unfold w2. rewrite (dispatch_all_bus_quits _ _ _ B1 M eq_refl). reflexivity. }
  assert (E' : main env argv0 args = (Exited 0, exec cleanup w2)).
  { rewrite (main_enters_loop_gen _ _ _ _ _ _ Acc S A). fold w0. rewrite E.
    reflexivity. }
  rewrite E'. cbn [fst snd]. repeat split.
  - intros e He. rewrite cleanup_log_spec. apply in_or_app. left.
    apply (dispatch_all_error_logged _ _ _ _ _ _ B1 M He).
  - exists (log w2). rewrite cleanup_log_spec.
    destruct (loop_entry_ids _ _ _ _ _ S2) as [-> ->]. reflexivity.
  - rewrite <- E'.
    rewrite (main_enters_loop_gen env argv0 args st host file Acc S A).
    rewrite (main_enters_loop_gen (with_iterations (pre ++ [ready]) env) argv0
               args st host file Acc S A).
    change (loop_entry (with_iterations (pre ++ [ready]) env) st host file) with w0.
    fold w0. cbn [iterations with_iterations]. rewrite I.
    rewrite !(iterate_app _ _ _ R), !iterate_cons. fold w1. fold w2.
    unfold w2. rewrite (dispatch_all_bus_quits _ _ _ B1 M eq_refl). reflexivity.
Qed.

Lemma pipeline_error_handling_witness :
  fst (main (sample_env
               [[BusMessage (GST_MESSAGE_ASYNC_DONE None)];
                [BusMessage (GST_MESSAGE_ERROR "oggdemux0" "Could not demultiplex stream."
                               None)];
                [BusMessage GST_MESSAGE_CLOCK_LOST]])
         "playback" sample_args) = Exited 0.
Proof.
  refine (proj1 (proj2 (pipeline_error_handling "oggdemux0"
                          "Could not demultiplex stream." None)
                   (sample_env _) "playback" sample_args
                   [[BusMessage (GST_MESSAGE_ASYNC_DONE None)]]
                   [BusMessage (GST_MESSAGE_ERROR "oggdemux0"
                                  "Could not demultiplex stream." None)]
                   [[BusMessage GST_MESSAGE_CLOCK_LOST]]
                   eq_refl (or_introl eq_refl) _)).
  vm_compute. reflexivity.
Defined.

End PlaybackSpec.

(** * Properties of the clock provider *)

Module NetclockServerSpec.
Import NetclockServer.

(** The line [print_time] prints for a clock reading. *)
Definition time_line (now : Z) : Effect :=
  GPrint ("Base time %" ++ G_GUINT64_FORMAT ++ "\r")%string [ArgZ now].

(** The port the program asks for. *)
Definition requested_port (args : list string) : Z :=
  match args with
  | [] => 0
  | a :: _ => atoi a
  end.

(** The port it reports: the one of the provider, or the requested one when
    there is no provider to ask. *)
Definition reported_port (env : Env) (args : list string) : Z :=
  match provider_port env (requested_port args) with
  | Some port => port
  | None => requested_port args
  end.

Lemma iterate_never_returns readings : forall w,
  loop_is_running w = true -> timer_attached w = true ->
  iterate readings w
  = (false, mkWorld true true (log w ++ map time_line readings)).
Proof.
  induction readings as [|now readings IH]; intros [run tmr lg] R T;
    cbn in R, T; subst; cbn [iterate].
  - cbn. rewrite app_nil_r. reflexivity.
  - unfold expire, print_time, emit. cbn [timer_attached loop_is_running log].
    rewrite IH by reflexivity. cbn [log map]. rewrite <- app_assoc. reflexivity.
Qed.

(** C8. The clock provider.  Its one optional argument is the port to
    listen on, 0 when it is left out.  The first thing it prints is the port
    the provider reports (which is the bound port, not 0, when port 0 was
    asked for and the provider picked one); it attaches a timer of one
    second, and prints the clock reading once per expiry of that timer; and
    for every number of expiries its main loop is still running: nothing in
    the program makes it return. *)
Theorem provider_cli env args :
  main env args
  = (LoopRunning,
     mkWorld true true
       ([MainLoopNew;
         NetTimeProviderNew (requested_port args);
         GPrint "Published network clock on port %u\n"
           [ArgZ (to_guint (reported_port env args))];
         GTimeoutAddSeconds 1;
         MainLoopRun]
        ++ map time_line (clock_readings env)))
  /\ requested_port [] = 0
  /\ (forall rest, requested_port ("0"%string :: rest) = 0)
  /\ (forall rest, requested_port ("5637"%string :: rest) = 5637)
  /\ (forall port,
      requested_port args = 0 -> provider_port env 0 = Some port ->
      0 < port < 65536 ->
      to_guint (reported_port env args) = port /\ port <> 0).
Proof.
  split; [|split; [reflexivity|split; [reflexivity|split; [reflexivity|]]]].
  - unfold main, g_main_loop_run, reported_port, requested_port.
    assert (P : (if 1 + Z.of_nat (List.length args) >? 1 then atoi (hd ""%string args)
                 else 0)
                = match args with [] => 0 | a :: _ => atoi a end).
    { destruct args as [|a args]; [reflexivity|].
      replace (1 + Z.of_nat (List.length (a :: args)) >? 1) with true; [reflexivity|].
      symmetry. apply Z.gtb_lt. cbn [List.length]. lia. }
    rewrite P. unfold emit. cbn [loop_is_running timer_attached log app].
    rewrite iterate_never_returns by reflexivity. reflexivity.
  - intros port R B H. unfold reported_port. rewrite R, B.
    unfold to_guint. rewrite Z.mod_small; lia.
Qed.

Lemma provider_cli_witness :
  to_guint (reported_port
              (mkEnv (fun p => Some (if p =? 0 then 40123 else p)) [10; 1000000010])
              []) = 40123
  /\ 40123 <> 0.
Proof.
  refine (proj2 (proj2 (proj2 (proj2
            (provider_cli
               (mkEnv (fun p => Some (if p =? 0 then 40123 else p)) [10; 1000000010])
               []))))
            40123 eq_refl eq_refl _).
  lia.
Defined.

End NetclockServerSpec.

(** * Further properties of the player *)

Module PlaybackExtra.
Import Playback PlaybackSpec.
Local Open Scope cb_scope.

(** ** The flag toggles *)

(** What [flags & mask ? flags & ~mask : flags | mask] does for a mask of
    one bit. *)
Definition toggled (mask flags : Z) : Z :=
  if negb (Z.land flags mask =? 0) then Z.land flags (Z.lnot mask)
  else Z.lor flags mask.

Lemma land_bit_zero k f :
  0 <= k -> (Z.land f (2 ^ k) =? 0) = negb (Z.testbit f k).
Proof.
  intros K. destruct (Z.testbit f k) eqn:B; cbn [negb].
  - apply Z.eqb_neq. intros E.
    assert (T : Z.testbit (Z.land f (2 ^ k)) k = true).
    { rewrite Z.land_spec, B, Z.pow2_bits_eqb, Z.eqb_refl by lia. reflexivity. }
    rewrite E, Z.bits_0 in T. discriminate.
  - apply Z.eqb_eq. apply Z.bits_inj'. intros i Hi.
    rewrite Z.land_spec, Z.bits_0, Z.pow2_bits_eqb by lia.
    destruct (Z.eqb_spec k i) as [<-|N]; [rewrite B; reflexivity|].
    apply andb_false_r.
Qed.

Lemma toggled_bits k f i :
  0 <= k -> 0 <= i ->
  Z.testbit (toggled (2 ^ k) f) i
  = if i =? k then negb (Z.testbit f k) else Z.testbit f i.
Proof.
  intros K I. unfold toggled. rewrite land_bit_zero by lia.
  destruct (Z.testbit f k) eqn:B; cbn [negb].
  - rewrite Z.land_spec, Z.lnot_spec, Z.pow2_bits_eqb by lia.
    rewrite (Z.eqb_sym i k).
    destruct (Z.eqb_spec k i) as [<-|N]; cbn [negb];
      [apply andb_false_r|apply andb_true_r].
  - rewrite Z.lor_spec, Z.pow2_bits_eqb by lia.
    rewrite (Z.eqb_sym i k).
    destruct (Z.eqb_spec k i) as [<-|N]; [apply orb_true_r|apply orb_false_r].
Qed.

Lemma toggled_twice k f : 0 <= k -> toggled (2 ^ k) (toggled (2 ^ k) f) = f.
Proof.
  intros K. apply Z.bits_inj'. intros i I.
  rewrite !toggled_bits by lia. rewrite Z.eqb_refl.
  destruct (Z.eqb_spec i k) as [->|N]; [apply negb_involutive|reflexivity].
Qed.

Lemma toggled_commute j k f :
  0 <= j -> 0 <= k -> j <> k ->
  toggled (2 ^ j) (toggled (2 ^ k) f) = toggled (2 ^ k) (toggled (2 ^ j) f).
Proof.
  intros J K N. apply Z.bits_inj'. intros i I.
  rewrite !toggled_bits by lia.
  repeat match goal with
         | |- context [?a =? ?b] => destruct (Z.eqb_spec a b)
         end; subst; try reflexivity; congruence.
Qed.

Lemma toggle_subtitle_world w :
  exec toggle_subtitle w
  = with_playbin
      (mkPlaybin (uri (playbin w)) (toggled PLAY_FLAGS_SUBTITLES (flags (playbin w)))
         (current_audio (playbin w)) (n_audio (playbin w))
         (current_text (playbin w)) (n_text (playbin w)) (position (playbin w)))
      (with_log
         (log w
          ++ [GPrint (if negb (Z.land (flags (playbin w)) PLAY_FLAGS_SUBTITLES =? 0)
                      then "Disabling subtitles\n" else "Enabling subtitles\n") [];
              ObjectSet "flags"
                (VInt (toggled PLAY_FLAGS_SUBTITLES (flags (playbin w))))]) w).
Proof.
  destruct w as [d [u f ca na ct nt p] run src nxt lg]. run_cb. unfold toggled.
  destruct (Z.land f PLAY_FLAGS_SUBTITLES =? 0); cbn; rewrite <- app_assoc;
    reflexivity.
Qed.

Lemma toggle_vis_world w :
  exec toggle_vis w
  = with_playbin
      (mkPlaybin (uri (playbin w))
         (toggled PLAY_FLAGS_VISUALISATIONS (flags (playbin w)))
         (current_audio (playbin w)) (n_audio (playbin w))
         (current_text (playbin w)) (n_text (playbin w)) (position (playbin w)))
      (with_log
         (log w
          ++ [GPrint (if negb (Z.land (flags (playbin w)) PLAY_FLAGS_VISUALISATIONS =? 0)
                      then "Disabling visualisations\n"
                      else "Enabling visualisations\n") [];
              ObjectSet "flags"
                (VInt (toggled PLAY_FLAGS_VISUALISATIONS (flags (playbin w))))]) w).
Proof.
  destruct w as [d [u f ca na ct nt p] run src nxt lg]. run_cb. unfold toggled.
  destruct (Z.land f PLAY_FLAGS_VISUALISATIONS =? 0); cbn; rewrite <- app_assoc;
    reflexivity.
Qed.

(** X1. [toggle_subtitle] inverts the subtitles bit of the playbin flags and
    no other bit; it touches nothing else of the playbin or of the
    controller; and two toggles in a row give back the flags they started
    from. *)
Theorem toggle_subtitle_flips w :
  let w' := exec toggle_subtitle w in
  Z.testbit (flags (playbin w')) 2 = negb (Z.testbit (flags (playbin w)) 2)
  /\ (forall i, i <> 2 ->
      Z.testbit (flags (playbin w')) i = Z.testbit (flags (playbin w)) i)
  /\ flags (playbin (exec toggle_subtitle w')) = flags (playbin w)
  /\ data w' = data w /\ loop_is_running w' = loop_is_running w
  /\ current_text (playbin w') = current_text (playbin w)
  /\ current_audio (playbin w') = current_audio (playbin w)
  /\ state_commands (log w') = state_commands (log w).
Proof.
  cbv zeta. rewrite !toggle_subtitle_world.
  destruct w as [d [u f ca na ct nt p] run src nxt lg].
  cbn [playbin flags data loop_is_running current_text current_audio log
       with_playbin with_log].
  change PLAY_FLAGS_SUBTITLES with (2 ^ 2).
  repeat split.
  - rewrite toggled_bits by lia. reflexivity.
  - intros i N. destruct (Z.ltb_spec i 0) as [Neg|Pos].
    + rewrite !Z.testbit_neg_r by lia. reflexivity.
    + rewrite toggled_bits by lia. apply Z.eqb_neq in N. rewrite N. reflexivity.
  - apply toggled_twice. lia.
  - rewrite state_commands_app. cbn. apply app_nil_r.
Qed.

(** X2. [toggle_vis] inverts the visualisations bit and no other bit, two
    toggles restore the flags, and it commutes with [toggle_subtitle] as far
    as the flags go. *)
Theorem toggle_vis_flips w :
  let w' := exec toggle_vis w in
  Z.testbit (flags (playbin w')) 3 = negb (Z.testbit (flags (playbin w)) 3)
  /\ (forall i, i <> 3 ->
      Z.testbit (flags (playbin w')) i = Z.testbit (flags (playbin w)) i)
  /\ flags (playbin (exec toggle_vis w')) = flags (playbin w)
  /\ flags (playbin (exec toggle_subtitle w'))
     = flags (playbin (exec toggle_vis (exec toggle_subtitle w)))
  /\ data w' = data w /\ loop_is_running w' = loop_is_running w
  /\ state_commands (log w') = state_commands (log w).
Proof.
  cbv zeta. repeat (rewrite toggle_vis_world || rewrite toggle_subtitle_world).
  destruct w as [d [u f ca na ct nt p] run src nxt lg].
  cbn [playbin flags data loop_is_running current_text current_audio log
       with_playbin with_log].
  change PLAY_FLAGS_VISUALISATIONS with (2 ^ 3).
  change PLAY_FLAGS_SUBTITLES with (2 ^ 2).
  repeat split.
  - rewrite toggled_bits by lia. reflexivity.
  - intros i N. destruct (Z.ltb_spec i 0) as [Neg|Pos].
    + rewrite !Z.testbit_neg_r by lia. reflexivity.
    + rewrite toggled_bits by lia. apply Z.eqb_neq in N. rewrite N. reflexivity.
  - apply toggled_twice. lia.
  - apply toggled_commute; lia.
  - rewrite state_commands_app. cbn. apply app_nil_r.
Qed.


(** ** Track selection *)

(** [current += 1; if (current >= count) current = 0;] on two [gint]s. *)
Definition next_track (current count : Z) : Z :=
  if to_gint (current + 1) >=? count then 0 else to_gint (current + 1).

Lemma next_audio_world w :
  exec next_audio w
  = with_playbin
      (mkPlaybin (uri (playbin w)) (flags (playbin w))
         (next_track (current_audio (playbin w)) (n_audio (playbin w)))
         (n_audio (playbin w)) (current_text (playbin w)) (n_text (playbin w))
         (position (playbin w)))
      (with_log
         (log w
          ++ [ObjectSet "current-audio"
                (VInt (next_track (current_audio (playbin w)) (n_audio (playbin w))));
              GPrint "Now playing audio track %d of %d\n"
                [ArgZ (next_track (current_audio (playbin w)) (n_audio (playbin w)));
                 ArgZ (n_audio (playbin w))]]) w).
Proof.
  destruct w as [d [u f ca na ct nt p] run src nxt lg]. run_cb. cbn.
  rewrite <- app_assoc. reflexivity.
Qed.

Lemma next_track_mod current count :
  0 <= current < count -> count <= G_MAXINT ->
  next_track current count = (current + 1) mod count.
Proof.
  intros C M. unfold next_track, G_MAXINT in *.
  rewrite to_gint_id by (unfold is_gint, G_MININT, G_MAXINT; lia).
  destruct (Z.eq_dec (current + 1) count) as [E|N].
  - rewrite E, Z.mod_same by lia.
    replace (count >=? count) with true; [reflexivity|].
    symmetry. rewrite Z.geb_leb. apply Z.leb_refl.
  - rewrite Z.mod_small by lia.
    replace (current + 1 >=? count) with false; [reflexivity|].
    symmetry. rewrite Z.geb_leb. apply Z.leb_gt. lia.
Qed.

Lemma next_audio_iter k : forall w,
  0 <= current_audio (playbin w) < n_audio (playbin w) ->
  n_audio (playbin w) <= G_MAXINT ->
  n_audio (playbin (Nat.iter k (exec next_audio) w)) = n_audio (playbin w)
  /\ current_audio (playbin (Nat.iter k (exec next_audio) w))
     = (current_audio (playbin w) + Z.of_nat k) mod n_audio (playbin w).
Proof.
  induction k as [|k IH]; intros w C M.
  - unfold Nat.iter. cbn [nat_rect Z.of_nat].
    rewrite Z.add_0_r, Z.mod_small by lia. auto.
  - rewrite Nat.iter_succ. destruct (IH w C M) as [N E].
    set (v := Nat.iter k (exec next_audio) w) in *.
    rewrite next_audio_world. destruct v as [d [u f ca na ct nt p] run src nxt lg].
    cbn [playbin n_audio current_audio with_playbin with_log] in *.
    split; [exact N|]. subst na ca.
    rewrite next_track_mod; [|apply Z.mod_pos_bound; lia|assumption].
    rewrite Z.add_mod_idemp_l by lia. f_equal. lia.
Qed.

(** X3. [next_audio] walks through the audio tracks in a circle.  Starting
    from a valid track (0 <= current < n-audio, with n-audio a [gint]), [k]
    presses select track (current + k) mod n-audio, which is again a valid
    track, and n-audio presses come back to the track they started from.  A
    press changes neither the flags, nor the subtitle track, nor the
    controller, and issues no state command. *)
Theorem next_audio_cycles w k :
  0 <= current_audio (playbin w) < n_audio (playbin w) ->
  n_audio (playbin w) <= G_MAXINT ->
  let w' := Nat.iter k (exec next_audio) w in
  current_audio (playbin w')
  = (current_audio (playbin w) + Z.of_nat k) mod n_audio (playbin w)
  /\ 0 <= current_audio (playbin w') < n_audio (playbin w)
  /\ current_audio
       (playbin (Nat.iter (Z.to_nat (n_audio (playbin w))) (exec next_audio) w))
     = current_audio (playbin w)
  /\ flags (playbin (exec next_audio w)) = flags (playbin w)
  /\ current_text (playbin (exec next_audio w)) = current_text (playbin w)
  /\ data (exec next_audio w) = data w
  /\ state_commands (log (exec next_audio w)) = state_commands (log w).
Proof.
  intros C M. cbv zeta.
  destruct (next_audio_iter k w C M) as [_ E].
  destruct (next_audio_iter (Z.to_nat (n_audio (playbin w))) w C M) as [_ E'].
  repeat split.
  - exact E.
  - rewrite E. apply Z.mod_pos_bound. lia.
  - rewrite E. apply Z.mod_pos_bound. lia.
  - rewrite E', Z2Nat.id by lia.
    rewrite <- (Z.mul_1_l (n_audio (playbin w))) at 1.
    rewrite Z.mod_add by lia. apply Z.mod_small. lia.
  - rewrite next_audio_world. destruct w as [d [] run src nxt lg]. reflexivity.
  - rewrite next_audio_world. destruct w as [d [] run src nxt lg]. reflexivity.
  - rewrite next_audio_world. destruct w as [d [] run src nxt lg]. reflexivity.
  - rewrite next_audio_world. destruct w as [d [] run src nxt lg]. cbn.
    rewrite state_commands_app. cbn. apply app_nil_r.
Qed.

Lemma next_audio_cycles_witness :
  current_audio (playbin (Nat.iter 3 (exec next_audio) sample_world)) = 1
  /\ current_audio (playbin (Nat.iter 2 (exec next_audio) sample_world)) = 0.
Proof.
  split.
  - refine (proj1 (next_audio_cycles sample_world 3 _ _)); vm_compute;
      intuition discriminate.
  - refine (proj1 (proj2 (proj2 (next_audio_cycles sample_world 0 _ _))));
      vm_compute; intuition discriminate.
Defined.

(** X4. Where there is nothing to cycle through, [next_audio] and
    [next_subtitle] still write a track index: with a track count of zero
    or less and a current index of at least -1 (the value that stands for
    no track) they set the current track to 0. *)
Theorem next_track_without_tracks w :
  (n_audio (playbin w) <= 0 -> -1 <= current_audio (playbin w) < G_MAXINT ->
   current_audio (playbin (exec next_audio w)) = 0
   /\ In (ObjectSet "current-audio" (VInt 0)) (log (exec next_audio w)))
  /\ (n_text (playbin w) <= 0 -> -1 <= current_text (playbin w) < G_MAXINT ->
      current_text (playbin (exec next_subtitle w)) = 0
      /\ In (ObjectSet "current-text" (VInt 0)) (log (exec next_subtitle w))).
Proof.
  assert (Z0 : forall c n, n <= 0 -> -1 <= c < G_MAXINT -> next_track c n = 0).
  { intros c n N C. unfold next_track, G_MAXINT in *.
    rewrite to_gint_id by (unfold is_gint, G_MININT, G_MAXINT; lia).
    replace (c + 1 >=? n) with true; [reflexivity|].
    symmetry. rewrite Z.geb_leb. apply Z.leb_le. lia. }
  split; intros N C.
  - rewrite next_audio_world. destruct w as [d [u f ca na ct nt p] run src nxt lg].
    cbn in *. rewrite (Z0 _ _ N C). split; [reflexivity|].
    apply in_or_app. right. left. reflexivity.
  - destruct w as [d [u f ca na ct nt p] run src nxt lg]. cbn in N, C.
    run_cb. fold (next_track ct nt). rewrite (Z0 _ _ N C). cbn.
    split; [reflexivity|].
    rewrite <- !app_assoc. apply in_or_app. right. left. reflexivity.
Qed.

Lemma next_track_without_tracks_witness :
  current_audio
    (playbin (exec next_audio
                (with_playbin (mkPlaybin None 0 (-1) 0 (-1) 0 None) sample_world))) = 0
  /\ current_text
       (playbin (exec next_subtitle
                   (with_playbin (mkPlaybin None 0 (-1) 0 (-1) 0 None) sample_world)))
     = 0.
Proof.
  split.
  - refine (proj1 (proj1 (next_track_without_tracks
                            (with_playbin (mkPlaybin None 0 (-1) 0 (-1) 0 None)
                               sample_world)) _ _));
      vm_compute; intuition discriminate.
  - refine (proj1 (proj2 (next_track_without_tracks
                            (with_playbin (mkPlaybin None 0 (-1) 0 (-1) 0 None)
                               sample_world)) _ _));
      vm_compute; intuition discriminate.
Defined.


Lemma next_subtitle_world w :
  exec next_subtitle w
  = with_playbin
      (mkPlaybin (uri (playbin w)) (Z.lor (flags (playbin w)) PLAY_FLAGS_SUBTITLES)
         (current_audio (playbin w)) (n_audio (playbin w))
         (next_track (current_text (playbin w)) (n_text (playbin w)))
         (n_text (playbin w)) (position (playbin w)))
      (with_log
         (log w
          ++ [ObjectSet "current-text"
                (VInt (next_track (current_text (playbin w)) (n_text (playbin w))));
              ObjectSet "flags"
                (VInt (Z.lor (flags (playbin w)) PLAY_FLAGS_SUBTITLES));
              GPrint "Now showing subtitles track %d of %d\n"
                [ArgZ (next_track (current_text (playbin w)) (n_text (playbin w)));
                 ArgZ (n_text (playbin w))]]) w).
Proof.
  destruct w as [d [u f ca na ct nt p] run src nxt lg]. run_cb. cbn.
  rewrite <- !app_assoc. reflexivity.
Qed.

Lemma lor_idem_mask f m : Z.lor (Z.lor f m) m = Z.lor f m.
Proof. rewrite <- Z.lor_assoc, Z.lor_diag. reflexivity. Qed.

(** X5. [next_subtitle] walks through the subtitle tracks in a circle:
    from a valid track, [k] presses select track (current + k) mod n-text,
    and n-text presses come back to the first one.  However many presses
    follow the first, the flags stay what the first press made them (the
    old flags with the subtitles bit set), and the audio track is not
    touched. *)
Theorem next_subtitle_cycles w k :
  0 <= current_text (playbin w) < n_text (playbin w) ->
  n_text (playbin w) <= G_MAXINT ->
  let w' := Nat.iter k (exec next_subtitle) w in
  current_text (playbin w')
  = (current_text (playbin w) + Z.of_nat k) mod n_text (playbin w)
  /\ current_text
       (playbin (Nat.iter (Z.to_nat (n_text (playbin w))) (exec next_subtitle) w))
     = current_text (playbin w)
  /\ flags (playbin (exec next_subtitle w'))
     = Z.lor (flags (playbin w)) PLAY_FLAGS_SUBTITLES
  /\ current_audio (playbin w') = current_audio (playbin w).
Proof.
  intros C M. cbv zeta.
  assert (I : forall j,
             n_text (playbin (Nat.iter j (exec next_subtitle) w)) = n_text (playbin w)
             /\ current_text (playbin (Nat.iter j (exec next_subtitle) w))
                = (current_text (playbin w) + Z.of_nat j) mod n_text (playbin w)
             /\ current_audio (playbin (Nat.iter j (exec next_subtitle) w))
                = current_audio (playbin w)
             /\ Z.lor (flags (playbin (Nat.iter j (exec next_subtitle) w)))
                  PLAY_FLAGS_SUBTITLES
                = Z.lor (flags (playbin w)) PLAY_FLAGS_SUBTITLES).
  { induction j as [|j (N & E & A & F)].
    - unfold Nat.iter. cbn [nat_rect Z.of_nat].
      rewrite Z.add_0_r, Z.mod_small by lia. auto.
    - rewrite Nat.iter_succ.
      set (v := Nat.iter j (exec next_subtitle) w) in *.
      rewrite next_subtitle_world.
      destruct v as [d [u f ca na ct nt p] run src nxt lg].
      cbn [playbin n_text current_text current_audio flags with_playbin with_log] in *.
      subst nt ct ca. repeat split; auto.
      + rewrite next_track_mod; [|apply Z.mod_pos_bound; lia|assumption].
        rewrite Z.add_mod_idemp_l by lia. f_equal. lia.
      + rewrite lor_idem_mask. exact F. }
  destruct (I k) as (_ & E & A & F).
  destruct (I (Z.to_nat (n_text (playbin w)))) as (_ & E' & _).
  repeat split; auto.
  - rewrite E', Z2Nat.id by lia.
    rewrite <- (Z.mul_1_l (n_text (playbin w))) at 1.
    rewrite Z.mod_add by lia. apply Z.mod_small. lia.
  - rewrite next_subtitle_world.
    destruct (Nat.iter k (exec next_subtitle) w) as [d [] run src nxt lg].
    exact F.
Qed.

Lemma next_subtitle_cycles_witness :
  current_text (playbin (Nat.iter 4 (exec next_subtitle) sample_world)) = 1
  /\ current_text (playbin (Nat.iter 3 (exec next_subtitle) sample_world)) = 0.
Proof.
  split.
  - refine (proj1 (next_subtitle_cycles sample_world 4 _ _)); vm_compute;
      intuition discriminate.
  - refine (proj1 (proj2 (next_subtitle_cycles sample_world 0 _ _)));
      vm_compute; intuition discriminate.
Defined.

(** ** Standard input *)

Definition command_keys : list ascii := ["q"; "f"; "g"; "a"; "d"; "s"; "v"]%char.

(** X6. Input that is not a command is ignored: a character other than
    the seven command keys (the newline that follows every command, for
    one), and a read that has nothing to deliver, leave the world as it is
    and keep the watch on standard input. *)
Theorem unrecognised_input_ignored w :
  (forall c, ~ In c command_keys -> io_callback (G_IO_STATUS_NORMAL c) w = (true, w))
  /\ io_callback G_IO_STATUS_AGAIN w = (true, w).
Proof.
  split; [|reflexivity].
  intros c N. unfold io_callback, on_key, bind, ret.
  assert (E : forall k, In k command_keys -> Ascii.eqb c k = false).
  { intros k K. apply Ascii.eqb_neq. intros ->. exact (N K). }
  rewrite !E by (cbn; tauto). reflexivity.
Qed.

Lemma unrecognised_input_ignored_witness :
  io_callback (G_IO_STATUS_NORMAL "010") sample_world = (true, sample_world).
Proof.
  refine (proj1 (unrecognised_input_ignored sample_world) "010"%char _).
  cbn. intuition discriminate.
Defined.

Lemma kind_removed k l :
  has_source k (filter (fun s => negb (SourceKind_eqb (snd s) k)) l) = false.
Proof.
  induction l as [|[id k'] l IH]; [reflexivity|].
  cbn. destruct (SourceKind_eqb k' k) eqn:E; cbn; [exact IH|].
  rewrite E. exact IH.
Qed.

Lemma stdin_unwatched statuses : forall w,
  has_source IOWatch (sources w) = false ->
  exec (dispatch_all (map StdinReady statuses)) w = w.
Proof.
  induction statuses as [|st statuses IH]; intros w U; [reflexivity|].
  cbn [map]. rewrite exec_dispatch_all_cons.
  assert (E : exec (dispatch (StdinReady st)) w = w).
  { unfold exec, dispatch, attached, bind, when. rewrite U. reflexivity. }
  rewrite E. apply IH, U.
Qed.

(** X7. The end of standard input stops the commands and nothing else.
    When the read reports end of file the callback returns [FALSE]: the
    watch on standard input is destroyed, nothing is printed or commanded,
    and the main loop is not told to quit; every later input event, [q]
    included, is then dropped without effect.  An error on standard input
    is reported on standard error, tells the loop to quit, and destroys the
    watch as well. *)
Theorem stdin_end_and_error w :
  has_source IOWatch (sources w) = true ->
  (let w' := exec (dispatch (StdinReady G_IO_STATUS_EOF)) w in
   log w' = log w /\ loop_is_running w' = loop_is_running w
   /\ data w' = data w /\ playbin w' = playbin w
   /\ has_source IOWatch (sources w') = false
   /\ has_source BusWatch (sources w') = has_source BusWatch (sources w)
   /\ forall statuses, exec (dispatch_all (map StdinReady statuses)) w' = w')
  /\ (forall message,
      let w' := exec (dispatch (StdinReady (G_IO_STATUS_ERROR message))) w in
      log w' = log w ++ [GPrintErr "stdin IO error: %s\n" [ArgS message]; MainLoopQuit]
      /\ loop_is_running w' = false
      /\ has_source IOWatch (sources w') = false).
Proof.
  intros A. split.
  - cbv zeta.
    assert (E : exec (dispatch (StdinReady G_IO_STATUS_EOF)) w
                = with_sources
                    (filter (fun s => negb (SourceKind_eqb (snd s) IOWatch)) (sources w))
                    (next_source w) w).
    { unfold exec, dispatch, attached, bind, when. rewrite A.
      destruct w. reflexivity. }
    rewrite E. destruct w as [d pb run src nxt lg].
    cbn [with_sources log loop_is_running data playbin sources].
    repeat split.
    + apply kind_removed.
    + apply has_bus_without_io.
    + intros statuses. apply stdin_unwatched. apply kind_removed.
  - intros message. cbv zeta.
    unfold exec, dispatch, attached, bind, when. rewrite A.
    destruct w as [d pb run src nxt lg]. run_cb. cbn -[has_source].
    repeat split.
    + rewrite <- app_assoc. reflexivity.
    + apply kind_removed.
Qed.

Lemma stdin_end_and_error_witness :
  exec (dispatch_all (map StdinReady [G_IO_STATUS_NORMAL "q"; G_IO_STATUS_NORMAL "g"]))
    (exec (dispatch (StdinReady G_IO_STATUS_EOF)) sample_world)
  = exec (dispatch (StdinReady G_IO_STATUS_EOF)) sample_world.
Proof.
  exact (proj2 (proj2 (proj2 (proj2 (proj2 (proj2
           (proj1 (stdin_end_and_error sample_world eq_refl)))))))
           [G_IO_STATUS_NORMAL "q"; G_IO_STATUS_NORMAL "g"]).
Defined.


(** ** Bus messages *)

(** The messages the handler only reports. *)
Definition informational (m : GstMessage) : bool :=
  match m with
  | GST_MESSAGE_TAG _ _ _ | GST_MESSAGE_ASYNC_DONE _ | GST_MESSAGE_LATENCY
  | GST_MESSAGE_WARNING _ _ | GST_MESSAGE_STATE_CHANGED _ _ _ _ _
  | GST_MESSAGE_OTHER _ => true
  | _ => false
  end.

(** Output, and the latency recalculation. *)
Definition passive (e : Effect) : bool :=
  match e with
  | GPrint _ _ | GPrintErr _ _ | BinRecalculateLatency => true
  | _ => false
  end.

Ltac close_passive :=
  cbn; repeat split;
  first [ exists []; rewrite app_nil_r; split; reflexivity
        | rewrite <- ?app_assoc; eexists; split; reflexivity ].

(** X8. Tag, preroll, latency, warning, state-changed and unknown messages
    are only reported: their handling prints, or asks for a latency
    recalculation, and leaves the controller data, the playbin, the loop
    flag and the event sources as they were; no state change and no seek is
    commanded. *)
Theorem informational_messages m w :
  informational m = true ->
  let w' := exec (handle_bus_msg m) w in
  data w' = data w /\ playbin w' = playbin w
  /\ loop_is_running w' = loop_is_running w /\ sources w' = sources w
  /\ exists d, log w' = log w ++ d /\ forallb passive d = true.
Proof.
  intros I. destruct w as [[bw iw b l] pb run src nxt lg].
  destruct m; try discriminate I; run_cb.
  - destruct artist, title, album; close_passive.
  - destruct video_pad as [[wd ht [[n d]|]]|]; close_passive.
  - close_passive.
  - destruct dbg; close_passive.
  - destruct (src_is_playbin && _ && _); close_passive.
  - destruct missing_plugin; close_passive.
Qed.

Lemma informational_messages_witness :
  data (exec (handle_bus_msg (GST_MESSAGE_WARNING "Could not read from resource."
                                (Some "gstfilesrc.c")))
          sample_world) = data sample_world.
Proof.
  exact (proj1 (informational_messages
                  (GST_MESSAGE_WARNING "Could not read from resource."
                     (Some "gstfilesrc.c")) sample_world eq_refl)).
Defined.

(** ** Buffering over any sequence of levels *)

Lemma buffering_step_idle w :
  is_live (data w) = false -> buffering (data w) = false ->
  let w' := exec (handle_bus_msg (GST_MESSAGE_BUFFERING 100)) w in
  state_commands (log w') = state_commands (log w)
  /\ buffering (data w') = false /\ is_live (data w') = false.
Proof.
  destruct w as [[bw iw b l] pb run src nxt lg]; cbn. intros -> ->.
  run_cb. cbn. rewrite !state_commands_app. cbn. rewrite ?app_nil_r. auto.
Qed.

Lemma buffer_levels_cons percent levels w :
  buffer_levels (percent :: levels) w
  = buffer_levels levels (exec (handle_bus_msg (GST_MESSAGE_BUFFERING percent)) w).
Proof. reflexivity. Qed.

(** A list of state commands that pauses and resumes in turn, starting
    with the one the buffering flag calls for. *)
Fixpoint takes_turns (buffering : bool) (cmds : list GstState) : bool :=
  match cmds with
  | [] => true
  | s :: rest =>
      GstState_eqb s (if buffering then GST_STATE_PLAYING else GST_STATE_PAUSED)
      && takes_turns (negb buffering) rest
  end.

(** X9. Hysteresis for every sequence of buffer levels.  On a session that
    is not live, whatever levels arrive, the state commands they cause
    alternate: a pause is always followed by a resume and a resume by a
    pause, the first being a pause exactly when the buffering flag was
    clear.  There is at most one command per message, and afterwards the
    flag is set exactly when the last command was a pause. *)
Theorem buffering_takes_turns levels : forall w,
  is_live (data w) = false ->
  exists cmds,
    state_commands (log (buffer_levels levels w)) = state_commands (log w) ++ cmds
    /\ takes_turns (buffering (data w)) cmds = true
    /\ (List.length cmds <= List.length levels)%nat
    /\ buffering (data (buffer_levels levels w))
       = xorb (buffering (data w)) (Nat.odd (List.length cmds))
    /\ is_live (data (buffer_levels levels w)) = false.
Proof.
  induction levels as [|percent levels IH]; intros w L.
  - exists []. cbn. rewrite app_nil_r, xorb_false_r. auto.
  - rewrite !buffer_levels_cons.
    set (w1 := exec (handle_bus_msg (GST_MESSAGE_BUFFERING percent)) w).
    assert (Step : is_live (data w1) = false
              /\ ((state_commands (log w1) = state_commands (log w)
                   /\ buffering (data w1) = buffering (data w))
                  \/ (state_commands (log w1)
                      = state_commands (log w)
                          ++ [if buffering (data w) then GST_STATE_PLAYING
                              else GST_STATE_PAUSED]
                      /\ buffering (data w1) = negb (buffering (data w))))).
    { subst w1. destruct (buffering (data w)) eqn:B, (Z.eq_dec percent 100) as [->|N].
      - destruct (buffering_step_resume w L B) as (E & B' & L'). auto.
      - destruct (buffering_step_hold w percent L B N) as (E & B' & L'). auto.
      - destruct (buffering_step_idle w L B) as (E & B' & L'). auto.
      - destruct (buffering_step_pause w percent L B N) as (E & B' & L'). auto. }
    destruct Step as (L1 & Step).
    destruct (IH w1 L1) as (cmds & E & T & Len & B & L2).
    destruct Step as [(E1 & B1)|(E1 & B1)].
    + exists cmds. rewrite B1 in T, B. rewrite E, E1.
      repeat split; auto. cbn [List.length]. lia.
    + exists ((if buffering (data w) then GST_STATE_PLAYING else GST_STATE_PAUSED)
               :: cmds).
      rewrite B1 in T, B. rewrite E, E1, <- app_assoc.
      cbn [app takes_turns List.length]. rewrite T.
      repeat split; auto.
      * destruct (buffering (data w)); reflexivity.
      * lia.
      * rewrite B, Nat.odd_succ, <- Nat.negb_odd.
        destruct (buffering (data w)), (Nat.odd (List.length cmds)); reflexivity.
Qed.

Lemma buffering_takes_turns_witness :
  exists cmds,
    state_commands (log (buffer_levels [40; 100; 100; 70; 85; 100; 12] sample_world))
    = state_commands (log sample_world) ++ cmds
    /\ takes_turns (buffering (data sample_world)) cmds = true
    /\ (List.length cmds <= 7)%nat
    /\ buffering (data (buffer_levels [40; 100; 100; 70; 85; 100; 12] sample_world))
       = xorb (buffering (data sample_world)) (Nat.odd (List.length cmds))
    /\ is_live (data (buffer_levels [40; 100; 100; 70; 85; 100; 12] sample_world))
       = false.
Proof.
  exact (buffering_takes_turns [40; 100; 100; 70; 85; 100; 12] sample_world eq_refl).
Defined.


(** ** What the callbacks leave alone *)

Definition is_buffering (m : GstMessage) : bool :=
  match m with GST_MESSAGE_BUFFERING _ => true | _ => false end.

Definition commands_a_state (m : GstMessage) : bool :=
  match m with
  | GST_MESSAGE_BUFFERING _ | GST_MESSAGE_CLOCK_LOST | GST_MESSAGE_REQUEST_STATE _ _ =>
      true
  | _ => false
  end.

Ltac close_frame :=
  cbn; rewrite ?state_commands_app; cbn; rewrite ?app_nil_r;
  repeat split; auto; try discriminate.

Lemma handle_bus_msg_frame m w :
  let w' := exec (handle_bus_msg m) w in
  playbin w' = playbin w
  /\ is_live (data w') = is_live (data w)
  /\ (is_buffering m = false -> data w' = data w)
  /\ (bus_quits m = false -> loop_is_running w' = loop_is_running w)
  /\ (commands_a_state m = false ->
      state_commands (log w') = state_commands (log w)).
Proof.
  destruct w as [[bw iw b l] pb run src nxt lg].
  destruct m; run_cb; try solve [close_frame].
  - destruct artist, title, album; close_frame.
  - destruct video_pad as [[wd ht [[n d]|]]|]; close_frame.
  - destruct b, l; cbn; try solve [close_frame];
      destruct (percent =? 100); close_frame.
  - destruct dbg; close_frame.
  - destruct (src_is_playbin && _ && _); close_frame.
  - destruct missing_plugin; close_frame.
Qed.

Lemma seek_world forward w :
  exec (seek forward) w
  = match position (playbin w) with
    | None => w
    | Some p =>
        with_log
          (log w
           ++ [ElementSeekSimple GST_SEEK_FLAG_FLUSH
                 (if forward then to_gint64 (p + 10 * GST_SECOND)
                  else if p >? 10 * GST_SECOND then to_gint64 (p - 10 * GST_SECOND)
                  else 0)]) w
    end.
Proof.
  destruct w as [d [u f ca na ct nt [p|]] run src nxt lg]; run_cb; reflexivity.
Qed.

(** The bits of the flags a command key can change. *)
Definition togglable (i : Z) : bool := (i =? 2) || (i =? 3).

Lemma on_key_frame c w :
  let w' := exec (on_key c) w in
  data w' = data w
  /\ state_commands (log w') = state_commands (log w)
  /\ (forall i, togglable i = false ->
      Z.testbit (flags (playbin w')) i = Z.testbit (flags (playbin w)) i)
  /\ (Ascii.eqb c "q" = false -> loop_is_running w' = loop_is_running w).
Proof.
  cbv zeta. unfold on_key.
  destruct (Ascii.eqb c "q") eqn:Q.
  { destruct w. run_cb. close_frame. }
  assert (Bits : forall k f i, 0 <= k -> togglable i = false -> (k = 2 \/ k = 3) ->
                 Z.testbit (toggled (2 ^ k) f) i = Z.testbit f i).
  { intros k f i K T Hk. destruct (Z.ltb_spec i 0).
    - rewrite !Z.testbit_neg_r by lia. reflexivity.
    - rewrite toggled_bits by lia. unfold togglable in T.
      apply orb_false_elim in T as [T2 T3].
      destruct Hk as [-> | ->]; [rewrite T2|rewrite T3]; reflexivity. }
  repeat match goal with
         | |- context [if ?b then _ else _] => destruct b
         end.
  - rewrite seek_world. destruct w as [d [u f ca na ct nt [p|]] run src nxt lg];
      close_frame.
  - rewrite seek_world. destruct w as [d [u f ca na ct nt [p|]] run src nxt lg];
      close_frame.
  - rewrite next_audio_world. destruct w as [d [u f ca na ct nt p] run src nxt lg].
    close_frame.
  - rewrite toggle_subtitle_world.
    destruct w as [d [u f ca na ct nt p] run src nxt lg].
    cbn [data playbin flags log loop_is_running with_playbin with_log].
    rewrite state_commands_app. cbn [state_commands]. rewrite app_nil_r.
    repeat split. intros i T. change PLAY_FLAGS_SUBTITLES with (2 ^ 2).
    apply Bits; auto; lia.
  - rewrite next_subtitle_world.
    destruct w as [d [u f ca na ct nt p] run src nxt lg].
    cbn [data playbin flags log loop_is_running with_playbin with_log].
    rewrite state_commands_app. cbn [state_commands]. rewrite app_nil_r.
    repeat split. intros i T. rewrite Z.lor_spec, subtitles_bit.
    unfold togglable in T. apply orb_false_elim in T as [-> _]. apply orb_false_r.
  - rewrite toggle_vis_world.
    destruct w as [d [u f ca na ct nt p] run src nxt lg].
    cbn [data playbin flags log loop_is_running with_playbin with_log].
    rewrite state_commands_app. cbn [state_commands]. rewrite app_nil_r.
    repeat split. intros i T. change PLAY_FLAGS_VISUALISATIONS with (2 ^ 3).
    apply Bits; auto; lia.
  - close_frame.
Qed.

(** The events that make the loop return. *)
Definition quits (ev : Event) : bool :=
  match ev with
  | BusMessage m => bus_quits m
  | StdinReady (G_IO_STATUS_NORMAL c) => Ascii.eqb c "q"
  | StdinReady (G_IO_STATUS_ERROR _) => true
  | _ => false
  end.

Definition commands_state (ev : Event) : bool :=
  match ev with
  | BusMessage m => commands_a_state m
  | _ => false
  end.

Lemma io_callback_frame status w :
  let w' := exec (io_callback status) w in
  data w' = data w
  /\ state_commands (log w') = state_commands (log w)
  /\ (forall i, togglable i = false ->
      Z.testbit (flags (playbin w')) i = Z.testbit (flags (playbin w)) i)
  /\ (quits (StdinReady status) = false -> loop_is_running w' = loop_is_running w).
Proof.
  destruct status as [m|c| |]; cbv zeta.
  - destruct w. run_cb. close_frame.
  - pose proof (on_key_frame c w) as H. cbv zeta in H.
    unfold exec, io_callback, bind, ret in *. destruct (on_key c w). exact H.
  - repeat split.
  - repeat split.
Qed.

Lemma with_sources_same s n w :
  data (with_sources s n w) = data w /\ playbin (with_sources s n w) = playbin w
  /\ loop_is_running (with_sources s n w) = loop_is_running w
  /\ log (with_sources s n w) = log w.
Proof. destruct w. repeat split. Qed.

Lemma dispatch_frame ev w :
  let w' := exec (dispatch ev) w in
  is_live (data w') = is_live (data w)
  /\ (quits ev = false -> loop_is_running w' = loop_is_running w)
  /\ (commands_state ev = false ->
      state_commands (log w') = state_commands (log w))
  /\ (match ev with BusMessage m => is_buffering m | _ => false end = false ->
      buffering (data w') = buffering (data w)).
Proof.
  cbv zeta. destruct ev as [m|status|p]; unfold exec, dispatch, attached, bind, when.
  - destruct (has_source BusWatch (sources w)); [|repeat split].
    pose proof (handle_bus_msg_frame m w) as (P & L & D & R & C).
    pose proof (handle_bus_msg_true m w) as T. unfold exec in *.
    destruct (handle_bus_msg m w) as [keep w']; cbn [fst snd] in *. subst keep.
    cbn [negb quits commands_state]. unfold ret. cbn [snd]. repeat split; auto.
    intros B. rewrite (D B). reflexivity.
  - destruct (has_source IOWatch (sources w)); [|repeat split].
    pose proof (io_callback_frame status w) as (D & C & _ & R). unfold exec in *.
    destruct (io_callback status w) as [keep w']; cbn [fst snd] in *.
    destruct w' as [d' pb' r' s' n' l'].
    cbn [data playbin log loop_is_running] in *.
    destruct keep; cbn; subst d'; repeat split; auto.
  - destruct w. repeat split.
Qed.


(** ** Whole runs *)

Lemma dispatch_all_frame (keep : Event -> bool) (P : World -> World -> Prop) :
  (forall w, P w w) ->
  (forall w1 w2 w3, P w1 w2 -> P w2 w3 -> P w1 w3) ->
  (forall ev w, keep ev = true -> P w (exec (dispatch ev) w)) ->
  forall ready w, forallb keep ready = true -> P w (exec (dispatch_all ready) w).
Proof.
  intros Refl Trans Step. induction ready as [|ev ready IH]; intros w K.
  - apply Refl.
  - cbn in K. apply andb_prop in K as [K1 K2]. rewrite exec_dispatch_all_cons.
    eapply Trans; [apply Step, K1|apply IH, K2].
Qed.

Lemma iterate_frame (keep : Event -> bool) (P : World -> World -> Prop) :
  (forall w, P w w) ->
  (forall w1 w2 w3, P w1 w2 -> P w2 w3 -> P w1 w3) ->
  (forall ev w, keep ev = true -> P w (exec (dispatch ev) w)) ->
  forall its w, forallb (forallb keep) its = true -> P w (exec (iterate its) w).
Proof.
  intros Refl Trans Step. induction its as [|ready its IH]; intros w K.
  - apply Refl.
  - cbn in K. apply andb_prop in K as [K1 K2]. unfold exec in *.
    rewrite iterate_cons.
    pose proof (dispatch_all_frame keep P Refl Trans Step ready w K1) as H.
    destruct (loop_is_running _); cbn [snd]; [|exact H].
    eapply Trans; [exact H|apply IH, K2].
Qed.

Lemma iterate_keeps_running its w :
  forallb (forallb (fun ev => negb (quits ev))) its = true ->
  loop_is_running w = true ->
  fst (iterate its w) = false /\ loop_is_running (exec (iterate its) w) = true.
Proof.
  revert w. induction its as [|ready its IH]; intros w K R; [auto|].
  cbn in K. apply andb_prop in K as [K1 K2]. unfold exec in *. rewrite iterate_cons.
  assert (R1 : loop_is_running (exec (dispatch_all ready) w) = true).
  { rewrite <- R.
    apply (dispatch_all_frame (fun ev => negb (quits ev))
             (fun a b => loop_is_running b = loop_is_running a)); auto.
    - intros; congruence.
    - intros ev v Q. apply (proj1 (proj2 (dispatch_frame ev v))).
      destruct (quits ev); [discriminate|reflexivity]. }
  rewrite R1. apply IH; auto.
Qed.

(** X10. The player never ends on its own.  In an accepted run whose clock
    synchronises and whose playbin exists, as long as no event is an
    end-of-stream or error message, the [q] key or an error on standard
    input, the main loop has not returned: whatever else arrives
    (buffering, clock loss, requested states, warnings, any other key, the
    end of standard input), [main] is still in [g_main_loop_run]. *)
Theorem never_ends_on_its_own env argv0 args st host file :
  accepted args st host file ->
  clock_syncs env = true -> playbin_available env = true ->
  forallb (forallb (fun ev => negb (quits ev))) (iterations env) = true ->
  fst (main env argv0 args) = LoopRunning
  /\ loop_is_running (snd (main env argv0 args)) = true.
Proof.
  intros Acc S A K. rewrite (main_enters_loop _ _ _ _ _ _ Acc S A).
  destruct (iterate_keeps_running (iterations env) (loop_entry env st host file) K
              eq_refl) as [F R].
  unfold exec in R.
  destruct (iterate (iterations env) (loop_entry env st host file)) as [r w].
  cbn [fst snd] in *. subst r. cbn. auto.
Qed.

Definition uneventful_iterations : list (list Event) :=
  [[BusMessage (GST_MESSAGE_BUFFERING 10)];
   [BusMessage GST_MESSAGE_CLOCK_LOST; StdinReady (G_IO_STATUS_NORMAL "g")];
   [StdinReady G_IO_STATUS_EOF];
   [StdinReady (G_IO_STATUS_NORMAL "x")]].

Lemma never_ends_on_its_own_witness :
  fst (main (sample_env uneventful_iterations) "playback" sample_args) = LoopRunning
  /\ loop_is_running (snd (main (sample_env uneventful_iterations) "playback"
                             sample_args)) = true.
Proof.
  refine (never_ends_on_its_own (sample_env uneventful_iterations) "playback"
            sample_args _ _ _ (ex_intro _ [] (conj eq_refl (conj eq_refl _)))
            eq_refl eq_refl eq_refl).
  vm_compute. discriminate.
Defined.

Lemma cleanup_data w : data (exec cleanup w) = data w.
Proof.
  destruct w as [d pb run src nxt lg].
  unfold exec, cleanup, g_source_remove, gst_element_set_state, emit, bind, get_data.
  reflexivity.
Qed.

Lemma finish_data r :
  data (snd (finish r)) = data (snd r).
Proof. destruct r as [[|] w]; cbn [finish snd]; [apply cleanup_data|reflexivity]. Qed.

(** X11. The liveness flag is written once at most.  [main] sets it when
    the state change to Playing reports a live pipeline and at no other
    place, and no callback writes it: in every run that reaches the main
    loop the flag is set throughout if the pipeline is live, and is
    otherwise what [data] held when [main] was entered.  The buffering flag
    is not written by [main] either: as long as no buffering message has
    arrived it is what [data] held on entry. *)
Theorem flags_start_unset env argv0 args st host file :
  accepted args st host file ->
  clock_syncs env = true -> playbin_available env = true ->
  is_live (data (snd (main env argv0 args)))
  = match play_result env with
    | GST_STATE_CHANGE_NO_PREROLL => true
    | _ => is_live (stack_data env)
    end
  /\ (forallb (forallb (fun ev => negb match ev with
                                       | BusMessage m => is_buffering m
                                       | _ => false
                                       end)) (iterations env) = true ->
      buffering (data (snd (main env argv0 args))) = buffering (stack_data env)).
Proof.
  intros Acc S A. rewrite (main_enters_loop _ _ _ _ _ _ Acc S A), finish_data.
  split.
  - change (is_live (data (exec (iterate (iterations env))
                             (loop_entry env st host file)))
            = is_live (data (loop_entry env st host file))).
    apply (iterate_frame (fun _ => true)
             (fun a b => is_live (data b) = is_live (data a))); auto.
    + intros; congruence.
    + intros ev v _. apply (proj1 (dispatch_frame ev v)).
    + clear. induction (iterations env) as [|r its IH]; [reflexivity|].
      cbn. rewrite IH, andb_true_r. induction r; auto.
  - intros K.
    change (buffering (data (exec (iterate (iterations env))
                               (loop_entry env st host file)))
            = buffering (data (loop_entry env st host file))).
    apply (iterate_frame
             (fun ev => negb match ev with
                             | BusMessage m => is_buffering m
                             | _ => false
                             end)
             (fun a b => buffering (data b) = buffering (data a))); auto.
    + intros; congruence.
    + intros ev v Q. apply (proj2 (proj2 (proj2 (dispatch_frame ev v)))).
      destruct ev as [m| |]; auto.
      destruct (is_buffering m); [discriminate|reflexivity].
Qed.

Lemma flags_start_unset_witness :
  is_live (data (snd (main (sample_env sample_iterations) "playback" sample_args)))
  = is_live (stack_data (sample_env sample_iterations)).
Proof.
  refine (proj1 (flags_start_unset (sample_env sample_iterations) "playback"
                   sample_args _ _ _
                   (ex_intro _ [] (conj eq_refl (conj eq_refl _)))
                   eq_refl eq_refl)).
  vm_compute. discriminate.
Defined.


(** X12. No command read from standard input changes the state of the
    pipeline or the controller data: whatever the read returns, the
    callback issues no state command and leaves [GlobalData] as it is, and
    of the playbin flags it can change only the subtitles and the
    visualisations bit. *)
Theorem stdin_commands_are_local status w :
  let w' := exec (io_callback status) w in
  data w' = data w
  /\ state_commands (log w') = state_commands (log w)
  /\ (forall i, i <> 2 -> i <> 3 ->
      Z.testbit (flags (playbin w')) i = Z.testbit (flags (playbin w)) i).
Proof.
  destruct (io_callback_frame status w) as (D & C & B & _).
  cbv zeta. repeat split; auto.
  intros i N2 N3. apply B. unfold togglable.
  apply Z.eqb_neq in N2, N3. rewrite N2, N3. reflexivity.
Qed.

Lemma dispatch_keeps_bit i ev w :
  togglable i = false ->
  match ev with
  | PipelineChanged p => Z.testbit (flags p) i = true
  | _ => True
  end ->
  Z.testbit (flags (playbin w)) i = true ->
  Z.testbit (flags (playbin (exec (dispatch ev) w))) i = true.
Proof.
  intros T K B. destruct ev as [m|status|p];
    unfold exec, dispatch, attached, bind, when.
  - destruct (has_source BusWatch (sources w)); [|exact B].
    pose proof (handle_bus_msg_frame m w) as (P & _).
    pose proof (handle_bus_msg_true m w) as R. unfold exec in *.
    destruct (handle_bus_msg m w) as [keep w']; cbn [fst snd] in *. subst keep.
    cbn [negb]. unfold ret. cbn [snd]. rewrite P. exact B.
  - destruct (has_source IOWatch (sources w)); [|exact B].
    pose proof (io_callback_frame status w) as (_ & _ & F & _). unfold exec in *.
    destruct (io_callback status w) as [keep w']; cbn [fst snd] in *.
    specialize (F i T). destruct w' as [d' pb' r' s' n' l'].
    destruct keep; cbn in *; congruence.
  - destruct w. exact K.
Qed.

Lemma cleanup_playbin w : playbin (exec cleanup w) = playbin w.
Proof.
  destruct w as [d pb run src nxt lg].
  unfold exec, cleanup, g_source_remove, gst_element_set_state, emit, bind, get_data.
  reflexivity.
Qed.

(** X13. The download flag stays on.  [main] sets the download bit of the
    playbin flags before it starts the pipeline, and neither a bus message
    nor a command key clears it: in every run that reaches the main loop
    the bit is still set at the end, provided the pipeline itself never
    reports flags without it. *)
Theorem download_flag_kept env argv0 args st host file :
  accepted args st host file ->
  clock_syncs env = true -> playbin_available env = true ->
  forallb (forallb (fun ev => match ev with
                              | PipelineChanged p => Z.testbit (flags p) 7
                              | _ => true
                              end)) (iterations env) = true ->
  Z.land (flags (playbin (snd (main env argv0 args)))) PLAY_FLAGS_DOWNLOAD
  = PLAY_FLAGS_DOWNLOAD.
Proof.
  intros Acc S A K.
  assert (B : Z.testbit (flags (playbin (snd (main env argv0 args)))) 7 = true).
  { rewrite (main_enters_loop _ _ _ _ _ _ Acc S A).
    assert (E : Z.testbit
                  (flags (playbin (exec (iterate (iterations env))
                                     (loop_entry env st host file)))) 7 = true).
    { apply (iterate_frame _
               (fun a b => Z.testbit (flags (playbin a)) 7 = true ->
                           Z.testbit (flags (playbin b)) 7 = true)) with (4 := K);
        auto.
      - intros ev v Q. apply dispatch_keeps_bit; [reflexivity|].
        destruct ev; auto.
      - unfold loop_entry. cbn [playbin flags]. rewrite Z.lor_spec. apply orb_true_r. }
    unfold exec in E.
    destruct (iterate (iterations env) (loop_entry env st host file)) as [[|] w];
      cbn [finish snd] in *; [rewrite cleanup_playbin|]; exact E. }
  apply Z.bits_inj'. intros i Hi. rewrite Z.land_spec.
  change PLAY_FLAGS_DOWNLOAD with (2 ^ 7). rewrite Z.pow2_bits_eqb by lia.
  destruct (Z.eqb_spec 7 i) as [<-|N]; [rewrite B; reflexivity|apply andb_false_r].
Qed.

Lemma download_flag_kept_witness :
  Z.land (flags (playbin (snd (main (sample_env sample_iterations) "playback"
                                 sample_args)))) PLAY_FLAGS_DOWNLOAD
  = PLAY_FLAGS_DOWNLOAD.
Proof.
  refine (download_flag_kept (sample_env sample_iterations) "playback" sample_args
            _ _ _ (ex_intro _ [] (conj eq_refl (conj eq_refl _)))
            eq_refl eq_refl eq_refl).
  vm_compute. discriminate.
Defined.

Definition Outcome_is_exit (o : Outcome) : bool :=
  match o with
  | Exited _ => true
  | _ => false
  end.

Definition forces_state (ev : Event) : bool :=
  match ev with
  | BusMessage GST_MESSAGE_CLOCK_LOST | BusMessage (GST_MESSAGE_REQUEST_STATE _ _) =>
      true
  | _ => false
  end.

Lemma dispatch_live ev w :
  is_live (data w) = true -> forces_state ev = false ->
  state_commands (log (exec (dispatch ev) w)) = state_commands (log w).
Proof.
  intros L F. destruct (commands_state ev) eqn:C.
  - destruct ev as [m| |]; try discriminate. destruct m; try discriminate.
    unfold exec, dispatch, attached, bind, when.
    destruct (has_source BusWatch (sources w)); [|reflexivity].
    pose proof (buffering_step_live w percent L) as (_ & E).
    pose proof (handle_bus_msg_true (GST_MESSAGE_BUFFERING percent) w) as R.
    unfold exec in *.
    destruct (handle_bus_msg (GST_MESSAGE_BUFFERING percent) w) as [keep w'];
      cbn [fst snd] in *. subst keep. exact E.
  - apply (proj1 (proj2 (proj2 (dispatch_frame ev w)))), C.
Qed.

Lemma startup_state_commands env st host file :
  state_commands (startup_log env st host file) = [GST_STATE_PLAYING].
Proof.
  unfold startup_log.
  destruct (base_time st =? GST_CLOCK_TIME_NONE), (play_result env); reflexivity.
Qed.

(** X14. A live pipeline is never paused for buffering, whatever the run.
    When the state change to Playing reports a live pipeline, and no
    clock-lost or request-state message arrives, the only state commands of
    the whole run are the start command and, once the loop has returned,
    the final Null: no sequence of buffering levels, keys or other messages
    makes the player pause. *)
Theorem live_run_never_pauses env argv0 args st host file :
  accepted args st host file ->
  clock_syncs env = true -> playbin_available env = true ->
  play_result env = GST_STATE_CHANGE_NO_PREROLL ->
  forallb (forallb (fun ev => negb (forces_state ev))) (iterations env) = true ->
  state_commands (log (snd (main env argv0 args)))
  = if Outcome_is_exit (fst (main env argv0 args))
    then [GST_STATE_PLAYING; GST_STATE_NULL] else [GST_STATE_PLAYING].
Proof.
  intros Acc S A R K. rewrite (main_enters_loop _ _ _ _ _ _ Acc S A).
  assert (E : is_live (data (exec (iterate (iterations env))
                               (loop_entry env st host file))) = true
              /\ state_commands (log (exec (iterate (iterations env))
                                        (loop_entry env st host file)))
                 = [GST_STATE_PLAYING]).
  { rewrite <- (startup_state_commands env st host file), <- loop_entry_log.
    apply (iterate_frame _
             (fun a b => is_live (data a) = true ->
                         is_live (data b) = true
                         /\ state_commands (log b) = state_commands (log a)))
      with (4 := K); auto.
    - intros w1 w2 w3 H12 H23 L1. destruct (H12 L1) as [L2 E2].
      destruct (H23 L2) as [L3 E3]. split; congruence.
    - intros ev v Q L. split.
      + rewrite (proj1 (dispatch_frame ev v)). exact L.
      + apply dispatch_live; auto. destruct (forces_state ev); [discriminate|auto].
    - cbn. rewrite R. reflexivity. }
  destruct E as [_ E]. unfold exec in E.
  destruct (iterate (iterations env) (loop_entry env st host file)) as [[|] w];
    cbn [finish fst snd Outcome_is_exit] in *.
  - rewrite cleanup_log_spec, state_commands_app, E. reflexivity.
  - exact E.
Qed.


Definition live_env (its : list (list Event)) : Env :=
  mkEnv (mkGlobalData 0 0 false false) true true sample_playbin
    (fun s => String.prefix "rtsp://" s) (fun s => Some ("file://" ++ s)%string)
    GST_STATE_CHANGE_NO_PREROLL its.

Definition live_iterations : list (list Event) :=
  [[BusMessage (GST_MESSAGE_BUFFERING 5)];
   [BusMessage (GST_MESSAGE_BUFFERING 60); StdinReady (G_IO_STATUS_NORMAL "g")];
   [BusMessage (GST_MESSAGE_BUFFERING 100)];
   [BusMessage GST_MESSAGE_EOS]].

Lemma live_run_never_pauses_witness :
  state_commands
    (log (snd (main (live_env live_iterations) "playback" sample_args)))
  = if Outcome_is_exit (fst (main (live_env live_iterations) "playback" sample_args))
    then [GST_STATE_PLAYING; GST_STATE_NULL] else [GST_STATE_PLAYING].
Proof.
  refine (live_run_never_pauses (live_env live_iterations) "playback" sample_args
            _ _ _ (ex_intro _ [] (conj eq_refl (conj eq_refl _)))
            eq_refl eq_refl eq_refl eq_refl).
  vm_compute. discriminate.
Defined.

(** ** How a run can end *)

Lemma in_startup_log env st host file :
  In (BusAddWatch 1) (startup_log env st host file)
  /\ In (IOAddWatch 2) (startup_log env st host file)
  /\ In MainLoopRun (startup_log env st host file)
  /\ In (ElementSetState GST_STATE_PLAYING) (startup_log env st host file).
Proof.
  unfold startup_log. rewrite !in_app_iff. cbn [In].
  repeat split; auto 20.
Qed.

(** X15. A run that returns 0 has cleaned up.  [main] returns 0 in two
    cases only.  One is a help option, which ends the process inside the
    parser with nothing started.  In the other the run has been through the
    main loop: its log ends with the removal of the bus watch and of the
    input watch under the ids they were attached with, the pipeline set to
    Null, and the pipeline and the loop released; before that it holds the
    start command and the entry into the loop. *)
Theorem exit_zero_cleans_up env argv0 args :
  fst (main env argv0 args) = Exited 0 ->
  (g_option_context_parse args statics_init = inl ParseHelp
   /\ log (snd (main env argv0 args)) = [GOptionHelp])
  \/ (exists l,
        log (snd (main env argv0 args))
        = l ++ [SourceRemove 1; SourceRemove 2; ElementSetState GST_STATE_NULL;
                ObjectUnref ObjPlaybin; MainLoopUnref]
        /\ In (BusAddWatch 1) l /\ In (IOAddWatch 2) l
        /\ In (ElementSetState GST_STATE_PLAYING) l /\ In MainLoopRun l
        /\ playbin_available env = true).
Proof.
  intros Z0.
  destruct (invocation_cases args)
    as [(m & P)|[P|[(st & argv & P & C)|(st & host & file & Acc)]]].
  - rewrite (main_parse_error _ _ _ _ P) in Z0. discriminate.
  - left. rewrite (main_help _ _ _ P). split; [exact P|reflexivity].
  - rewrite (main_usage _ _ _ _ _ P C) in Z0. discriminate.
  - right. destruct (wait_returns env st) eqn:S.
    + destruct (playbin_available env) eqn:A.
      * destruct (main_run_shape_gen _ argv0 _ _ _ _ Acc S A)
          as (d & _ & [(_ & _ & L)|(O & _)]); [|congruence].
        exists (startup_log env st host file ++ d).
        destruct (in_startup_log env st host file) as (I1 & I2 & I3 & I4).
        rewrite L, <- app_assoc.
        repeat split; auto; apply in_or_app; auto.
      * rewrite (main_no_playbin _ _ _ _ _ _ Acc S A) in Z0. discriminate.
    + rewrite (main_blocked _ _ _ _ _ _ Acc S) in Z0. discriminate.
Qed.

Lemma exit_zero_cleans_up_witness :
  exists l,
    log (snd (main (sample_env sample_iterations) "playback" sample_args))
    = l ++ [SourceRemove 1; SourceRemove 2; ElementSetState GST_STATE_NULL;
            ObjectUnref ObjPlaybin; MainLoopUnref]
    /\ In (BusAddWatch 1) l /\ In (IOAddWatch 2) l
    /\ In (ElementSetState GST_STATE_PLAYING) l /\ In MainLoopRun l
    /\ playbin_available (sample_env sample_iterations) = true.
Proof.
  destruct (exit_zero_cleans_up (sample_env sample_iterations) "playback"
              sample_args eq_refl) as [[P _]|H].
  - vm_compute in P. discriminate P.
  - exact H.
Defined.

(** X16. A run that returns 1 has started nothing.  [main] returns 1 in
    two cases only: after the usage text, and when the element factory has
    no playbin, in which case the failure is printed right after the
    attempt and [create_element] exits.  In both cases no state command was
    issued, no watch was attached and no main loop was run. *)
Theorem exit_one_starts_nothing env argv0 args :
  fst (main env argv0 args) = Exited 1 ->
  (log (snd (main env argv0 args)) = usage_log argv0
   \/ (playbin_available env = false
       /\ exists l,
            log (snd (main env argv0 args))
            = l ++ [ElementFactoryMake "playbin" "playbin";
                    GPrint "Failed to create element %s\n" [ArgS "playbin"]]))
  /\ state_commands (log (snd (main env argv0 args))) = []
  /\ ~ In MainLoopRun (log (snd (main env argv0 args)))
  /\ sources (snd (main env argv0 args)) = [].
Proof.
  intros O.
  destruct (invocation_cases args)
    as [(m & P)|[P|[(st & argv & P & C)|(st & host & file & Acc)]]].
  - rewrite (main_parse_error _ _ _ _ P) in O. discriminate.
  - rewrite (main_help _ _ _ P) in O. discriminate.
  - rewrite (main_usage _ _ _ _ _ P C). cbn.
    repeat split; auto. intuition discriminate.
  - destruct (wait_returns env st) eqn:S.
    + destruct (playbin_available env) eqn:A.
      * destruct (main_run_shape_gen _ argv0 _ _ _ _ Acc S A)
          as (d & _ & [(O' & _)|(O' & _)]); congruence.
      * rewrite (main_no_playbin _ _ _ _ _ _ Acc S A). cbn.
        repeat split; auto.
        -- right. repeat split.
           exists [NetClientClockNew host (clock_port st);
                   ClockWaitForSync GST_CLOCK_TIME_NONE;
                   GPrint "Network clock is synched to master\n" []].
           reflexivity.
        -- intuition discriminate.
    + rewrite (main_blocked _ _ _ _ _ _ Acc S) in O. discriminate.
Qed.

Lemma exit_one_starts_nothing_witness :
  state_commands
    (log (snd (main (mkEnv (mkGlobalData 0 0 false false) true false sample_playbin
                       (fun _ => true) (fun _ => None) GST_STATE_CHANGE_ASYNC [])
                 "playback" sample_args))) = [].
Proof.
  refine (proj1 (proj2 (exit_one_starts_nothing _ "playback" sample_args _))).
  vm_compute. reflexivity.
Defined.

(** X17. A command line that cannot be parsed ends in [g_error]: [main]
    aborts exactly when [g_option_context_parse] fails, and then it has
    logged the parse error and nothing else (no usage text, no clock, no
    pipeline). *)
Theorem parse_failure_aborts env argv0 args :
  (fst (main env argv0 args) = Aborted
   <-> exists message,
         g_option_context_parse args statics_init = inl (ParseError message))
  /\ (forall message,
      g_option_context_parse args statics_init = inl (ParseError message) ->
      log (snd (main env argv0 args))
      = [GError "Error parsing options: %s" [ArgS message]]).
Proof.
  split; [split|].
  - intros O.
    destruct (invocation_cases args)
      as [(m & P)|[P|[(st & argv & P & C)|(st & host & file & Acc)]]];
      [eauto| | |].
    + rewrite (main_help _ _ _ P) in O. discriminate.
    + rewrite (main_usage _ _ _ _ _ P C) in O. discriminate.
    + destruct (wait_returns env st) eqn:S.
      * destruct (playbin_available env) eqn:A.
        -- destruct (main_run_shape_gen _ argv0 _ _ _ _ Acc S A)
             as (d & _ & [(O' & _)|(O' & _)]); congruence.
        -- rewrite (main_no_playbin _ _ _ _ _ _ Acc S A) in O. discriminate.
      * rewrite (main_blocked _ _ _ _ _ _ Acc S) in O. discriminate.
  - intros (m & P). rewrite (main_parse_error _ _ _ _ P). reflexivity.
  - intros m P. rewrite (main_parse_error _ _ _ _ P). reflexivity.
Qed.

Lemma parse_failure_aborts_witness :
  log (snd (main (sample_env []) "playback"
              [OptClockHost "192.168.1.10"; Unparsable "Unknown option --bogus";
               Positional "a.ogv"]))
  = [GError "Error parsing options: %s" [ArgS "Unknown option --bogus"]].
Proof.
  exact (proj2 (parse_failure_aborts (sample_env []) "playback"
                  [OptClockHost "192.168.1.10";
                   Unparsable "Unknown option --bogus";
                   Positional "a.ogv"]) _ eq_refl).
Defined.


(** ** The network-clock player and the basic player *)

(** The keys only the network-clock player knows. *)
Definition track_keys : list ascii := ["a"; "d"; "s"; "v"]%char.

(** The messages both handlers have a case for, preroll apart. *)
Definition shared_message (m : GstMessage) : bool :=
  match m with
  | GST_MESSAGE_EOS | GST_MESSAGE_ERROR _ _ _ | GST_MESSAGE_TAG _ _ _
  | GST_MESSAGE_OTHER None => true
  | _ => false
  end.

(** X18. The network-clock player extends the basic player.  On every
    read from standard input that is not one of the four track keys, and on
    end-of-stream, error, tag and unknown messages, the two programs do
    exactly the same; on a preroll message the network-clock player does
    what the basic one does after printing its notice; and [seek] is the
    same function in both. *)
Theorem extends_basic_player w :
  (forall forward, seek forward = BasicPlayback.seek forward)
  /\ (forall status,
      (forall c, status = G_IO_STATUS_NORMAL c -> ~ In c track_keys) ->
      io_callback status w = BasicPlayback.io_callback status w)
  /\ (forall m, shared_message m = true ->
      handle_bus_msg m w = BasicPlayback.handle_bus_msg m w)
  /\ (forall video_pad,
      handle_bus_msg (GST_MESSAGE_ASYNC_DONE video_pad) w
      = BasicPlayback.handle_bus_msg (GST_MESSAGE_ASYNC_DONE video_pad)
          (exec (g_print "Prerolled.\r" []) w)).
Proof.
  split; [reflexivity|split; [|split]].
  - intros [m|c| |] N; try reflexivity.
    unfold io_callback, BasicPlayback.io_callback, on_key, BasicPlayback.on_key.
    assert (E : forall k, In k track_keys -> Ascii.eqb c k = false).
    { intros k K. apply Ascii.eqb_neq. intros ->. exact (N k eq_refl K). }
    rewrite (E "a"%char), (E "d"%char), (E "s"%char), (E "v"%char) by (cbn; tauto).
    reflexivity.
  - intros m S. destruct m; try discriminate S; try reflexivity.
    destruct missing_plugin; [discriminate S|reflexivity].
  - intros video_pad. destruct w. reflexivity.
Qed.

Lemma extends_basic_player_witness :
  io_callback (G_IO_STATUS_NORMAL "g") sample_world
  = BasicPlayback.io_callback (G_IO_STATUS_NORMAL "g") sample_world
  /\ handle_bus_msg GST_MESSAGE_EOS sample_world
     = BasicPlayback.handle_bus_msg GST_MESSAGE_EOS sample_world.
Proof.
  split.
  - refine (proj1 (proj2 (extends_basic_player sample_world)) _ _).
    intros c E. injection E as <-. cbn. intuition discriminate.
  - exact (proj1 (proj2 (proj2 (extends_basic_player sample_world)))
             GST_MESSAGE_EOS eq_refl).
Defined.

(** The effects that are output only. *)
Definition only_prints (e : Effect) : bool :=
  match e with
  | GPrint _ _ | GPrintErr _ _ => true
  | _ => false
  end.

(** The messages on which the basic handler tells the loop to quit. *)
Definition basic_quits (m : GstMessage) : bool :=
  match m with
  | GST_MESSAGE_EOS | GST_MESSAGE_ERROR _ _ _ => true
  | _ => false
  end.

(** The messages the [switch] of the basic handler has a case for. *)
Definition basic_case (m : GstMessage) : bool :=
  match m with
  | GST_MESSAGE_EOS | GST_MESSAGE_ERROR _ _ _ | GST_MESSAGE_TAG _ _ _
  | GST_MESSAGE_ASYNC_DONE _ => true
  | _ => false
  end.

Lemma printed_only (l d : list Effect) :
  forallb only_prints d = true ->
  exists d', l ++ d = l ++ d' ++ [] /\ forallb only_prints d' = true.
Proof. intros F. exists d. rewrite app_nil_r. auto. Qed.

(** X19. The basic player never commands its pipeline from the bus.  Its
    handler always returns [TRUE] and leaves the playbin, the controller
    data and the event sources untouched.  At end of stream and on an error
    it prints and then tells the loop to quit, once: these are the only
    messages that stop the loop.  On a tag or a preroll message it only
    prints, and the loop flag stays as it was.  Every other message
    (buffering, clock-lost, latency, request-state, warning, state-changed,
    missing-plugin and unknown ones) is dropped without any effect at all,
    so the basic player does not pause while the pipeline buffers. *)
Theorem basic_player_only_reports m w :
  fst (BasicPlayback.handle_bus_msg m w) = true
  /\ (let w' := exec (BasicPlayback.handle_bus_msg m) w in
      data w' = data w /\ playbin w' = playbin w /\ sources w' = sources w
      /\ next_source w' = next_source w
      /\ loop_is_running w'
         = (if basic_quits m then false else loop_is_running w)
      /\ exists d,
           log w' = log w ++ d ++ (if basic_quits m then [MainLoopQuit] else [])
           /\ forallb only_prints d = true)
  /\ BasicPlayback.handle_bus_msg GST_MESSAGE_EOS w
     = (true, with_running false
                (with_log (log w ++ [GPrint "Finished playback. Exiting.\n" [];
                                     MainLoopQuit]) w))
  /\ (basic_case m = false -> BasicPlayback.handle_bus_msg m w = (true, w)).
Proof.
  destruct w as [[bw iw b l] pb run src nxt lg].
  split; [|split; [|split]].
  - destruct m; try reflexivity.
    + destruct artist, title, album; reflexivity.
    + destruct video_pad as [[wd ht [[n d]|]]|]; reflexivity.
  - unfold BasicPlayback.handle_bus_msg.
    destruct m; run_cb; cbn [basic_quits];
      try solve [repeat split; exists []; rewrite ?app_nil_r; split; reflexivity].
    + repeat split. rewrite <- !app_assoc. eexists [_]. split; reflexivity.
    + repeat split. rewrite <- !app_assoc. eexists [_; _; _]. split; reflexivity.
    + destruct artist, title, album; cbn; repeat split;
        rewrite <- ?app_assoc; apply printed_only; reflexivity.
    + destruct video_pad as [[wd ht [[n d]|]]|]; cbn; repeat split;
        first [ exists []; rewrite !app_nil_r; split; reflexivity
              | apply printed_only; reflexivity ].
  - unfold BasicPlayback.handle_bus_msg. run_cb.
    rewrite <- app_assoc. reflexivity.
  - intros S. destruct m; try discriminate S; reflexivity.
Qed.

Lemma basic_player_only_reports_witness :
  BasicPlayback.handle_bus_msg (GST_MESSAGE_OTHER None) sample_world
  = (true, sample_world)
  /\ BasicPlayback.handle_bus_msg (GST_MESSAGE_BUFFERING 10) sample_world
     = (true, sample_world).
Proof.
  split.
  - exact (proj2 (proj2 (proj2 (basic_player_only_reports
                                  (GST_MESSAGE_OTHER None) sample_world)))
             eq_refl).
  - exact (proj2 (proj2 (proj2 (basic_player_only_reports
                                  (GST_MESSAGE_BUFFERING 10) sample_world)))
             eq_refl).
Defined.


(** ** The command line, once more *)

Definition is_base_time (a : CliArg) : bool :=
  match a with OptBaseTime _ => true | _ => false end.

Lemma parse_without_base_time args : forall st0 st argv,
  g_option_context_parse args st0 = inr (st, argv) ->
  existsb is_base_time args = false -> base_time st = base_time st0.
Proof.
  induction args as [|a args IH]; intros st0 st argv P N; cbn in P.
  - inversion P; subst. reflexivity.
  - destruct a as [h|p|t|s|why|]; cbn in N; try discriminate.
    + apply (IH _ _ _ P N).
    + destruct (is_gintb p); [|discriminate]. apply (IH _ _ _ P N).
    + destruct (g_option_context_parse args st0) as [e|[st' argv']] eqn:P';
        [discriminate|]. inversion P; subst. apply (IH _ _ _ P' N).
Qed.

(** The last occurrence of an option is the one that counts. *)
Lemma parse_last pre : forall a post st0 st argv,
  g_option_context_parse (pre ++ a :: post) st0 = inr (st, argv) ->
  (forall p, a = OptClockPort p -> existsb is_clock_port post = false ->
             clock_port st = p)
  /\ (forall t, a = OptBaseTime t -> existsb is_base_time post = false ->
                base_time st = to_guint64 t).
Proof.
  induction pre as [|b pre IH]; intros a post st0 st argv P.
  - cbn [app] in P. split.
    + intros p -> N. cbn in P. destruct (is_gintb p); [|discriminate].
      rewrite (proj2 (proj2 (parse_without _ _ _ _ P)) N). reflexivity.
    + intros t -> N. cbn in P. destruct (is_gint64b t); [|discriminate].
      rewrite (parse_without_base_time _ _ _ _ P N). reflexivity.
  - cbn [app] in P. cbn in P.
    destruct b as [h|p|t|s|why|]; try discriminate.
    + apply (IH _ _ _ _ _ P).
    + destruct (is_gintb p); [|discriminate]. apply (IH _ _ _ _ _ P).
    + destruct (is_gint64b t); [|discriminate]. apply (IH _ _ _ _ _ P).
    + destruct (g_option_context_parse (pre ++ a :: post) st0)
        as [e|[st' argv']] eqn:P'; [discriminate|].
      inversion P; subst. apply (IH _ _ _ _ _ P').
Qed.

Lemma parse_base_time_range pre : forall t post st0 r,
  g_option_context_parse (pre ++ OptBaseTime t :: post) st0 = inr r ->
  is_gint64b t = true.
Proof.
  induction pre as [|b pre IH]; intros t post st0 r P; cbn [app] in P; cbn in P.
  - destruct (is_gint64b t); [reflexivity|discriminate].
  - destruct b as [h|p|t'|s|why|]; try discriminate.
    + apply (IH _ _ _ _ P).
    + destruct (is_gintb p); [apply (IH _ _ _ _ P)|discriminate].
    + destruct (is_gint64b t'); [apply (IH _ _ _ _ P)|discriminate].
    + destruct (g_option_context_parse (pre ++ OptBaseTime t :: post) st0)
        as [e|r'] eqn:P'; [discriminate|]. apply (IH _ _ _ _ P').
Qed.

(** X20. Port 0 cannot be used.  A command line whose last clock-port
    option is 0 is treated like one without the option: whatever else it
    holds, if it parses, [main] prints the usage text and returns 1. *)
Theorem explicit_port_zero_refused env argv0 pre post st argv :
  g_option_context_parse (pre ++ OptClockPort 0 :: post) statics_init = inr (st, argv) ->
  existsb is_clock_port post = false ->
  main env argv0 (pre ++ OptClockPort 0 :: post)
  = (Exited 1, with_log (usage_log argv0) (initial_world env)).
Proof.
  intros P N. apply (main_usage _ _ _ _ _ P). right. right.
  apply (proj1 (parse_last _ _ _ _ _ _ P) 0 eq_refl N).
Qed.

Lemma explicit_port_zero_refused_witness :
  main (sample_env sample_iterations) "playback"
    ([OptClockHost "192.168.1.10"; OptClockPort 8554]
       ++ OptClockPort 0 :: [Positional "file:///tmp/sintel.ogv"])
  = (Exited 1, with_log (usage_log "playback")
                 (initial_world (sample_env sample_iterations))).
Proof.
  exact (explicit_port_zero_refused (sample_env sample_iterations) "playback"
           [OptClockHost "192.168.1.10"; OptClockPort 8554]
           [Positional "file:///tmp/sintel.ogv"]
           (mkStatics (Some "192.168.1.10") 0 GST_CLOCK_TIME_NONE)
           ["file:///tmp/sintel.ogv"] eq_refl eq_refl).
Defined.

Lemma no_override_no_time_commands env argv0 args st argv :
  g_option_context_parse args statics_init = inr (st, argv) ->
  base_time st = GST_CLOCK_TIME_NONE ->
  time_commands (log (snd (main env argv0 args))) = [].
Proof.
  intros P B.
  destruct (invocation_cases args)
    as [(m & P')|[P'|[(st' & argv' & P' & C)|(st' & host & file & Acc)]]].
  - congruence.
  - congruence.
  - rewrite (main_usage _ _ _ _ _ P' C). reflexivity.
  - assert (st' = st) as -> by (destruct Acc as (rest & P' & _); congruence).
    destruct (wait_returns env st) eqn:S.
    + destruct (playbin_available env) eqn:A.
      * destruct (startup_log_times env st host file)
          as (before & after & after' & E & _ & Tb & Ta & _).
        apply Z.eqb_eq in B. rewrite B in E.
        destruct (main_run_shape_gen _ argv0 _ _ _ _ Acc S A)
          as (d & F & [(_ & _ & L)|(_ & _ & L)]); rewrite L, E;
          rewrite !time_commands_app, Tb, Ta, (callbacks_set_no_time _ F);
          reflexivity.
      * rewrite (main_no_playbin _ _ _ _ _ _ Acc S A). reflexivity.
    + rewrite (main_blocked _ _ _ _ _ _ Acc S). reflexivity.
Qed.

(** X21. A base time of -1 is no base time.  The option value is a signed
    64-bit integer stored in an unsigned one, where -1 is the sentinel for
    "none": a command line whose last base-time option is -1 never sets a
    start time or a base time, as if the option had not been given.  Any
    other negative value [t] is taken as the base time 2^64 + [t]. *)
Theorem base_time_minus_one_ignored env argv0 pre post st argv :
  (g_option_context_parse (pre ++ OptBaseTime (-1) :: post) statics_init
   = inr (st, argv) ->
   existsb is_base_time post = false ->
   time_commands (log (snd (main env argv0 (pre ++ OptBaseTime (-1) :: post)))) = [])
  /\ (forall t,
      g_option_context_parse (pre ++ OptBaseTime t :: post) statics_init
      = inr (st, argv) ->
      existsb is_base_time post = false -> t < -1 ->
      base_time st = 2 ^ 64 + t /\ base_time st <> GST_CLOCK_TIME_NONE).
Proof.
  split.
  - intros P N. apply (no_override_no_time_commands _ _ _ _ _ P).
    rewrite (proj2 (parse_last _ _ _ _ _ _ P) (-1) eq_refl N). reflexivity.
  - intros t P N T.
    rewrite (proj2 (parse_last _ _ _ _ _ _ P) t eq_refl N).
    pose proof (parse_base_time_range _ _ _ _ _ P) as R.
    unfold is_gint64b, G_MININT64, G_MAXINT64 in R.
    apply andb_prop in R as [R1 R2]. apply Z.leb_le in R1.
    unfold to_guint64, GST_CLOCK_TIME_NONE.
    change (2 ^ 63) with 9223372036854775808 in R1.
    change (2 ^ 64) with 18446744073709551616.
    assert (E : t mod 18446744073709551616 = 18446744073709551616 + t).
    { replace t with (18446744073709551616 + t + (-1) * 18446744073709551616) at 1
        by lia.
      rewrite Z.mod_add, Z.mod_small by lia. reflexivity. }
    rewrite E. split; lia.
Qed.

Lemma base_time_minus_one_ignored_witness :
  time_commands
    (log (snd (main (sample_env sample_iterations) "playback"
                 ([OptClockHost "192.168.1.10"; OptClockPort 8554]
                    ++ OptBaseTime (-1) :: [Positional "file:///tmp/sintel.ogv"]))))
  = [].
Proof.
  exact (proj1 (base_time_minus_one_ignored (sample_env sample_iterations) "playback"
                  [OptClockHost "192.168.1.10"; OptClockPort 8554]
                  [Positional "file:///tmp/sintel.ogv"]
                  (mkStatics (Some "192.168.1.10") 8554 GST_CLOCK_TIME_NONE)
                  ["file:///tmp/sintel.ogv"]) eq_refl eq_refl).
Defined.

(** ** The preroll report *)

(** X22. The video size printed at preroll.  With no pixel aspect ratio in
    the caps, or a ratio of [n]/[n], the width is printed as the caps give
    it (for a [gint] width whose product with [n] is a [gint]); in general
    the printed width is width * par_n / par_d in [gint] arithmetic,
    rounded towards zero.  The handler then returns [TRUE] and the loop
    goes on. *)
Theorem preroll_video_size w wd ht :
  is_gint wd ->
  (log (exec (handle_bus_msg (GST_MESSAGE_ASYNC_DONE (Some (mkVideoCaps wd ht None)))) w)
   = log w ++ [GPrint "Prerolled.\r" [];
               GPrint "Video size: %dx%d\n" [ArgZ wd; ArgZ ht]])
  /\ (forall n, 0 < n -> is_gint (wd * n) ->
      log (exec (handle_bus_msg
                   (GST_MESSAGE_ASYNC_DONE (Some (mkVideoCaps wd ht (Some (n, n)))))) w)
      = log w ++ [GPrint "Prerolled.\r" [];
                  GPrint "Video size: %dx%d\n" [ArgZ wd; ArgZ ht]])
  /\ (forall n d, 0 < d -> is_gint (wd * n) ->
      log (exec (handle_bus_msg
                   (GST_MESSAGE_ASYNC_DONE (Some (mkVideoCaps wd ht (Some (n, d)))))) w)
      = log w ++ [GPrint "Prerolled.\r" [];
                  GPrint "Video size: %dx%d\n" [ArgZ (Z.quot (wd * n) d); ArgZ ht]]).
Proof.
  intros G.
  assert (Q : forall n d, 0 < d -> is_gint (wd * n) ->
              to_gint (Z.quot (to_gint (wd * n)) d) = Z.quot (wd * n) d).
  { intros n d D H. rewrite (to_gint_id _ H). apply to_gint_id.
    unfold is_gint, G_MININT, G_MAXINT in *.
    destruct (Z.le_ge_cases 0 (wd * n)).
    - pose proof (Z.quot_pos (wd * n) d ltac:(lia) D).
      pose proof (Z.quot_le_upper_bound (wd * n) d (wd * n) D ltac:(nia)). lia.
    - pose proof (Z.quot_opp_l (wd * n) d ltac:(lia)) as O.
      pose proof (Z.quot_pos (- (wd * n)) d ltac:(lia) D).
      pose proof (Z.quot_le_upper_bound (- (wd * n)) d (- (wd * n)) D ltac:(nia)).
      lia. }
  destruct w as [dt pb run src nxt lg]. split; [|split].
  - run_cb. cbn. rewrite <- app_assoc, Z.mul_1_r, Z.quot_1_r, !(to_gint_id _ G).
    reflexivity.
  - intros n N H. run_cb. cbn [pixel_aspect_ratio width height].
    rewrite (Q n n N H), Z.quot_mul by lia. cbn. rewrite <- app_assoc. reflexivity.
  - intros n d D H. run_cb. cbn [pixel_aspect_ratio width height].
    rewrite (Q n d D H). cbn. rewrite <- app_assoc. reflexivity.
Qed.

Lemma preroll_video_size_witness :
  log (exec (handle_bus_msg
               (GST_MESSAGE_ASYNC_DONE (Some (mkVideoCaps 720 576 (Some (16, 15))))))
         sample_world)
  = [GPrint "Prerolled.\r" []; GPrint "Video size: %dx%d\n" [ArgZ 768; ArgZ 576]].
Proof.
  refine (proj2 (proj2 (preroll_video_size sample_world 720 576 _)) 16 15 _ _);
    vm_compute; intuition discriminate.
Defined.


Lemma toggle_subtitle_flips_witness :
  Z.testbit (flags (playbin (exec toggle_subtitle sample_world))) 7
  = Z.testbit (flags (playbin sample_world)) 7.
Proof.
  refine (proj1 (proj2 (toggle_subtitle_flips sample_world)) 7 _). discriminate.
Defined.

Lemma toggle_vis_flips_witness :
  Z.testbit (flags (playbin (exec toggle_vis sample_world))) 2
  = Z.testbit (flags (playbin sample_world)) 2.
Proof.
  refine (proj1 (proj2 (toggle_vis_flips sample_world)) 2 _). discriminate.
Defined.

Lemma stdin_commands_are_local_witness :
  Z.testbit (flags (playbin (exec (io_callback (G_IO_STATUS_NORMAL "d")) sample_world))) 7
  = Z.testbit (flags (playbin sample_world)) 7.
Proof.
  refine (proj2 (proj2 (stdin_commands_are_local (G_IO_STATUS_NORMAL "d")
                          sample_world)) 7 _ _); discriminate.
Defined.


(** X24. The basic player reads three commands.  Its input callback
    tells the loop to quit on [q]; on [f] and [g] it asks for the position
    and, when the query answers [P], issues one flushing seek: back to [P]
    minus ten seconds, or to 0 when [P] is not more than ten seconds, and
    forward to [P] plus ten seconds; when the query fails it does nothing.
    Every other character, the track keys of the network-clock player
    included, is ignored, and so is a read that would block.  The end of
    the input removes the watch and does nothing else; a read error is
    printed, quits the loop and removes the watch.  Whatever it reads, it
    leaves the playbin and the controller data alone and issues no state
    command. *)
Theorem basic_player_input w :
  BasicPlayback.io_callback (G_IO_STATUS_NORMAL "q") w
  = (true, with_running false (with_log (log w ++ [MainLoopQuit]) w))
  /\ (forall P, position (playbin w) = Some P -> is_gint64 P ->
      (P > 10 * GST_SECOND ->
       BasicPlayback.io_callback (G_IO_STATUS_NORMAL "f") w
       = (true, with_log (log w ++ [ElementSeekSimple GST_SEEK_FLAG_FLUSH
                                      (P - 10 * GST_SECOND)]) w))
      /\ (P <= 10 * GST_SECOND ->
          BasicPlayback.io_callback (G_IO_STATUS_NORMAL "f") w
          = (true, with_log (log w ++ [ElementSeekSimple GST_SEEK_FLAG_FLUSH 0])
                     w))
      /\ (P + 10 * GST_SECOND <= G_MAXINT64 ->
          BasicPlayback.io_callback (G_IO_STATUS_NORMAL "g") w
          = (true, with_log (log w ++ [ElementSeekSimple GST_SEEK_FLAG_FLUSH
                                         (P + 10 * GST_SECOND)]) w)))
  /\ (position (playbin w) = None ->
      BasicPlayback.io_callback (G_IO_STATUS_NORMAL "f") w = (true, w)
      /\ BasicPlayback.io_callback (G_IO_STATUS_NORMAL "g") w = (true, w))
  /\ (forall c, ~ In c ["q"; "f"; "g"]%char ->
                BasicPlayback.io_callback (G_IO_STATUS_NORMAL c) w = (true, w))
  /\ BasicPlayback.io_callback G_IO_STATUS_AGAIN w = (true, w)
  /\ BasicPlayback.io_callback G_IO_STATUS_EOF w = (false, w)
  /\ (forall message,
      BasicPlayback.io_callback (G_IO_STATUS_ERROR message) w
      = (false, with_running false
                  (with_log (log w ++ [GPrintErr "stdin IO error: %s\n"
                                         [ArgS message];
                                       MainLoopQuit]) w)))
  /\ (forall status,
      let w' := exec (BasicPlayback.io_callback status) w in
      data w' = data w /\ playbin w' = playbin w
      /\ state_commands (log w') = state_commands (log w)).
Proof.
  split; [|split; [|split; [|split; [|split; [|split; [|split]]]]]].
  - destruct w. reflexivity.
  - intros P Q R. destruct w as [d pb run src nxt lg]. cbn [playbin log] in *.
    unfold is_gint64, G_MININT64, G_MAXINT64, GST_SECOND in *.
    unfold BasicPlayback.io_callback, BasicPlayback.on_key, BasicPlayback.seek.
    change (Ascii.eqb "f" "q") with false. change (Ascii.eqb "f" "f") with true.
    change (Ascii.eqb "g" "q") with false. change (Ascii.eqb "g" "f") with false.
    change (Ascii.eqb "g" "g") with true. cbv iota.
    split; [|split]; intros H; run_cb; rewrite Q; cbn [fst snd];
      unfold GST_SECOND.
    + replace (P >? 10 * 1000000000) with true by (symmetry; apply Z.gtb_lt; lia).
      rewrite to_gint64_id;
        [reflexivity|unfold is_gint64, G_MININT64, G_MAXINT64; lia].
    + replace (P >? 10 * 1000000000) with false; [reflexivity|].
      symmetry. rewrite Z.gtb_ltb. apply Z.ltb_ge. lia.
    + rewrite to_gint64_id;
        [reflexivity|unfold is_gint64, G_MININT64, G_MAXINT64; lia].
  - intros Q. destruct w as [d pb run src nxt lg]. cbn [playbin] in Q.
    unfold BasicPlayback.io_callback, BasicPlayback.on_key, BasicPlayback.seek.
    change (Ascii.eqb "f" "q") with false. change (Ascii.eqb "f" "f") with true.
    change (Ascii.eqb "g" "q") with false. change (Ascii.eqb "g" "f") with false.
    change (Ascii.eqb "g" "g") with true. cbv iota.
    split; run_cb; rewrite Q; reflexivity.
  - intros c N. unfold BasicPlayback.io_callback, BasicPlayback.on_key, bind, ret.
    assert (E : forall k, In k ["q"; "f"; "g"]%char -> Ascii.eqb c k = false).
    { intros k K. apply Ascii.eqb_neq. intros ->. exact (N K). }
    rewrite !E by (cbn; tauto). reflexivity.
  - reflexivity.
  - reflexivity.
  - intros message. destruct w.
    unfold BasicPlayback.io_callback. run_cb. rewrite <- app_assoc. reflexivity.
  - intros status. cbv zeta.
    destruct w as [d [u f ca na ct nt p] run src nxt lg].
    destruct status as [m|c| |];
      unfold exec, BasicPlayback.io_callback, BasicPlayback.on_key, BasicPlayback.seek.
    + run_cb. close_frame.
    + destruct (Ascii.eqb c "q"); [run_cb; close_frame|].
      destruct (Ascii.eqb c "f"); [destruct p; run_cb; close_frame|].
      destruct (Ascii.eqb c "g"); [destruct p; run_cb; close_frame|].
      run_cb; close_frame.
    + run_cb; close_frame.
    + run_cb; close_frame.
Qed.

Lemma basic_player_input_witness :
  BasicPlayback.io_callback (G_IO_STATUS_NORMAL "s") sample_world
  = (true, sample_world)
  /\ BasicPlayback.io_callback (G_IO_STATUS_NORMAL "f")
       (at_position (Some (5 * GST_SECOND)) sample_world)
     = (true, with_log [ElementSeekSimple GST_SEEK_FLAG_FLUSH 0]
                (at_position (Some (5 * GST_SECOND)) sample_world))
  /\ BasicPlayback.io_callback (G_IO_STATUS_NORMAL "g") sample_world
     = (true, with_log [ElementSeekSimple GST_SEEK_FLAG_FLUSH (40 * GST_SECOND)]
                sample_world).
Proof.
  split; [|split].
  - refine (proj1 (proj2 (proj2 (proj2 (basic_player_input sample_world))))
              "s"%char _).
    cbn. intuition discriminate.
  - refine (proj1 (proj2 (proj1 (proj2 (basic_player_input
                (at_position (Some (5 * GST_SECOND)) sample_world)))
              (5 * GST_SECOND) eq_refl _)) _).
    + vm_compute. split; discriminate.
    + vm_compute. discriminate.
  - refine (proj2 (proj2 (proj1 (proj2 (basic_player_input sample_world))
              (30 * GST_SECOND) eq_refl _)) _).
    + vm_compute. split; discriminate.
    + vm_compute. discriminate.
Defined.

(** ** The wait before the pipeline *)

(** X25. The wait comes first.  In every run of the player, whatever
    constructs or commands the pipeline (the creation of playbin, every
    state command, the start command among them, every seek) comes after
    the call that waits for clock synchronisation, which is made without a
    timeout; and when the port is one a clock can be made for (1 to 65535),
    it is only reached when the clock did synchronise.  With such a port
    and a clock that never synchronises, an accepted invocation stays
    blocked in that wait, and its log holds no pipeline action at all. *)
Theorem wait_precedes_pipeline env argv0 args :
  (forall before e after,
      log (snd (main env argv0 args)) = before ++ e :: after ->
      pipeline_action e = true ->
      In (ClockWaitForSync GST_CLOCK_TIME_NONE) before
      /\ exists st host file,
           accepted args st host file
           /\ (valid_port (clock_port st) = true -> clock_syncs env = true))
  /\ (forall st host file,
      accepted args st host file ->
      valid_port (clock_port st) = true -> clock_syncs env = false ->
      fst (main env argv0 args) = Blocked
      /\ forallb (fun e => negb (pipeline_action e))
           (log (snd (main env argv0 args))) = true).
Proof.
  split.
  - intros before e after L He.
    destruct (invocation_cases args)
      as [(m & P)|[P|[(st & argv & P & C)|(st & host & file & Acc)]]].
    + rewrite (main_parse_error _ _ _ _ P) in L.
      apply no_action_in in L; [congruence|reflexivity].
    + rewrite (main_help _ _ _ P) in L.
      apply no_action_in in L; [congruence|reflexivity].
    + rewrite (main_usage _ _ _ _ _ P C) in L.
      apply no_action_in in L; [congruence|reflexivity].
    + destruct (wait_returns env st) eqn:S.
      * split.
        -- destruct (playbin_available env) eqn:A.
           ++ destruct (main_run_shape_gen _ argv0 _ _ _ _ Acc S A)
                as (d & _ & [(_ & _ & L')|(_ & _ & L')]);
                destruct (startup_log_head env st host file) as (rest & R);
                rewrite L', R in L; cbn [app] in L;
                (eapply after_the_wait; [| |exact L|exact He]; reflexivity).
           ++ rewrite (main_no_playbin _ _ _ _ _ _ Acc S A) in L.
              cbn [snd log with_log initial_world] in L.
              (eapply after_the_wait; [| |exact L|exact He]; reflexivity).
        -- exists st, host, file. split; [exact Acc|].
           intros V. unfold wait_returns in S. rewrite V in S. exact S.
      * rewrite (main_blocked _ _ _ _ _ _ Acc S) in L.
        apply no_action_in in L; [congruence|reflexivity].
  - intros st host file Acc V S.
    assert (W : wait_returns env st = false)
      by (unfold wait_returns; rewrite V, S; reflexivity).
    rewrite (main_blocked _ _ _ _ _ _ Acc W). split; reflexivity.
Qed.

Lemma wait_precedes_pipeline_witness :
  In (ClockWaitForSync GST_CLOCK_TIME_NONE)
    [NetClientClockNew "192.168.1.10" 8554;
     ClockWaitForSync GST_CLOCK_TIME_NONE;
     GPrint "Network clock is synched to master\n" []]
  /\ fst (main (silent_env sample_iterations) "playback" sample_args) = Blocked.
Proof.
  split.
  - refine (proj1 (proj1 (wait_precedes_pipeline (sample_env sample_iterations)
                            "playback" sample_args)
                     _ (ElementFactoryMake "playbin" "playbin") _ _ eq_refl)).
    vm_compute. reflexivity.
  - refine (proj1 (proj2 (wait_precedes_pipeline (silent_env sample_iterations)
                            "playback" sample_args)
                     (mkStatics (Some "192.168.1.10") 8554 1234567890)
                     "192.168.1.10" "file:///tmp/sintel.ogv"
                     _ eq_refl eq_refl)).
    exists []. repeat split; discriminate.
Defined.


End PlaybackExtra.

(** * Further properties of the clock provider *)

Module NetclockServerExtra.
Import NetclockServer NetclockServerSpec.

(** X23. The provider does not notice that it has no provider.  When
    [gst_net_time_provider_new] returns nothing (the port is taken, say),
    [main] still prints that the clock is published, with the port it asked
    for, reports no error, and goes on printing the time every second
    without ever returning; the clean-up after the loop is never reached. *)
Theorem server_without_provider env args :
  provider_port env (requested_port args) = None ->
  fst (main env args) = LoopRunning
  /\ log (snd (main env args))
     = [MainLoopNew;
        NetTimeProviderNew (requested_port args);
        GPrint "Published network clock on port %u\n"
          [ArgZ (to_guint (requested_port args))];
        GTimeoutAddSeconds 1;
        MainLoopRun]
       ++ map time_line (clock_readings env)
  /\ ~ In MainLoopUnref (log (snd (main env args)))
  /\ timer_attached (snd (main env args)) = true.
Proof.
  intros N.
  assert (P : (if 1 + Z.of_nat (List.length args) >? 1 then atoi (hd ""%string args)
               else 0) = requested_port args).
  { destruct args as [|a args]; [reflexivity|].
    replace (1 + Z.of_nat (List.length (a :: args)) >? 1) with true; [reflexivity|].
    symmetry. apply Z.gtb_lt. cbn [List.length]. lia. }
  assert (E : main env args
              = (LoopRunning,
                 mkWorld true true
                   ([MainLoopNew;
                     NetTimeProviderNew (requested_port args);
                     GPrint "Published network clock on port %u\n"
                       [ArgZ (to_guint (requested_port args))];
                     GTimeoutAddSeconds 1;
                     MainLoopRun]
                    ++ map time_line (clock_readings env)))).
  { unfold main, g_main_loop_run. rewrite P, N. unfold emit.
    cbn [loop_is_running timer_attached log app].
    rewrite iterate_never_returns by reflexivity. reflexivity. }
  rewrite E. cbn [fst snd log timer_attached]. repeat split.
  intros I. apply in_app_or in I as [I|I].
  - cbn in I. intuition discriminate.
  - apply in_map_iff in I as (now & H & _). discriminate H.
Qed.

Lemma server_without_provider_witness :
  fst (main (mkEnv (fun _ => None) [10; 1000000010]) ["8554"%string]) = LoopRunning.
Proof.
  exact (proj1 (server_without_provider (mkEnv (fun _ => None) [10; 1000000010])
                  ["8554"%string] eq_refl)).
Defined.

End NetclockServerExtra.
